(** * Real-Time Sensor Data Logger: streaming analysis and rotating log

    A shallow embedding of the program:
    - [src/data_logger.c]: the analyzer ([init_statistics] ...
      [analyze_bridge_vibration], with [detect_anomalies_batch] and
      [calculate_rate_of_change]) and the logger ([init_data_logger],
      [configure_logger], [write_csv_header], [log_sensor_data],
      [log_sensor_data_batch], [flush_logger_buffer], [rotate_log_file],
      [get_logger_stats], [cleanup_data_logger]);
    - [src/utils.c]: [get_current_time], [format_timestamp], [time_diff_ms],
      [trim_whitespace], [parse_command_line_args], [clamp];
    - the sensor simulator ([generate_sensor_data],
      [generate_bridge_vibration_data], [generate_environmental_data_set]);
    - [src/hardware_interface.c]: the parsers of the Arduino and Modbus
      line formats and [parse_hardware_data].

    Conventions of the embedding.
    - A C [double] is a value of a carrier [D] with the operations of the
      class [DoubleOps].  Every analyzer function is written once, over that
      interface.  Two instances are given: [binary64], the IEEE 754 doubles
      of the machine (Rocq's primitive floats), on which the functions run,
      and [xreal], the extended reals (a real number, an infinity or NaN),
      the same arithmetic with no rounding.
    - A C [int] or [long] is a [Z]; where the source increments a counter
      the 32-bit wrap-around is written out ([int_wrap]).
    - Pointers are valid unless a structure field is tested against NULL in
      the source; [malloc] succeeds.  Output on the terminal is left out.
    - Files, the clock and the C library ([localtime], ["%f"], [atoi],
      [atof], [sin], [rand]) are parameters of the functions that use them;
      concrete ones are given to run the functions on. *)

From Stdlib Require Import ZArith QArith Reals Lra Lia Ascii.
From Stdlib Require Import Floats.
From Stdlib Require Uint63.
From stdpp Require Import base option list strings pretty gmap.

Set Warnings "-inexact-float".

(** ** Machine integers *)

Definition INT_MAX : Z := 2147483647.

(** A 32-bit two's complement [int] after an arithmetic operation. *)
Definition int_wrap (z : Z) : Z := ((z + 2 ^ 31) mod 2 ^ 32 - 2 ^ 31)%Z.

(** ** The arithmetic of [double] *)

Class DoubleOps (D : Type) : Type := {
  d_of_int : Z -> D;            (* (double) i, and the usual promotion *)
  d_lit : Q -> D;               (* a decimal literal of the source *)
  d_infinity : D;               (* INFINITY of <math.h> *)
  d_neg : D -> D;
  d_add : D -> D -> D;
  d_sub : D -> D -> D;
  d_mul : D -> D -> D;
  d_div : D -> D -> D;
  d_sqrt : D -> D;
  d_fabs : D -> D;
  d_ltb : D -> D -> bool;       (* x < y *)
  d_leb : D -> D -> bool;       (* x <= y *)
  d_eqb : D -> D -> bool        (* x == y *)
}.

Declare Scope dbl_scope.
Delimit Scope dbl_scope with dbl.
Infix "+." := d_add (at level 50, left associativity) : dbl_scope.
Infix "-." := d_sub (at level 50, left associativity) : dbl_scope.
Infix "*." := d_mul (at level 40, left associativity) : dbl_scope.
Infix "/." := d_div (at level 40, left associativity) : dbl_scope.
Infix "<." := d_ltb (at level 70, no associativity) : dbl_scope.
Infix "<=." := d_leb (at level 70, no associativity) : dbl_scope.
Infix "==." := d_eqb (at level 70, no associativity) : dbl_scope.
Notation "x >. y" := (d_ltb y x) (at level 70, no associativity) : dbl_scope.
Notation "x >=. y" := (d_leb y x) (at level 70, no associativity) : dbl_scope.
Open Scope dbl_scope.

(** *** IEEE 754 binary64 *)

Definition float_of_Z (z : Z) : float :=
  if (z <? 0)%Z then PrimFloat.opp (PrimFloat.of_uint63 (Uint63.of_Z (- z)))
  else PrimFloat.of_uint63 (Uint63.of_Z z).

(** A decimal literal [n/d] with [n] and [d] below 2^53 is the correctly
    rounded quotient of the two integers, which is what the C compiler
    stores for it. *)
Definition float_of_Q (q : Q) : float :=
  PrimFloat.div (float_of_Z (Qnum q)) (float_of_Z (Zpos (Qden q))).

#[export] Instance binary64 : DoubleOps float := {|
  d_of_int := float_of_Z;
  d_lit := float_of_Q;
  d_infinity := PrimFloat.infinity;
  d_neg := PrimFloat.opp;
  d_add := PrimFloat.add;
  d_sub := PrimFloat.sub;
  d_mul := PrimFloat.mul;
  d_div := PrimFloat.div;
  d_sqrt := PrimFloat.sqrt;
  d_fabs := PrimFloat.abs;
  d_ltb := PrimFloat.ltb;
  d_leb := PrimFloat.leb;
  d_eqb := PrimFloat.eqb
|}.

(** *** Extended reals: the same arithmetic, exact *)

Inductive xreal : Type :=
  | XFin (r : R)
  | XInf (negative : bool)
  | XNaN.

#[export] Instance Rlt_decision (x y : R) : Decision (x < y)%R := Rlt_dec x y.
#[export] Instance Rle_decision (x y : R) : Decision (x <= y)%R := Rle_dec x y.
#[export] Instance Req_decision (x y : R) : Decision (x = y) := Req_dec_T x y.

Definition Rneg_b (r : R) : bool := bool_decide (r < 0)%R.

Definition xneg (x : xreal) : xreal :=
  match x with
  | XFin r => XFin (- r)
  | XInf s => XInf (negb s)
  | XNaN => XNaN
  end.

Definition xadd (x y : xreal) : xreal :=
  match x, y with
  | XNaN, _ | _, XNaN => XNaN
  | XFin a, XFin b => XFin (a + b)
  | XFin _, XInf s | XInf s, XFin _ => XInf s
  | XInf s, XInf t => if Bool.eqb s t then XInf s else XNaN
  end.

Definition xsub (x y : xreal) : xreal := xadd x (xneg y).

Definition xmul (x y : xreal) : xreal :=
  match x, y with
  | XNaN, _ | _, XNaN => XNaN
  | XFin a, XFin b => XFin (a * b)
  | XFin a, XInf s | XInf s, XFin a =>
      if bool_decide (a = 0%R) then XNaN else XInf (xorb s (Rneg_b a))
  | XInf s, XInf t => XInf (xorb s t)
  end.

Definition xdiv (x y : xreal) : xreal :=
  match x, y with
  | XNaN, _ | _, XNaN => XNaN
  | XFin a, XFin b =>
      if bool_decide (b = 0%R)
      then (if bool_decide (a = 0%R) then XNaN else XInf (Rneg_b a))
      else XFin (a / b)
  | XFin _, XInf _ => XFin 0
  | XInf s, XFin b => XInf (xorb s (Rneg_b b))
  | XInf _, XInf _ => XNaN
  end.

Definition xsqrt (x : xreal) : xreal :=
  match x with
  | XFin a => if bool_decide (a < 0)%R then XNaN else XFin (R_sqrt.sqrt a)
  | XInf false => XInf false
  | XInf true => XNaN
  | XNaN => XNaN
  end.

Definition xfabs (x : xreal) : xreal :=
  match x with
  | XFin a => XFin (Rabs a)
  | XInf _ => XInf false
  | XNaN => XNaN
  end.

Definition xltb (x y : xreal) : bool :=
  match x, y with
  | XNaN, _ | _, XNaN => false
  | XFin a, XFin b => bool_decide (a < b)%R
  | XFin _, XInf s => negb s
  | XInf s, XFin _ => s
  | XInf s, XInf t => s && negb t
  end.

Definition xeqb (x y : xreal) : bool :=
  match x, y with
  | XNaN, _ | _, XNaN => false
  | XFin a, XFin b => bool_decide (a = b)
  | XInf s, XInf t => Bool.eqb s t
  | _, _ => false
  end.

Definition xleb (x y : xreal) : bool := xltb x y || xeqb x y.

#[export] Instance xreal_ops : DoubleOps xreal := {|
  d_of_int := fun z => XFin (IZR z);
  d_lit := fun q => XFin (Q2R q);
  d_infinity := XInf false;
  d_neg := xneg;
  d_add := xadd;
  d_sub := xsub;
  d_mul := xmul;
  d_div := xdiv;
  d_sqrt := xsqrt;
  d_fabs := xfabs;
  d_ltb := xltb;
  d_leb := xleb;
  d_eqb := xeqb
|}.

(** ** Statistics accumulator ([statistics_t]) *)

Record statistics_t (D : Type) : Type := mk_statistics {
  st_mean : D;
  st_min : D;
  st_max : D;
  st_std_deviation : D;
  st_variance : D;
  st_median : D;
  st_sample_count : Z;
  st_sum : D;
  st_sum_squares : D
}.
Arguments mk_statistics {D}.
Arguments st_mean {D}.
Arguments st_min {D}.
Arguments st_max {D}.
Arguments st_std_deviation {D}.
Arguments st_variance {D}.
Arguments st_median {D}.
Arguments st_sample_count {D}.
Arguments st_sum {D}.
Arguments st_sum_squares {D}.

Section Statistics.
Context {D : Type} `{DoubleOps D}.

Definition init_statistics : statistics_t D :=
  {| st_mean := d_lit 0;
     st_min := d_infinity;
     st_max := d_neg d_infinity;
     st_std_deviation := d_lit 0;
     st_variance := d_lit 0;
     st_median := d_lit 0;
     st_sample_count := 0;
     st_sum := d_lit 0;
     st_sum_squares := d_lit 0 |}.

Definition update_statistics (stats : statistics_t D) (value : D)
  : statistics_t D :=
  {| st_mean := st_mean stats;
     st_min := if value <. st_min stats then value else st_min stats;
     st_max := if value >. st_max stats then value else st_max stats;
     st_std_deviation := st_std_deviation stats;
     st_variance := st_variance stats;
     st_median := st_median stats;
     st_sample_count := int_wrap (st_sample_count stats + 1);
     st_sum := st_sum stats +. value;
     st_sum_squares := st_sum_squares stats +. value *. value |}.

Definition finalize_statistics (stats : statistics_t D) : statistics_t D :=
  if (st_sample_count stats =? 0)%Z then stats
  else
    let n := d_of_int (st_sample_count stats) in
    let mean := st_sum stats /. n in
    let variance := st_sum_squares stats /. n -. mean *. mean in
    {| st_mean := mean;
       st_min := st_min stats;
       st_max := st_max stats;
       st_std_deviation := d_sqrt variance;
       st_variance := variance;
       st_median := mean;
       st_sample_count := st_sample_count stats;
       st_sum := st_sum stats;
       st_sum_squares := st_sum_squares stats |}.

(** The statistics after a whole stream of readings. *)
Definition accumulate (values : list D) : statistics_t D :=
  fold_left update_statistics values init_statistics.

(** *** The reference: one scan of the whole sequence per quantity *)

Fixpoint scan_sum (acc : D) (values : list D) : D :=
  match values with
  | [] => acc
  | v :: rest => scan_sum (acc +. v) rest
  end.

Fixpoint scan_min (acc : D) (values : list D) : D :=
  match values with
  | [] => acc
  | v :: rest => scan_min (if v <. acc then v else acc) rest
  end.

Fixpoint scan_max (acc : D) (values : list D) : D :=
  match values with
  | [] => acc
  | v :: rest => scan_max (if v >. acc then v else acc) rest
  end.

Definition ref_count (values : list D) : Z := Z.of_nat (length values).
Definition ref_sum (values : list D) : D := scan_sum (d_lit 0) values.
Definition ref_min (values : list D) : D := scan_min d_infinity values.
Definition ref_max (values : list D) : D :=
  scan_max (d_neg d_infinity) values.
Definition ref_mean (values : list D) : D :=
  ref_sum values /. d_of_int (ref_count values).
Definition ref_mean_of_squares (values : list D) : D :=
  ref_sum (map (fun v => v *. v) values) /. d_of_int (ref_count values).
Definition ref_variance (values : list D) : D :=
  ref_mean_of_squares values -. ref_mean values *. ref_mean values.

End Statistics.

(** ** Readings ([precise_time_t], [sensor_data_t]) *)

Record precise_time_t : Type := mk_time {
  pt_timestamp : Z;      (* time_t, seconds *)
  pt_nanoseconds : Z
}.

Record sensor_data_t (D : Type) : Type := mk_sensor_data {
  sd_type : Z;           (* sensor_type_t, an int-valued enum *)
  sd_value : D;
  sd_timestamp : precise_time_t;
  sd_unit : string;
  sd_description : string
}.
Arguments mk_sensor_data {D}.
Arguments sd_type {D}.
Arguments sd_value {D}.
Arguments sd_timestamp {D}.
Arguments sd_unit {D}.
Arguments sd_description {D}.

(** [a[i] = v] on a C array held as a list.  A store outside the array is
    undefined in C (the program crashes or overwrites other memory); the
    embedding leaves the list as it is there, and what is stated of a
    store is stated for an index inside the array. *)
Definition array_store {A : Type} (a : list A) (i : Z) (v : A) : list A :=
  if (i <? 0)%Z then a else <[Z.to_nat i := v]> a.

(** ** Moving average filter ([moving_average_t]) *)

Record moving_average_t (D : Type) : Type := mk_moving_average {
  ma_buffer : option (list D);   (* None is the NULL pointer *)
  ma_buffer_size : Z;
  ma_current_index : Z;
  ma_sample_count : Z;
  ma_sum : D
}.
Arguments mk_moving_average {D}.
Arguments ma_buffer {D}.
Arguments ma_buffer_size {D}.
Arguments ma_current_index {D}.
Arguments ma_sample_count {D}.
Arguments ma_sum {D}.

Section MovingAverage.
Context {D : Type} `{DoubleOps D}.

(** [a[i]] for a C array held as a list.  A read outside the array is
    undefined in C; the embedding yields 0.0 there. *)
Definition array_get (a : list D) (i : Z) : D :=
  if (i <? 0)%Z then d_lit 0 else default (d_lit 0) (a !! Z.to_nat i).

(** Returns the status code and the filter: [-1] leaves [ma] untouched. *)
Definition init_moving_average (ma : moving_average_t D) (window_size : Z)
  : Z * moving_average_t D :=
  if (window_size <=? 0)%Z then (-1, ma)%Z
  else
    (0%Z,
     {| ma_buffer := Some (replicate (Z.to_nat window_size) (d_lit 0));
        ma_buffer_size := window_size;
        ma_current_index := 0;
        ma_sample_count := 0;
        ma_sum := d_lit 0 |}).

Definition update_moving_average (ma : moving_average_t D) (value : D)
  : D * moving_average_t D :=
  match ma_buffer ma with
  | None => (d_lit 0, ma)
  | Some buffer =>
      let full := (ma_buffer_size ma <=? ma_sample_count ma)%Z in
      (* Remove old value from sum if buffer is full *)
      let sum1 :=
        if full then ma_sum ma -. array_get buffer (ma_current_index ma)
        else ma_sum ma in
      let count1 :=
        if full then ma_sample_count ma
        else int_wrap (ma_sample_count ma + 1) in
      (* Add new value *)
      let buffer1 := array_store buffer (ma_current_index ma) value in
      let sum2 := sum1 +. value in
      (* Update index (circular buffer); C's % truncates, and a size of 0,
         which [init_moving_average] refuses, would be a division by zero *)
      let index1 := Z.rem (int_wrap (ma_current_index ma + 1))
                          (ma_buffer_size ma) in
      (sum2 /. d_of_int count1,
       {| ma_buffer := Some buffer1;
          ma_buffer_size := ma_buffer_size ma;
          ma_current_index := index1;
          ma_sample_count := count1;
          ma_sum := sum2 |})
  end.

Definition get_moving_average (ma : moving_average_t D) : D :=
  if (ma_sample_count ma =? 0)%Z then d_lit 0
  else ma_sum ma /. d_of_int (ma_sample_count ma).

(** Feed a stream of values; the averages returned, oldest first, and the
    final filter. *)
Fixpoint run_moving_average (ma : moving_average_t D) (values : list D)
  : list D * moving_average_t D :=
  match values with
  | [] => ([], ma)
  | v :: rest =>
      let '(avg, ma1) := update_moving_average ma v in
      let '(avgs, ma2) := run_moving_average ma1 rest in
      (avg :: avgs, ma2)
  end.

End MovingAverage.

(** ** Anomaly detector *)

Record anomaly_config_t (D : Type) : Type := mk_anomaly_config {
  ac_threshold_multiplier : D;
  ac_absolute_threshold : D;
  ac_window_size : Z;
  ac_min_samples_for_analysis : Z
}.
Arguments mk_anomaly_config {D}.
Arguments ac_threshold_multiplier {D}.
Arguments ac_absolute_threshold {D}.
Arguments ac_window_size {D}.
Arguments ac_min_samples_for_analysis {D}.

Record anomaly_result_t (D : Type) : Type := mk_anomaly_result {
  ar_is_anomaly : Z;
  ar_severity : D;
  ar_description : string;
  ar_detected_at : precise_time_t
}.
Arguments mk_anomaly_result {D}.
Arguments ar_is_anomaly {D}.
Arguments ar_severity {D}.
Arguments ar_description {D}.
Arguments ar_detected_at {D}.

(** [snprintf(buf, size, ...)]: at most [size - 1] characters are kept. *)
Definition snprintf_trunc (size : nat) (s : string) : string :=
  String.substring 0 (size - 1) s.

Section Anomaly.
Context {D : Type} `{DoubleOps D}.
(** The C library's rendering of ["%.Nf"] for a double. *)
Variable fmt_f : nat -> D -> string.

Definition detect_anomaly (data : sensor_data_t D)
    (baseline_stats : statistics_t D) (config : anomaly_config_t D)
  : anomaly_result_t D :=
  let result :=
    {| ar_is_anomaly := 0;
       ar_severity := d_lit 0;
       ar_description := "Normal";
       ar_detected_at := sd_timestamp data |} in
  if (st_sample_count baseline_stats <? ac_min_samples_for_analysis config)%Z
  then result
  else
    let deviation := d_fabs (sd_value data -. st_mean baseline_stats) in
    let threshold :=
      ac_threshold_multiplier config *. st_std_deviation baseline_stats in
    (* Check statistical threshold *)
    let result1 :=
      if deviation >. threshold then
        let severity := deviation /. st_std_deviation baseline_stats in
        {| ar_is_anomaly := 1;
           ar_severity := severity;
           ar_description :=
             snprintf_trunc 128
               ("Statistical anomaly: " +:+ fmt_f 2 severity
                +:+ " std devs from mean");
           ar_detected_at := ar_detected_at result |}
      else result in
    (* Check absolute threshold *)
    if d_fabs (sd_value data) >. ac_absolute_threshold config then
      if ar_severity result1 ==. d_lit 0 then
        {| ar_is_anomaly := 1;
           ar_severity :=
             d_fabs (sd_value data) /. ac_absolute_threshold config;
           ar_description :=
             snprintf_trunc 128
               ("Absolute threshold exceeded: " +:+ fmt_f 2 (sd_value data));
           ar_detected_at := ar_detected_at result1 |}
      else
        {| ar_is_anomaly := 1;
           ar_severity := ar_severity result1;
           ar_description := ar_description result1;
           ar_detected_at := ar_detected_at result1 |}
    else result1.

End Anomaly.

(** ** Trend estimator *)

Record trend_analysis_t (D : Type) : Type := mk_trend_analysis {
  ta_slope : D;
  ta_correlation : D;
  ta_trend_direction : string;
  ta_confidence : D
}.
Arguments mk_trend_analysis {D}.
Arguments ta_slope {D}.
Arguments ta_correlation {D}.
Arguments ta_trend_direction {D}.
Arguments ta_confidence {D}.

Section Trend.
Context {D : Type} `{DoubleOps D}.

(** [data_array[i].value], with the convention of [array_get] outside the
    array. *)
Definition sample_value (data_array : list (sensor_data_t D)) (i : Z) : D :=
  if (i <? 0)%Z then d_lit 0
  else match data_array !! Z.to_nat i with
       | Some d => sd_value d
       | None => d_lit 0
       end.

(** The result [analyze_trend] starts from, and returns when it has too
    little to work with. *)
Definition neutral_trend : trend_analysis_t D :=
  {| ta_slope := d_lit 0;
     ta_correlation := d_lit 0;
     ta_trend_direction := "stable";
     ta_confidence := d_lit 0 |}.

(** First loop: [(sum_x, sum_y, sum_xy, sum_x2)] over the window. *)
Definition regression_sums (data_array : list (sensor_data_t D))
    (start_idx window_size : Z) : D * D * D * D :=
  fold_left
    (fun '(sum_x, sum_y, sum_xy, sum_x2) i =>
       let x := d_of_int i in
       let y := sample_value data_array (start_idx + i) in
       (sum_x +. x, sum_y +. y, sum_xy +. x *. y, sum_x2 +. x *. x))
    (seqZ 0 window_size)
    (d_lit 0, d_lit 0, d_lit 0, d_lit 0).

Definition regression_denominator (data_array : list (sensor_data_t D))
    (count window_size : Z) : D :=
  let '(sum_x, _, _, sum_x2) :=
    regression_sums data_array (count - window_size) window_size in
  d_of_int window_size *. sum_x2 -. sum_x *. sum_x.

(** Second loop: [(sum_dx2, sum_dy2, sum_dxdy)]. *)
Definition deviation_sums (data_array : list (sensor_data_t D))
    (start_idx window_size : Z) (mean_x mean_y : D) : D * D * D :=
  fold_left
    (fun '(sum_dx2, sum_dy2, sum_dxdy) i =>
       let x := d_of_int i in
       let y := sample_value data_array (start_idx + i) in
       let dx := x -. mean_x in
       let dy := y -. mean_y in
       (sum_dx2 +. dx *. dx, sum_dy2 +. dy *. dy, sum_dxdy +. dx *. dy))
    (seqZ 0 window_size)
    (d_lit 0, d_lit 0, d_lit 0).

Definition analyze_trend (data_array : list (sensor_data_t D))
    (count window_size : Z) : trend_analysis_t D :=
  let trend := neutral_trend in
  if ((count <? window_size) || (window_size <? 2))%Z then trend
  else
    (* Use the last 'window_size' points for trend analysis *)
    let start_idx := (count - window_size)%Z in
    let '(sum_x, sum_y, sum_xy, sum_x2) :=
      regression_sums data_array start_idx window_size in
    let n := d_of_int window_size in
    let denominator := n *. sum_x2 -. sum_x *. sum_x in
    if d_fabs denominator >. d_lit (1 # 10000000000) then
      let slope := (n *. sum_xy -. sum_x *. sum_y) /. denominator in
      let mean_x := sum_x /. n in
      let mean_y := sum_y /. n in
      let '(sum_dx2, sum_dy2, sum_dxdy) :=
        deviation_sums data_array start_idx window_size mean_x mean_y in
      let '(correlation, confidence) :=
        if (sum_dx2 >. d_of_int 0) && (sum_dy2 >. d_of_int 0) then
          let correlation := sum_dxdy /. d_sqrt (sum_dx2 *. sum_dy2) in
          (correlation, d_fabs correlation)
        else (ta_correlation trend, ta_confidence trend) in
      {| ta_slope := slope;
         ta_correlation := correlation;
         ta_trend_direction :=
           if d_fabs slope <. d_lit (1 # 1000000) then "stable"
           else if slope >. d_of_int 0 then "increasing"
           else "decreasing";
         ta_confidence := confidence |}
    else trend.

End Trend.

(** ** Peak frequency estimator *)

Section Frequency.
Context {D : Type} `{DoubleOps D}.

(** One iteration of the peak loop at index [i]: the state is
    [(peak_count, *amplitude)]. *)
Definition peak_step (values : list D) (st : Z * D) (i : Z) : Z * D :=
  let '(peak_count, amplitude) := st in
  if (array_get values i >. array_get values (i - 1))
     && (array_get values i >. array_get values (i + 1))
  then (int_wrap (peak_count + 1),
        if array_get values i >. amplitude then array_get values i
        else amplitude)
  else (peak_count, amplitude).

(** [None] is the return code [-1], with both outputs untouched; [Some
    (dominant_frequency, amplitude)] is the return code [0] with the values
    stored through the two pointers. *)
Definition analyze_frequency_spectrum (values : list D) (count : Z)
  : option (D * D) :=
  if (count <? 4)%Z then None
  else
    let total_time := d_of_int count *. d_lit (1 # 10) in
    let '(peak_count, amplitude) :=
      fold_left (peak_step values) (seqZ 1 (count - 2)) (0%Z, d_lit 0) in
    let dominant_frequency :=
      if (0 <? peak_count)%Z && (total_time >. d_of_int 0)
      then d_of_int peak_count /. total_time
      else d_lit 0 in
    Some (dominant_frequency, amplitude).

End Frequency.

(** ** Bridge vibration classifier *)

Record bridge_analysis_t (D : Type) : Type := mk_bridge_analysis {
  ba_rms_amplitude : D;
  ba_peak_amplitude : D;
  ba_dominant_frequency : D;
  ba_safety_status : Z;        (* 0 = safe, 1 = warning, 2 = critical *)
  ba_safety_message : string
}.
Arguments mk_bridge_analysis {D}.
Arguments ba_rms_amplitude {D}.
Arguments ba_peak_amplitude {D}.
Arguments ba_dominant_frequency {D}.
Arguments ba_safety_status {D}.
Arguments ba_safety_message {D}.

Section Bridge.
Context {D : Type} `{DoubleOps D}.

(** The loop computing [(sum_squares, peak_amplitude)]. *)
Definition bridge_sums (vibration_data : list (sensor_data_t D))
    (count : Z) : D * D :=
  fold_left
    (fun '(sum_squares, peak) i =>
       let value := sample_value vibration_data i in
       (sum_squares +. value *. value,
        if value >. peak then value else peak))
    (seqZ 0 count)
    (d_lit 0, d_lit 0).

Definition analyze_bridge_vibration (vibration_data : list (sensor_data_t D))
    (count : Z) : bridge_analysis_t D :=
  let analysis :=
    {| ba_rms_amplitude := d_lit 0;
       ba_peak_amplitude := d_lit 0;
       ba_dominant_frequency := d_lit 0;
       ba_safety_status := 0;
       ba_safety_message := "Insufficient data" |} in
  if (count <? 10)%Z then analysis
  else
    (* Calculate RMS amplitude *)
    let '(sum_squares, peak_amplitude) :=
      bridge_sums vibration_data count in
    let rms_amplitude := d_sqrt (sum_squares /. d_of_int count) in
    (* Extract values for frequency analysis *)
    let values := map (sample_value vibration_data) (seqZ 0 count) in
    let dominant_frequency :=
      match analyze_frequency_spectrum values count with
      | Some (frequency, _) => frequency
      | None => ba_dominant_frequency analysis
      end in
    (* Safety assessment based on typical bridge vibration limits *)
    if (rms_amplitude <. d_lit (1 # 10)) && (peak_amplitude <. d_lit (3 # 10))
    then
      {| ba_rms_amplitude := rms_amplitude;
         ba_peak_amplitude := peak_amplitude;
         ba_dominant_frequency := dominant_frequency;
         ba_safety_status := 0;
         ba_safety_message := "Normal vibration levels - Bridge is safe" |}
    else if (rms_amplitude <. d_lit (3 # 10))
            && (peak_amplitude <. d_lit (8 # 10))
    then
      {| ba_rms_amplitude := rms_amplitude;
         ba_peak_amplitude := peak_amplitude;
         ba_dominant_frequency := dominant_frequency;
         ba_safety_status := 1;
         ba_safety_message := "Elevated vibration levels - Monitor closely" |}
    else
      {| ba_rms_amplitude := rms_amplitude;
         ba_peak_amplitude := peak_amplitude;
         ba_dominant_frequency := dominant_frequency;
         ba_safety_status := 2;
         ba_safety_message :=
           "CRITICAL: Excessive vibration - Immediate inspection required" |}.

End Bridge.

(** ** The operating system as the logger sees it *)

(** [struct tm], with the fields the source reads. *)
Record tm : Type := mk_tm {
  tm_year : Z;
  tm_mon : Z;
  tm_mday : Z;
  tm_hour : Z;
  tm_min : Z;
  tm_sec : Z
}.

(** A [FILE*] is the path the stream was opened on; [None] is NULL.  A
    write reaches the file at once: the buffering inside stdio, and so
    [fflush], is not modelled. *)
Record world : Type := mk_world {
  w_files : gmap string string;   (* contents of the files *)
  w_open : gset string;           (* streams that are open *)
  w_clock : precise_time_t        (* CLOCK_REALTIME *)
}.

Definition newline : string := String (Ascii.ascii_of_nat 10) "".

(** ["%0Nd"]: decimal, padded with zeros to [width] characters. *)
Definition fmt_0d (width : nat) (z : Z) : string :=
  let digits := pretty (Z.abs z) in
  if (z <? 0)%Z
  then "-" +:+ String.concat "" (replicate (width - 1 - String.length digits) "0")
       +:+ digits
  else String.concat "" (replicate (width - String.length digits) "0") +:+ digits.

(** [strrchr(s, c) + 1]: what follows the last [c], when there is one. *)
Fixpoint after_last (c : Ascii.ascii) (s : string) : option string :=
  match s with
  | EmptyString => None
  | String a rest =>
      match after_last c rest with
      | Some t => Some t
      | None => if Ascii.eqb a c then Some rest else None
      end
  end.

(** The string cut at [strchr(s, c)]: what precedes the first [c]; the
    whole string when [c] does not occur. *)
Fixpoint cut_at_first (c : Ascii.ascii) (s : string) : string :=
  match s with
  | EmptyString => EmptyString
  | String a rest =>
      if Ascii.eqb a c then EmptyString else String a (cut_at_first c rest)
  end.

Definition get_current_time (w : world) : precise_time_t := w_clock w.

Definition fclose (f : string) (w : world) : world :=
  {| w_files := w_files w;
     w_open := w_open w ∖ {[f]};
     w_clock := w_clock w |}.

(** ** Buffered rotating logger *)

Record logger_config_t : Type := mk_logger_config {
  lc_filename : string;
  lc_directory : string;
  lc_max_file_size_mb : Z;
  lc_auto_rotate : Z;
  lc_buffer_size : Z;
  lc_flush_interval_ms : Z
}.

Record data_logger_t (D : Type) : Type := mk_data_logger {
  lg_file : option string;
  lg_config : logger_config_t;
  lg_current_filename : string;
  lg_current_file_size : Z;
  lg_sample_count : Z;
  lg_buffer : list (sensor_data_t D);
  lg_buffer_index : Z;
  lg_last_flush : precise_time_t
}.
Arguments mk_data_logger {D}.
Arguments lg_file {D}.
Arguments lg_config {D}.
Arguments lg_current_filename {D}.
Arguments lg_current_file_size {D}.
Arguments lg_sample_count {D}.
Arguments lg_buffer {D}.
Arguments lg_buffer_index {D}.
Arguments lg_last_flush {D}.

Definition csv_header : string :=
  "Timestamp,Sensor_Type,Value,Unit,Description" +:+ newline.

Definition sensor_type_names : list string :=
  ["Temperature"; "Vibration"; "Strain"; "Humidity";
   "Pressure"; "Accel_X"; "Accel_Y"; "Accel_Z"].

(** What the logger takes from the C library and the host. *)
Record host_t (D : Type) : Type := mk_host {
  h_fmt_f : nat -> D -> string;    (* the rendering of "%.Nf" for a double *)
  h_localtime : Z -> tm;           (* the time zone rules: localtime *)
  h_fopen_ok : string -> bool;     (* does fopen(path, "w") succeed *)
  h_fprintf_ok : string -> bool    (* does a write to the stream on path *)
}.
Arguments mk_host {D}.
Arguments h_fmt_f {D}.
Arguments h_localtime {D}.
Arguments h_fopen_ok {D}.
Arguments h_fprintf_ok {D}.

Section Logger.
Context {D : Type} `{DoubleOps D}.
Variable host : host_t D.

(** [fopen(path, "w")]: the file is created or truncated. *)
Definition fopen_w (path : string) (w : world) : option string * world :=
  if h_fopen_ok host path then
    (Some path,
     {| w_files := <[path := ""]> (w_files w);
        w_open := w_open w ∪ {[path]};
        w_clock := w_clock w |})
  else (None, w).

(** [fprintf(f, ...)] of an already formatted text: the number of bytes
    written, or a negative value.  A write that fails is taken to fail at
    once, nothing being written; stdio may as well accept the text in its
    buffer, return its length and fail when the buffer is flushed, so what
    is stated of a write is stated for a stream on which writes
    succeed. *)
Definition fprintf (f : string) (text : string) (w : world) : Z * world :=
  if h_fprintf_ok host f then
    (Z.of_nat (String.length text),
     {| w_files := <[f := default "" (w_files w !! f) +:+ text]> (w_files w);
        w_open := w_open w;
        w_clock := w_clock w |})
  else ((-1)%Z, w).

(** ["%s/%s_%04d%02d%02d_%02d%02d%02d.csv"] into [current_filename[512]]. *)
Definition log_file_name (directory base_name : string) (t : tm) : string :=
  snprintf_trunc 512
    (directory +:+ "/" +:+ base_name +:+ "_"
     +:+ fmt_0d 4 (tm_year t + 1900) +:+ fmt_0d 2 (tm_mon t + 1)
     +:+ fmt_0d 2 (tm_mday t) +:+ "_"
     +:+ fmt_0d 2 (tm_hour t) +:+ fmt_0d 2 (tm_min t) +:+ fmt_0d 2 (tm_sec t)
     +:+ ".csv").

(** [format_timestamp] of utils.c, into a buffer of 64 bytes. *)
Definition format_timestamp (time : precise_time_t) : string :=
  let t := h_localtime host (pt_timestamp time) in
  snprintf_trunc 64
    (fmt_0d 4 (tm_year t + 1900) +:+ "-" +:+ fmt_0d 2 (tm_mon t + 1) +:+ "-"
     +:+ fmt_0d 2 (tm_mday t) +:+ " " +:+ fmt_0d 2 (tm_hour t) +:+ ":"
     +:+ fmt_0d 2 (tm_min t) +:+ ":" +:+ fmt_0d 2 (tm_sec t) +:+ "."
     +:+ fmt_0d 6 (Z.quot (pt_nanoseconds time) 1000)).

(** [time_diff_ms] of utils.c. *)
Definition time_diff_ms (start finish : precise_time_t) : D :=
  let diff_sec := d_of_int (pt_timestamp finish - pt_timestamp start) in
  let diff_ns := d_of_int (pt_nanoseconds finish - pt_nanoseconds start) in
  diff_sec *. d_lit 1000 +. diff_ns /. d_lit 1000000.

(** One record of the log: ["%s,%s,%.6f,%s,%s\n"]. *)
Definition csv_line (data : sensor_data_t D) : string :=
  let timestamp_str := format_timestamp (sd_timestamp data) in
  let type_name :=
    if (0 <=? sd_type data)%Z && (sd_type data <? 8)%Z
    then default "Unknown" (sensor_type_names !! Z.to_nat (sd_type data))
    else "Unknown" in
  timestamp_str +:+ "," +:+ type_name +:+ "," +:+ h_fmt_f host 6 (sd_value data)
  +:+ "," +:+ sd_unit data +:+ "," +:+ sd_description data +:+ newline.

Definition write_csv_header (logger : data_logger_t D) (w : world)
  : Z * data_logger_t D * world :=
  match lg_file logger with
  | None => ((-1)%Z, logger, w)
  | Some f =>
      let '(bytes_written, w1) := fprintf f csv_header w in
      if (0 <? bytes_written)%Z then
        (0%Z,
         {| lg_file := lg_file logger;
            lg_config := lg_config logger;
            lg_current_filename := lg_current_filename logger;
            lg_current_file_size :=
              (lg_current_file_size logger + bytes_written)%Z;
            lg_sample_count := lg_sample_count logger;
            lg_buffer := lg_buffer logger;
            lg_buffer_index := lg_buffer_index logger;
            lg_last_flush := lg_last_flush logger |},
         w1)
      else ((-1)%Z, logger, w1)
  end.

(** The base name [rotate_log_file] recovers from the current file name. *)
Definition extract_base_name (current_filename : string) : string :=
  match after_last "/"%char current_filename with
  | Some name => cut_at_first "_"%char name
  | None => "sensor_data"
  end.

Definition rotate_log_file (logger : data_logger_t D) (w : world)
  : Z * data_logger_t D * world :=
  (* Close current file *)
  let w1 := match lg_file logger with
            | Some f => fclose f w
            | None => w
            end in
  (* Generate new filename *)
  let tm_info := h_localtime host (pt_timestamp (w_clock w1)) in
  let base_name := extract_base_name (lg_current_filename logger) in
  let current_filename :=
    log_file_name (lc_directory (lg_config logger)) base_name tm_info in
  (* Open new file *)
  let '(file, w2) := fopen_w current_filename w1 in
  match file with
  | None =>
      ((-1)%Z,
       {| lg_file := None;
          lg_config := lg_config logger;
          lg_current_filename := current_filename;
          lg_current_file_size := lg_current_file_size logger;
          lg_sample_count := lg_sample_count logger;
          lg_buffer := lg_buffer logger;
          lg_buffer_index := lg_buffer_index logger;
          lg_last_flush := lg_last_flush logger |},
       w2)
  | Some _ =>
      (* Reset file size and write header *)
      let logger1 :=
        {| lg_file := file;
           lg_config := lg_config logger;
           lg_current_filename := current_filename;
           lg_current_file_size := 0;
           lg_sample_count := lg_sample_count logger;
           lg_buffer := lg_buffer logger;
           lg_buffer_index := lg_buffer_index logger;
           lg_last_flush := lg_last_flush logger |} in
      let '(_, logger2, w3) := write_csv_header logger1 w2 in
      (0%Z, logger2, w3)
  end.

(** The body of the flush loop for one buffered reading: the state is
    [(current_file_size, world)]. *)
Definition flush_step (f : string) (st : Z * world) (data : sensor_data_t D)
  : Z * world :=
  let '(size, w) := st in
  let '(bytes_written, w1) := fprintf f (csv_line data) w in
  (if (0 <? bytes_written)%Z then (size + bytes_written)%Z else size, w1).

Definition flush_logger_buffer (logger : data_logger_t D) (w : world)
  : Z * data_logger_t D * world :=
  match lg_file logger with
  | None => (0%Z, logger, w)
  | Some f =>
      if (lg_buffer_index logger =? 0)%Z then (0%Z, logger, w)
      else
        let '(size, w1) :=
          fold_left (flush_step f)
            (take (Z.to_nat (lg_buffer_index logger)) (lg_buffer logger))
            (lg_current_file_size logger, w) in
        (* Reset buffer *)
        let logger1 :=
          {| lg_file := lg_file logger;
             lg_config := lg_config logger;
             lg_current_filename := lg_current_filename logger;
             lg_current_file_size := size;
             lg_sample_count := lg_sample_count logger;
             lg_buffer := lg_buffer logger;
             lg_buffer_index := 0;
             lg_last_flush := get_current_time w1 |} in
        (* Check if file rotation is needed *)
        if negb (lc_auto_rotate (lg_config logger) =? 0)%Z
           && (int_wrap (lc_max_file_size_mb (lg_config logger) * 1024 * 1024)
               <? size)%Z
        then rotate_log_file logger1 w1
        else (0%Z, logger1, w1)
  end.

Definition log_sensor_data (logger : data_logger_t D) (data : sensor_data_t D)
    (w : world) : Z * data_logger_t D * world :=
  (* Add to buffer *)
  let logger1 :=
    {| lg_file := lg_file logger;
       lg_config := lg_config logger;
       lg_current_filename := lg_current_filename logger;
       lg_current_file_size := lg_current_file_size logger;
       lg_sample_count := int_wrap (lg_sample_count logger + 1);
       lg_buffer :=
         array_store (lg_buffer logger) (lg_buffer_index logger) data;
       lg_buffer_index := int_wrap (lg_buffer_index logger + 1);
       lg_last_flush := lg_last_flush logger |} in
  (* Check if buffer is full or flush interval reached *)
  let current_time := get_current_time w in
  let time_since_flush := time_diff_ms (lg_last_flush logger1) current_time in
  if (lc_buffer_size (lg_config logger1) <=? lg_buffer_index logger1)%Z
     || (time_since_flush
         >=. d_of_int (lc_flush_interval_ms (lg_config logger1)))
  then flush_logger_buffer logger1 w
  else (0%Z, logger1, w).

(** [configure_logger]: the configuration is stored first, so the test
    that follows compares the new buffer size with itself. *)
Definition configure_logger (logger : data_logger_t D)
    (config : logger_config_t) : data_logger_t D :=
  let logger1 :=
    {| lg_file := lg_file logger;
       lg_config := config;
       lg_current_filename := lg_current_filename logger;
       lg_current_file_size := lg_current_file_size logger;
       lg_sample_count := lg_sample_count logger;
       lg_buffer := lg_buffer logger;
       lg_buffer_index := lg_buffer_index logger;
       lg_last_flush := lg_last_flush logger |} in
  (* Reallocate buffer if size changed *)
  if negb (lc_buffer_size config =? lc_buffer_size (lg_config logger1))%Z then
    {| lg_file := lg_file logger1;
       lg_config := lg_config logger1;
       lg_current_filename := lg_current_filename logger1;
       lg_current_file_size := lg_current_file_size logger1;
       lg_sample_count := lg_sample_count logger1;
       lg_buffer :=
         replicate (Z.to_nat (lc_buffer_size config))
           (mk_sensor_data 0 (d_lit 0) (mk_time 0 0) "" "");
       lg_buffer_index := 0;
       lg_last_flush := lg_last_flush logger1 |}
  else logger1.

(** The text a flush appends for the buffered readings, oldest first. *)
Definition records_text (entries : list (sensor_data_t D)) : string :=
  foldr (fun data text => csv_line data +:+ text) "" entries.

(** Memory fresh from [malloc] is indeterminate; the embedding fills the
    buffer with this reading. *)
Definition blank_reading : sensor_data_t D :=
  mk_sensor_data 0 (d_lit 0) (mk_time 0 0) "" "".

(** [init_data_logger].  The directory is taken to exist:
    [create_data_directory] is not modelled, and the source ignores its
    result. *)
Definition init_data_logger (logger : data_logger_t D) (base_filename : string)
    (w : world) : Z * data_logger_t D * world :=
  (* Set default configuration *)
  let config :=
    {| lc_filename := lc_filename (lg_config logger);
       lc_directory := "data";
       lc_max_file_size_mb := 10;
       lc_auto_rotate := 1;
       lc_buffer_size := 100;
       lc_flush_interval_ms := 1000 |} in
  (* Generate filename with timestamp *)
  let tm_info := h_localtime host (pt_timestamp (w_clock w)) in
  let current_filename :=
    log_file_name (lc_directory config) base_filename tm_info in
  (* Open file for writing *)
  let '(file, w1) := fopen_w current_filename w in
  match file with
  | None =>
      ((-1)%Z,
       {| lg_file := None;
          lg_config := config;
          lg_current_filename := current_filename;
          lg_current_file_size := lg_current_file_size logger;
          lg_sample_count := lg_sample_count logger;
          lg_buffer := lg_buffer logger;
          lg_buffer_index := lg_buffer_index logger;
          lg_last_flush := lg_last_flush logger |},
       w1)
  | Some _ =>
      (* Initialize buffer and state *)
      let logger1 :=
        {| lg_file := file;
           lg_config := config;
           lg_current_filename := current_filename;
           lg_current_file_size := 0;
           lg_sample_count := 0;
           lg_buffer :=
             replicate (Z.to_nat (lc_buffer_size config)) blank_reading;
           lg_buffer_index := 0;
           lg_last_flush := get_current_time w1 |} in
      (* Write CSV header *)
      let '(_, logger2, w2) := write_csv_header logger1 w1 in
      (0%Z, logger2, w2)
  end.

End Logger.

(** ** A concrete host, to run the logger on *)

(** ["%.Nf"] of a binary64 in the default rounding mode: the exact value,
    rounded half-to-even at [prec] decimals.  (The sign of a NaN is not
    rendered.) *)
Definition float_fmt_f (prec : nat) (x : float) : string :=
  let p := (10 ^ Z.of_nat prec)%Z in
  let render (negative : bool) (n : Z) : string :=
    (if negative then "-" else "") +:+ pretty (n / p)%Z
    +:+ (if (prec =? 0)%nat then "" else "." +:+ fmt_0d prec (n mod p)%Z) in
  match Prim2SF x with
  | S754_zero s => render s 0%Z
  | S754_infinity s => if s then "-inf" else "inf"
  | S754_nan => "nan"
  | S754_finite s m e =>
      let num := (Zpos m * p)%Z in
      if (0 <=? e)%Z then render s (num * 2 ^ e)%Z
      else
        let den := (2 ^ (- e))%Z in
        let q := (num / den)%Z in
        let r := (num mod den)%Z in
        render s (if (den <? 2 * r)%Z || ((den =? 2 * r)%Z && Z.odd q)
                  then (q + 1)%Z else q)
  end.

(** [localtime] on a host whose time zone is UTC (the proleptic Gregorian
    calendar, days counted from 1970-01-01). *)
Definition utc_time (t : Z) : tm :=
  let days := (t / 86400)%Z in
  let secs := (t mod 86400)%Z in
  let z := (days + 719468)%Z in
  let era := (z / 146097)%Z in
  let doe := (z - era * 146097)%Z in
  let yoe := ((doe - doe / 1460 + doe / 36524 - doe / 146096) / 365)%Z in
  let doy := (doe - (365 * yoe + yoe / 4 - yoe / 100))%Z in
  let mp := ((5 * doy + 2) / 153)%Z in
  let d := (doy - (153 * mp + 2) / 5 + 1)%Z in
  let m := (if (mp <? 10)%Z then mp + 3 else mp - 9)%Z in
  let y := (yoe + era * 400 + (if (m <=? 2)%Z then 1 else 0))%Z in
  {| tm_year := y - 1900;
     tm_mon := m - 1;
     tm_mday := d;
     tm_hour := secs / 3600;
     tm_min := (secs mod 3600) / 60;
     tm_sec := secs mod 60 |}.

Definition always (_ : string) : bool := true.

(** A host in UTC on which every [fopen] and every write succeeds. *)
Definition utc_host : host_t float :=
  mk_host float_fmt_f utc_time always always.


(** ** Reference definitions, in the words of the specification *)

(** The [c] most recent values of a stream. *)
Definition window {A : Type} (c : nat) (stream : list A) : list A :=
  drop (length stream - c) stream.

Section Reference.
Context {D : Type} `{DoubleOps D}.

(** The strict interior local maxima: the points greater than both
    neighbours, in order. *)
Fixpoint peaks (values : list D) : list D :=
  match values with
  | a :: rest =>
      match rest with
      | b :: c :: _ =>
          (if (b >. a) && (b >. c) then [b] else []) ++ peaks rest
      | _ => []
      end
  | [] => []
  end.

(** [max(peakValues)], when there is a peak. *)
Definition max_of_peaks (values : list D) : option D :=
  match peaks values with
  | [] => None
  | p :: ps => Some (scan_max p ps)
  end.

(** [peakCount / totalDurationSeconds], the duration being that of
    [length values] samples taken [sample_interval] seconds apart. *)
Definition peak_frequency (values : list D) (sample_interval : D) : D :=
  d_of_int (Z.of_nat (length (peaks values)))
  /. (d_of_int (Z.of_nat (length values)) *. sample_interval).

(** The frequency at one sample per 100 ms, 0 standing for "no peak" (or
    no duration). *)
Definition frequency_at_100ms (values : list D) : D :=
  if (0 <? Z.of_nat (length (peaks values)))%Z
     && ((d_of_int (Z.of_nat (length values)) *. d_lit (1 # 10))
         >. d_of_int 0)
  then peak_frequency values (d_lit (1 # 10))
  else d_lit 0.

(** The three safety tiers as status codes, from [(rms, peak)]. *)
Definition safety_tier (rms peak : D) : Z :=
  if (rms <. d_lit (1 # 10)) && (peak <. d_lit (3 # 10)) then 0
  else if (rms <. d_lit (3 # 10)) && (peak <. d_lit (8 # 10)) then 1
  else 2.

(** The severity of the statistical check and that of the absolute check,
    and whether each check fires. *)
Definition statistical_severity (data : sensor_data_t D)
    (baseline_stats : statistics_t D) : D :=
  d_fabs (sd_value data -. st_mean baseline_stats)
  /. st_std_deviation baseline_stats.

Definition statistical_fires (data : sensor_data_t D)
    (baseline_stats : statistics_t D) (config : anomaly_config_t D) : bool :=
  d_fabs (sd_value data -. st_mean baseline_stats)
  >. ac_threshold_multiplier config *. st_std_deviation baseline_stats.

Definition absolute_severity (data : sensor_data_t D)
    (config : anomaly_config_t D) : D :=
  d_fabs (sd_value data) /. ac_absolute_threshold config.

Definition absolute_fires (data : sensor_data_t D)
    (config : anomaly_config_t D) : bool :=
  d_fabs (sd_value data) >. ac_absolute_threshold config.

End Reference.

(** Sums and the mean of a window over the reals. *)
Fixpoint sum_R (l : list R) : R :=
  match l with
  | [] => 0%R
  | x :: rest => (x + sum_R rest)%R
  end.

Definition mean_R (l : list R) : R := (sum_R l / INR (length l))%R.

(** The mean of the [min (length stream) c] most recent values. *)
Definition window_mean (c : nat) (stream : list R) : R :=
  mean_R (window c stream).

(** ** Concrete inputs *)

(** A vibration reading with the given value. *)
Definition vib (v : float) : sensor_data_t float :=
  mk_sensor_data 1 v (mk_time 1700000000 0) "m/s2" "Bridge vibration".

(** An uninitialised filter structure. *)
Definition blank_filter : moving_average_t float :=
  mk_moving_average None 0 0 0 0%float.

(** A filter of capacity 2, as [init_moving_average] leaves it. *)
Definition filter2 : moving_average_t float :=
  snd (init_moving_average blank_filter 2).

(** Three readings of 0.1. *)
Definition three_tenths : list float :=
  [d_lit (1 # 10); d_lit (1 # 10); d_lit (1 # 10)].

(** A baseline of four readings (mean 1, standard deviation 0.5), a
    configuration that analyses from four samples on, and one that asks
    for twenty. *)
Definition baseline4 : statistics_t float :=
  finalize_statistics (accumulate [0.5; 1.5; 0.5; 1.5]%float).

Definition config4 : anomaly_config_t float :=
  mk_anomaly_config 2%float 5%float 50 4.

Definition config20 : anomaly_config_t float :=
  mk_anomaly_config 2%float 1%float 50 20.

(** A signal with one peak, of value 1, and a signal whose only peak is
    negative. *)
Definition one_peak : list float := [0; 1; 0; 0]%float.

Definition negative_peak : list float := [-3; -1; -2; -5]%float.

(** Nine and ten readings of a violent vibration, 5 m/s2. *)
Definition violent9 : list (sensor_data_t float) :=
  map vib (replicate 9 5%float).

Definition violent10 : list (sensor_data_t float) :=
  map vib (replicate 10 5%float).

(** Ten readings of a quiet bridge. *)
Definition quiet10 : list (sensor_data_t float) :=
  map vib (replicate 10 0.05%float).

(** A stream whose first value dwarfs the others. *)
Definition drift_stream : list float := [1e16; 1; 3]%float.

(** The state of a filter of capacity [c] that has taken the finite values
    [p], computed exactly: the slot of index [i mod c] holds the value of
    rank [i], for the [c] most recent ranks. *)
Definition filter_holds (c : nat) (p : list R) (ma : moving_average_t xreal)
  : Prop :=
  exists buffer : list xreal,
    ma_buffer ma = Some buffer
    /\ length buffer = c
    /\ ma_buffer_size ma = Z.of_nat c
    /\ ma_current_index ma = Z.of_nat (length p mod c)
    /\ ma_sample_count ma = Z.of_nat (length p `min` c)
    /\ ma_sum ma = XFin (sum_R (window c p))
    /\ (forall i x, (length p <= i + c)%nat -> p !! i = Some x ->
          buffer !! (i mod c)%nat = Some (XFin x)).

(** Whether a character occurs in a string. *)
Fixpoint occurs (c : Ascii.ascii) (s : string) : bool :=
  match s with
  | EmptyString => false
  | String a rest => Ascii.eqb a c || occurs c rest
  end.

(** A logger structure before [init_data_logger]. *)
Definition blank_logger : data_logger_t float :=
  mk_data_logger None (mk_logger_config "" "" 0 0 0 0) "" 0 0 [] 0
    (mk_time 0 0).

(** The world at 2023-11-14 22:13:20 UTC, with no file yet. *)
Definition world_start : world := mk_world ∅ ∅ (mk_time 1700000000 0).

(** 100 seconds later, the files and streams being those of [w]. *)
Definition later (w : world) : world :=
  mk_world (w_files w) (w_open w) (mk_time 1700000100 5000).

(** A configuration that rotates as soon as the file is not empty. *)
Definition rotate_at_once : logger_config_t :=
  mk_logger_config "" "data" 0 1 100 1000.

(** The logger of base name [base] started in [world_start], set to rotate
    at once, then holding one reading in its buffer 100 seconds later; and
    the world at that time. *)
Definition loaded_logger (base : string) : data_logger_t float :=
  let logger :=
    configure_logger (snd (fst (init_data_logger utc_host blank_logger base
                                  world_start))) rotate_at_once in
  mk_data_logger (lg_file logger) (lg_config logger)
    (lg_current_filename logger) (lg_current_file_size logger) 1
    (array_store (lg_buffer logger) 0 (vib 0.25)) 1 (lg_last_flush logger).

Definition loaded_world (base : string) : world :=
  later (snd (init_data_logger utc_host blank_logger base world_start)).

(** ** The rest of the logger *)

(** The world with its clock moved to [t]: the time that passes between two
    calls. *)
Definition at_time (t : precise_time_t) (w : world) : world :=
  mk_world (w_files w) (w_open w) t.

Section LoggerSession.
Context {D : Type} `{DoubleOps D}.
Variable host : host_t D.

(** The loop of [log_sensor_data_batch] over the indices left to log. *)
Fixpoint log_batch_loop (logger : data_logger_t D)
    (data_array : list (sensor_data_t D)) (indices : list Z) (w : world)
  : Z * data_logger_t D * world :=
  match indices with
  | [] => (0%Z, logger, w)
  | i :: rest =>
      let data := default blank_reading (data_array !! Z.to_nat i) in
      let '(status, logger1, w1) := log_sensor_data host logger data w in
      if (status =? 0)%Z then log_batch_loop logger1 data_array rest w1
      else ((-1)%Z, logger1, w1)
  end.

Definition log_sensor_data_batch (logger : data_logger_t D)
    (data_array : list (sensor_data_t D)) (count : Z) (w : world)
  : Z * data_logger_t D * world :=
  if (count <=? 0)%Z then ((-1)%Z, logger, w)
  else log_batch_loop logger data_array (seqZ 0 count) w.

(** [get_logger_stats] with its three output pointers given. *)
Definition get_logger_stats (logger : data_logger_t D) : Z * Z * string :=
  (lg_sample_count logger, lg_current_file_size logger,
   lg_current_filename logger).

(** [cleanup_data_logger]; the freed buffer is the empty list. *)
Definition cleanup_data_logger (logger : data_logger_t D) (w : world)
  : data_logger_t D * world :=
  (* Flush any remaining buffered data *)
  let '(_, logger1, w1) := flush_logger_buffer host logger w in
  (* Close file *)
  let w2 := match lg_file logger1 with
            | Some f => fclose f w1
            | None => w1
            end in
  ({| lg_file := None;
      lg_config := lg_config logger1;
      lg_current_filename := lg_current_filename logger1;
      lg_current_file_size := lg_current_file_size logger1;
      lg_sample_count := lg_sample_count logger1;
      lg_buffer := [];
      lg_buffer_index := lg_buffer_index logger1;
      lg_last_flush := lg_last_flush logger1 |},
   w2).

(** The control loops of the program: each reading is logged at its own
    time, and the status [log_sensor_data] returns is not looked at. *)
Fixpoint log_stream (logger : data_logger_t D)
    (items : list (precise_time_t * sensor_data_t D)) (w : world)
  : data_logger_t D * world :=
  match items with
  | [] => (logger, w)
  | (t, data) :: rest =>
      let '(_, logger1, w1) := log_sensor_data host logger data (at_time t w) in
      log_stream logger1 rest w1
  end.

(** The logger has a file open, its buffer index within the buffer, and
    its size counter equal to the number of bytes in that file. *)
Definition logger_consistent (logger : data_logger_t D) (w : world) : Prop :=
  exists f : string,
    lg_file logger = Some f
    /\ (0 <= lg_buffer_index logger < lc_buffer_size (lg_config logger))%Z
    /\ lc_buffer_size (lg_config logger)
       = Z.of_nat (length (lg_buffer logger))
    /\ (lc_buffer_size (lg_config logger) <= INT_MAX)%Z
    /\ lg_current_file_size logger
       = Z.of_nat (String.length (default "" (w_files w !! f))).

(** Besides, the file [f] followed by the buffered records is the header
    followed by the records of [logged], in order. *)
Definition logger_holds (f : string) (logged : list (sensor_data_t D))
    (logger : data_logger_t D) (w : world) : Prop :=
  lg_file logger = Some f
  /\ (0 <= lg_buffer_index logger < lc_buffer_size (lg_config logger))%Z
  /\ lc_buffer_size (lg_config logger) = Z.of_nat (length (lg_buffer logger))
  /\ (lc_buffer_size (lg_config logger) <= INT_MAX)%Z
  /\ lg_current_file_size logger
     = Z.of_nat (String.length (default "" (w_files w !! f)))
  /\ default "" (w_files w !! f)
     +:+ records_text host
           (take (Z.to_nat (lg_buffer_index logger)) (lg_buffer logger))
     = csv_header +:+ records_text host logged.

End LoggerSession.

Section LoggerSessionRun.
Context {D : Type} `{DoubleOps D}.
Variable host : host_t D.

(** The logger as the flush loop leaves it: the bytes counted, the buffer
    reset, the time of the flush taken. *)
Definition flushed_logger (logger : data_logger_t D) (size : Z)
    (now : precise_time_t) : data_logger_t D :=
  {| lg_file := lg_file logger;
     lg_config := lg_config logger;
     lg_current_filename := lg_current_filename logger;
     lg_current_file_size := size;
     lg_sample_count := lg_sample_count logger;
     lg_buffer := lg_buffer logger;
     lg_buffer_index := 0;
     lg_last_flush := now |}.

(** The rotation threshold in bytes, as the flush computes it. *)
Definition rotation_threshold (config : logger_config_t) : Z :=
  int_wrap (lc_max_file_size_mb config * 1024 * 1024).

(** A whole session as the monitoring modes run it: the logger is
    initialised, the readings are logged one by one, the logger is cleaned
    up. *)
Definition session (logger : data_logger_t D) (base_filename : string)
    (items : list (precise_time_t * sensor_data_t D)) (w : world)
  : Z * data_logger_t D * world :=
  let '(status, logger1, w1) := init_data_logger host logger base_filename w in
  if (status =? 0)%Z then
    let '(logger2, w2) := log_stream host logger1 items w1 in
    let '(logger3, w3) := cleanup_data_logger host logger2 w2 in
    (0%Z, logger3, w3)
  else (status, logger1, w1).

End LoggerSessionRun.

(** Three readings, one every 400 ms. *)
Definition three_items : list (precise_time_t * sensor_data_t float) :=
  [(mk_time 1700000000 400000000, vib 0.25);
   (mk_time 1700000000 800000000, vib 0.5);
   (mk_time 1700000001 200000000, vib 0.125)].

(** The logger of base name "sensors" as [init_data_logger] leaves it in
    [world_start], and the world then. *)
Definition started_logger : data_logger_t float :=
  snd (fst (init_data_logger utc_host blank_logger "sensors" world_start)).

Definition started_world : world :=
  snd (init_data_logger utc_host blank_logger "sensors" world_start).

(** That logger after one reading, 400 ms later: the reading is in the
    buffer. *)
Definition one_buffered : data_logger_t float :=
  snd (fst (log_sensor_data utc_host started_logger (vib 0.25)
              (at_time (mk_time 1700000000 400000000) started_world))).

(** A host on which only the first log file can be created. *)
Definition full_disk_host : host_t float :=
  mk_host float_fmt_f utc_time
    (fun path => String.eqb path "data/sensors_20231114_221320.csv") always.

(** A host on which no file can be created. *)
Definition no_file_host : host_t float :=
  mk_host float_fmt_f utc_time (fun _ => false) always.

(** The logger that a rotation whose [fopen] fails leaves behind, with no
    file and an empty buffer of 100 readings, and the world then; and two
    readings that follow. *)
Definition orphaned_logger : data_logger_t float :=
  snd (fst (flush_logger_buffer full_disk_host (loaded_logger "sensors")
              (loaded_world "sensors"))).

Definition orphaned_world : world :=
  snd (flush_logger_buffer full_disk_host (loaded_logger "sensors")
         (loaded_world "sensors")).

Definition late_items : list (precise_time_t * sensor_data_t float) :=
  [(mk_time 1700000101 0, vib 0.25); (mk_time 1700000102 0, vib 0.5)].

(** ** The rest of the analyzer *)

Section AnalyzerMore.
Context {D : Type} `{DoubleOps D}.
Variable fmt_f : nat -> D -> string.

Definition cleanup_moving_average (ma : moving_average_t D)
  : moving_average_t D :=
  {| ma_buffer := None;
     ma_buffer_size := 0;
     ma_current_index := 0;
     ma_sample_count := 0;
     ma_sum := d_lit 0 |}.

(** The bookkeeping of a filter of capacity [c] that has taken [n]
    values, in any arithmetic. *)
Definition filter_wellformed (c n : nat) (ma : moving_average_t D) : Prop :=
  exists buffer : list D,
    ma_buffer ma = Some buffer
    /\ length buffer = c
    /\ ma_buffer_size ma = Z.of_nat c
    /\ ma_current_index ma = Z.of_nat (n mod c)
    /\ ma_sample_count ma = Z.of_nat (n `min` c).

(** [data_array[i]] for an array of readings; outside the array the
    embedding yields a reading of value 0.0. *)
Definition reading_at (data_array : list (sensor_data_t D)) (i : Z)
  : sensor_data_t D :=
  if (i <? 0)%Z then mk_sensor_data 0 (d_lit 0) (mk_time 0 0) "" ""
  else default (mk_sensor_data 0 (d_lit 0) (mk_time 0 0) "" "")
         (data_array !! Z.to_nat i).

(** [detect_anomalies_batch]: the status, and the results written to
    [results[0 .. count-1]] (none when the status is -1). *)
Definition detect_anomalies_batch (data_array : list (sensor_data_t D))
    (count : Z) (config : anomaly_config_t D)
  : Z * list (anomaly_result_t D) :=
  if (count <=? 0)%Z then ((-1)%Z, [])
  else
    (* Calculate baseline statistics *)
    let baseline :=
      finalize_statistics
        (fold_left
           (fun stats i => update_statistics stats (sd_value (reading_at data_array i)))
           (seqZ 0 count) init_statistics) in
    (* Detect anomalies *)
    fold_left
      (fun '(anomaly_count, results) i =>
         let result := detect_anomaly fmt_f (reading_at data_array i)
                         baseline config in
         (if (ar_is_anomaly result =? 0)%Z then anomaly_count
          else int_wrap (anomaly_count + 1),
          results ++ [result]))
      (seqZ 0 count) (0%Z, []).

(** [calculate_rate_of_change], with [time_diff_ms] of utils.c. *)
Definition calculate_rate_of_change (data_array : list (sensor_data_t D))
    (count window_size : Z) : D :=
  if ((count <? 2) || (window_size <? 2))%Z then d_lit 0
  else
    let start_idx :=
      (if window_size <=? count then count - window_size else 0)%Z in
    let end_idx := (count - 1)%Z in
    if (end_idx <=? start_idx)%Z then d_lit 0
    else
      let value_change :=
        sd_value (reading_at data_array end_idx)
        -. sd_value (reading_at data_array start_idx) in
      let time_change :=
        time_diff_ms (sd_timestamp (reading_at data_array start_idx))
          (sd_timestamp (reading_at data_array end_idx))
        /. d_lit 1000 in
      if time_change >. d_of_int 0 then value_change /. time_change
      else d_lit 0.

End AnalyzerMore.

(** The number of results that flag an anomaly. *)
Definition flagged {D : Type} (results : list (anomaly_result_t D)) : nat :=
  length (filter (fun r => ar_is_anomaly r <> 0%Z) results).

(** Sums over the ranks [0 .. n-1], on the reals. *)
Fixpoint sum_to (g : nat -> R) (n : nat) : R :=
  match n with
  | O => 0%R
  | S k => (sum_to g k + g k)%R
  end.

(** Three exact readings on the line [1 + 2 k]. *)
Definition line3 : list (sensor_data_t xreal) :=
  map (fun v => mk_sensor_data 0 (XFin v) (mk_time 1700000000 0) "C" "Probe")
    [1; 3; 5]%R.

(** Two exact readings 1.5 seconds apart, the value rising from 1 to 4. *)
Definition ramp2 : list (sensor_data_t xreal) :=
  [mk_sensor_data 0 (XFin 1) (mk_time 1700000000 0) "C" "Probe";
   mk_sensor_data 0 (XFin 4) (mk_time 1700000001 500000000) "C" "Probe"].

(** Ten quiet readings followed by one of 5 m/s2. *)
Definition one_spike : list (sensor_data_t float) :=
  quiet10 ++ [vib 5%float].

(** ** Helpers of utils.c *)

Section Utils.
Context {D : Type} `{DoubleOps D}.

Definition clamp (value min max : D) : D :=
  if value <. min then min
  else if value >. max then max
  else value.

End Utils.

(** The command line options, as [parse_command_line_args] stores them
    through its six pointers.  A [char*] is [None] when NULL. *)
Record cli_options (D : Type) : Type := mk_cli_options {
  cli_device_path : option string;
  cli_duration : Z;
  cli_interval : Z;
  cli_output_file : option string;
  cli_threshold : D;
  cli_hardware_mode : Z
}.
Arguments mk_cli_options {D}.
Arguments cli_device_path {D}.
Arguments cli_duration {D}.
Arguments cli_interval {D}.
Arguments cli_output_file {D}.
Arguments cli_threshold {D}.
Arguments cli_hardware_mode {D}.

(** The conversions of the C library. *)
Record libc_t (D : Type) : Type := mk_libc {
  c_atoi : string -> Z;
  c_atof : string -> D
}.
Arguments mk_libc {D}.
Arguments c_atoi {D}.
Arguments c_atof {D}.

Section CommandLine.
Context {D : Type} `{DoubleOps D}.
Variable libc : libc_t D.

(** What is left of an argument that is neither an option with its value
    nor a request for help. *)
Definition help_or_unknown (arg : string) (opts : cli_options D)
  : Z * cli_options D :=
  if String.eqb arg "--help" || String.eqb arg "-h" then (1%Z, opts)
  else ((-1)%Z, opts).

(** The loop over [argv[i]], [i >= 1]: [args] are the arguments not yet
    read.  An option takes its value only when an argument follows it
    ([i + 1 < argc]). *)
Fixpoint parse_args_loop (args : list string) (opts : cli_options D)
  : Z * cli_options D :=
  match args with
  | [] => (0%Z, opts)
  | arg :: rest =>
      match rest with
      | value :: rest' =>
          if String.eqb arg "--hardware" then
            parse_args_loop rest'
              {| cli_device_path := Some value;
                 cli_duration := cli_duration opts;
                 cli_interval := cli_interval opts;
                 cli_output_file := cli_output_file opts;
                 cli_threshold := cli_threshold opts;
                 cli_hardware_mode := 1 |}
          else if String.eqb arg "--duration" then
            let opts1 :=
              {| cli_device_path := cli_device_path opts;
                 cli_duration := c_atoi libc value;
                 cli_interval := cli_interval opts;
                 cli_output_file := cli_output_file opts;
                 cli_threshold := cli_threshold opts;
                 cli_hardware_mode := cli_hardware_mode opts |} in
            if (cli_duration opts1 <=? 0)%Z then ((-1)%Z, opts1)
            else parse_args_loop rest' opts1
          else if String.eqb arg "--interval" then
            let opts1 :=
              {| cli_device_path := cli_device_path opts;
                 cli_duration := cli_duration opts;
                 cli_interval := c_atoi libc value;
                 cli_output_file := cli_output_file opts;
                 cli_threshold := cli_threshold opts;
                 cli_hardware_mode := cli_hardware_mode opts |} in
            if (cli_interval opts1 <=? 0)%Z then ((-1)%Z, opts1)
            else parse_args_loop rest' opts1
          else if String.eqb arg "--output" then
            parse_args_loop rest'
              {| cli_device_path := cli_device_path opts;
                 cli_duration := cli_duration opts;
                 cli_interval := cli_interval opts;
                 cli_output_file := Some value;
                 cli_threshold := cli_threshold opts;
                 cli_hardware_mode := cli_hardware_mode opts |}
          else if String.eqb arg "--threshold" then
            let opts1 :=
              {| cli_device_path := cli_device_path opts;
                 cli_duration := cli_duration opts;
                 cli_interval := cli_interval opts;
                 cli_output_file := cli_output_file opts;
                 cli_threshold := c_atof libc value;
                 cli_hardware_mode := cli_hardware_mode opts |} in
            if cli_threshold opts1 <=. d_of_int 0 then ((-1)%Z, opts1)
            else parse_args_loop rest' opts1
          else help_or_unknown arg opts
      | [] => help_or_unknown arg opts
      end
  end.

(** [parse_command_line_args]: [argv] is the whole vector, [argv[0]]
    included; the status and the options stored at the return. *)
Definition parse_command_line_args (argv : list string)
  : Z * cli_options D :=
  (* Set defaults *)
  parse_args_loop (tail argv)
    {| cli_device_path := None;
       cli_duration := 60;
       cli_interval := 100;
       cli_output_file := None;
       cli_threshold := d_lit 3;
       cli_hardware_mode := 0 |}.

(** What a caller may rely on when [parse_command_line_args] returns 0. *)
Definition options_valid (opts : cli_options D) : Prop :=
  (0 < cli_duration opts)%Z /\ (0 < cli_interval opts)%Z
  /\ (cli_threshold opts <=. d_of_int 0) = false
  /\ (cli_hardware_mode opts = 0%Z /\ cli_device_path opts = None
      \/ cli_hardware_mode opts = 1%Z
         /\ exists path, cli_device_path opts = Some path).

End CommandLine.

(** ** Calls on one accumulator *)

Inductive statistics_call (D : Type) : Type :=
  | Update (value : D)
  | Finalize.
Arguments Update {D}.
Arguments Finalize {D}.

Section StatisticsCalls.
Context {D : Type} `{DoubleOps D}.

(** A sequence of [update_statistics] and [finalize_statistics] calls on
    one structure, as the monitoring loop makes them. *)
Definition run_statistics (calls : list (statistics_call D))
    (stats : statistics_t D) : statistics_t D :=
  fold_left
    (fun stats call =>
       match call with
       | Update value => update_statistics stats value
       | Finalize => finalize_statistics stats
       end)
    calls stats.

(** Two structures that agree on the fields the accumulation works on. *)
Definition same_raw (s t : statistics_t D) : Prop :=
  st_sample_count s = st_sample_count t
  /\ st_sum s = st_sum t /\ st_sum_squares s = st_sum_squares t
  /\ st_min s = st_min t /\ st_max s = st_max t.

(** The values passed to [update_statistics], in order. *)
Definition updates (calls : list (statistics_call D)) : list D :=
  omap (fun call => match call with
                    | Update value => Some value
                    | Finalize => None
                    end) calls.

End StatisticsCalls.

(** [isspace] and [isdigit] in the C locale. *)
Definition isspace (c : Ascii.ascii) : bool :=
  let n := Ascii.nat_of_ascii c in
  (n =? 32)%nat || ((9 <=? n)%nat && (n <=? 13)%nat).

Definition isdigit (c : Ascii.ascii) : bool :=
  let n := Ascii.nat_of_ascii c in
  (48 <=? n)%nat && (n <=? 57)%nat.

(** The leading decimal digits of [s], read after [acc], and how many
    there are. *)
Fixpoint read_digits (acc : Z) (count : nat) (s : string) : Z * nat * string :=
  match s with
  | String c rest =>
      if isdigit c
      then read_digits (10 * acc + Z.of_nat (Ascii.nat_of_ascii c) - 48)%Z
             (S count) rest
      else (acc, count, s)
  | EmptyString => (acc, count, s)
  end.

Fixpoint skip_spaces (s : string) : string :=
  match s with
  | String c rest => if isspace c then skip_spaces rest else s
  | EmptyString => s
  end.

(** [atoi] on a numeral within the range of [int]: white space, an
    optional sign, decimal digits. *)
Definition decimal_atoi (s : string) : Z :=
  match skip_spaces s with
  | String "-" rest => (- fst (fst (read_digits 0 0 rest)))%Z
  | String "+" rest => fst (fst (read_digits 0 0 rest))
  | rest => fst (fst (read_digits 0 0 rest))
  end.

(** [atof] on a plain decimal numeral (white space, an optional sign,
    digits, an optional point and digits) of at most 15 significant
    digits: the correctly rounded quotient of the digits read as an
    integer by the power of ten of the fraction.  Exponents, infinities,
    NaNs and hexadecimal numerals are not read. *)
Definition decimal_atof (s : string) : float :=
  let unsigned (t : string) : float :=
    let '(whole, _, after) := read_digits 0 0 t in
    match after with
    | String "." fraction =>
        let '(all, places, _) := read_digits whole 0 fraction in
        PrimFloat.div (float_of_Z all) (float_of_Z (10 ^ Z.of_nat places))
    | _ => float_of_Z whole
    end in
  match skip_spaces s with
  | String "-" rest => PrimFloat.opp (unsigned rest)
  | String "+" rest => unsigned rest
  | rest => unsigned rest
  end.

(** The C library on plain decimal numerals. *)
Definition decimal_libc : libc_t float := mk_libc decimal_atoi decimal_atof.

(** A command line. *)
Definition argv_hardware : list string :=
  ["datalogger"; "--duration"; "300"; "--hardware"; "/dev/ttyUSB0";
   "--threshold"; "2.5"].
(** ** Sensor simulator (sensor_simulator.c) *)

Record sensor_config_t (D : Type) : Type := mk_sensor_config {
  sc_base_value : D;
  sc_noise_amplitude : D;
  sc_trend_rate : D;
  sc_seasonal_amplitude : D;
  sc_seasonal_period : D;
  sc_anomaly_probability : Z;   (* percentage chance of anomaly per sample *)
  sc_anomaly_magnitude : D
}.
Arguments mk_sensor_config {D}.
Arguments sc_base_value {D}.
Arguments sc_noise_amplitude {D}.
Arguments sc_trend_rate {D}.
Arguments sc_seasonal_amplitude {D}.
Arguments sc_seasonal_period {D}.
Arguments sc_anomaly_probability {D}.
Arguments sc_anomaly_magnitude {D}.

(** What the simulator takes from the C library: [sin], and [rand] as the
    sequence of values that follows [srand(seed)]. *)
Record libm_t (D : Type) : Type := mk_libm {
  m_sin : D -> D;
  m_rand : Z -> nat -> Z;
  m_rand_max : Z
}.
Arguments mk_libm {D}.
Arguments m_sin {D}.
Arguments m_rand {D}.
Arguments m_rand_max {D}.

(** The static variables of the simulator, with the state of [rand]: the
    seed last given to [srand] and the number of values drawn since. *)
Record simulator_t (D : Type) : Type := mk_simulator {
  sim_configs : list (sensor_config_t D);   (* sensor_configs[8] *)
  sim_initialized : Z;
  sim_step : Z;                             (* unsigned int *)
  sim_seed : Z;
  sim_drawn : nat
}.
Arguments mk_simulator {D}.
Arguments sim_configs {D}.
Arguments sim_initialized {D}.
Arguments sim_step {D}.
Arguments sim_seed {D}.
Arguments sim_drawn {D}.

(** A 32-bit [unsigned int] after an arithmetic operation. *)
Definition unsigned_wrap (z : Z) : Z := (z mod 2 ^ 32)%Z.

Definition sensor_metadata : list (string * string) :=
  [("°C", "Temperature");
   ("m/s²", "Vibration Amplitude");
   ("µε", "Strain");
   ("%", "Relative Humidity");
   ("hPa", "Atmospheric Pressure");
   ("m/s²", "Acceleration X");
   ("m/s²", "Acceleration Y");
   ("m/s²", "Acceleration Z")].

Section Simulator.
Context {D : Type} `{DoubleOps D}.
Variable libm : libm_t D.

(** [M_PI], 3.14159265358979323846: the literal is given to the 16 digits
    that determine its binary64 value. *)
Definition M_PI : D := d_lit (3141592653589793 # 1000000000000000).

Definition default_configs : list (sensor_config_t D) :=
  [ (* SENSOR_TEMPERATURE *)
    mk_sensor_config (d_lit 20) (d_lit 2) (d_lit (1 # 1000)) (d_lit 5)
      (d_lit 86400) 2 (d_lit 15);
    (* SENSOR_VIBRATION *)
    mk_sensor_config (d_lit (1 # 10)) (d_lit (5 # 100)) (d_lit 0)
      (d_lit (2 # 100)) (d_lit 1) 5 (d_lit 2);
    (* SENSOR_STRAIN *)
    mk_sensor_config (d_lit 100) (d_lit 10) (d_lit (2 # 1000)) (d_lit 20)
      (d_lit 3600) 3 (d_lit 50);
    (* SENSOR_HUMIDITY *)
    mk_sensor_config (d_lit 50) (d_lit 5) (d_lit (1 # 1000)) (d_lit 10)
      (d_lit 43200) 1 (d_lit 20);
    (* SENSOR_PRESSURE *)
    mk_sensor_config (d_lit (101325 # 100)) (d_lit 2) (d_lit 0) (d_lit 5)
      (d_lit 21600) 1 (d_lit 30);
    (* SENSOR_ACCELEROMETER_X *)
    mk_sensor_config (d_lit 0) (d_lit (1 # 10)) (d_lit 0) (d_lit (5 # 100))
      (d_lit (1 # 10)) 8 (d_lit 5);
    (* SENSOR_ACCELEROMETER_Y *)
    mk_sensor_config (d_lit 0) (d_lit (1 # 10)) (d_lit 0) (d_lit (5 # 100))
      (d_lit (1 # 10)) 8 (d_lit 5);
    (* SENSOR_ACCELEROMETER_Z *)
    mk_sensor_config (d_lit (981 # 100)) (d_lit (1 # 10)) (d_lit 0)
      (d_lit (5 # 100)) (d_lit (1 # 10)) 8 (d_lit 2) ].

(** A configuration of zeros: static storage before it is written. *)
Definition zero_config : sensor_config_t D :=
  mk_sensor_config (d_lit 0) (d_lit 0) (d_lit 0) (d_lit 0) (d_lit 0) 0
    (d_lit 0).

(** [rand()]. *)
Definition rand (sim : simulator_t D) : Z * simulator_t D :=
  (m_rand libm (sim_seed sim) (sim_drawn sim),
   {| sim_configs := sim_configs sim;
      sim_initialized := sim_initialized sim;
      sim_step := sim_step sim;
      sim_seed := sim_seed sim;
      sim_drawn := S (sim_drawn sim) |}).

(** [init_sensor_simulator]; the seed is [(unsigned int)time(NULL)]. *)
Definition init_sensor_simulator (w : world) (sim : simulator_t D)
  : simulator_t D :=
  if negb (sim_initialized sim =? 0)%Z then sim
  else
    {| sim_configs := default_configs;
       sim_initialized := 1;
       sim_step := 0;
       sim_seed := unsigned_wrap (pt_timestamp (w_clock w));
       sim_drawn := 0 |}.

Definition configure_sensor (type : Z) (config : sensor_config_t D)
    (w : world) (sim : simulator_t D) : simulator_t D :=
  let sim1 := if (sim_initialized sim =? 0)%Z
              then init_sensor_simulator w sim else sim in
  if (0 <=? type)%Z && (type <? 8)%Z then
    {| sim_configs := array_store (sim_configs sim1) type config;
       sim_initialized := sim_initialized sim1;
       sim_step := sim_step sim1;
       sim_seed := sim_seed sim1;
       sim_drawn := sim_drawn sim1 |}
  else sim1.

Definition generate_noise (amplitude : D) (sim : simulator_t D)
  : D * simulator_t D :=
  let '(r, sim1) := rand sim in
  (amplitude
   *. (d_lit 2 *. (d_of_int r /. d_of_int (m_rand_max libm)) -. d_lit 1),
   sim1).

Definition generate_seasonal (amplitude period time_offset : D) : D :=
  amplitude *. m_sin libm (d_lit 2 *. M_PI *. time_offset /. period).

Definition generate_anomaly (config : sensor_config_t D)
    (sim : simulator_t D) : D * simulator_t D :=
  let '(r, sim1) := rand sim in
  if (Z.rem r 100 <? sc_anomaly_probability config)%Z then
    let '(r', sim2) := rand sim1 in
    let sign := if (Z.rem r' 2 =? 0)%Z then d_lit (-1) else d_lit 1 in
    (sign *. sc_anomaly_magnitude config, sim2)
  else (d_lit 0, sim1).

Definition generate_sensor_data (type : Z) (w : world) (sim : simulator_t D)
  : sensor_data_t D * simulator_t D :=
  let sim0 := if (sim_initialized sim =? 0)%Z
              then init_sensor_simulator w sim else sim in
  if (type <? 0)%Z || (8 <=? type)%Z then
    (* Return invalid data *)
    (mk_sensor_data type (d_lit 0) (get_current_time w) "N/A"
       "Invalid sensor type",
     sim0)
  else
    let config := default zero_config (sim_configs sim0 !! Z.to_nat type) in
    let timestamp := get_current_time w in
    let time_offset := d_of_int (sim_step sim0) *. d_lit (1 # 10) in
    (* Calculate base value with trend *)
    let base_value :=
      sc_base_value config +. sc_trend_rate config *. time_offset in
    (* Add seasonal variation *)
    let seasonal :=
      generate_seasonal (sc_seasonal_amplitude config)
        (sc_seasonal_period config) time_offset in
    (* Add noise *)
    let '(noise, sim1) := generate_noise (sc_noise_amplitude config) sim0 in
    (* Add potential anomaly *)
    let '(anomaly, sim2) := generate_anomaly config sim1 in
    (* Combine all components *)
    let value := base_value +. seasonal +. noise +. anomaly in
    let metadata := default ("", "") (sensor_metadata !! Z.to_nat type) in
    (* Apply sensor-specific constraints *)
    let value1 :=
      if (type =? 0)%Z then clamp value (d_lit (-50)) (d_lit 80)
      else if (type =? 3)%Z then clamp value (d_lit 0) (d_lit 100)
      else if (type =? 4)%Z then clamp value (d_lit 800) (d_lit 1200)
      else if (type =? 1)%Z then d_fabs value
      else value in
    (mk_sensor_data type value1 timestamp (fst metadata) (snd metadata),
     {| sim_configs := sim_configs sim2;
        sim_initialized := sim_initialized sim2;
        sim_step := unsigned_wrap (sim_step sim2 + 1);
        sim_seed := sim_seed sim2;
        sim_drawn := sim_drawn sim2 |}).

Definition generate_bridge_vibration_data (w : world) (sim : simulator_t D)
  : sensor_data_t D * simulator_t D :=
  let '(data, sim1) := generate_sensor_data 1 w sim in
  (* Add bridge-specific characteristics *)
  let time_offset := d_of_int (sim_step sim1) *. d_lit (1 # 10) in
  (* Simulate traffic loading (periodic with some randomness) *)
  let traffic_frequency :=
    d_lit (1 # 10)
    +. d_lit (5 # 100) *. m_sin libm (time_offset *. d_lit (1 # 100)) in
  let traffic_amplitude :=
    d_lit (2 # 100)
    +. d_lit (1 # 100) *. m_sin libm (time_offset *. d_lit (5 # 1000)) in
  let traffic_vibration :=
    traffic_amplitude
    *. m_sin libm (d_lit 2 *. M_PI *. traffic_frequency *. time_offset) in
  (* Add wind effects (lower frequency, higher amplitude) *)
  let wind_vibration :=
    d_lit (5 # 1000)
    *. m_sin libm (d_lit 2 *. M_PI *. d_lit (2 # 100) *. time_offset) in
  (* Combine with base vibration, and keep to realistic levels *)
  let value :=
    clamp (sd_value data +. d_fabs (traffic_vibration +. wind_vibration))
      (d_lit 0) (d_lit 1) in
  (mk_sensor_data (sd_type data) value (sd_timestamp data) (sd_unit data)
     "Bridge Vibration",
   sim1).

(** [generate_environmental_data_set]: the three readings written to
    [data_array[0 .. 2]], the count stored, and the simulator. *)
Definition generate_environmental_data_set (w : world) (sim : simulator_t D)
  : list (sensor_data_t D) * Z * simulator_t D :=
  let '(temperature, sim1) := generate_sensor_data 0 w sim in
  let '(humidity, sim2) := generate_sensor_data 3 w sim1 in
  let '(pressure, sim3) := generate_sensor_data 4 w sim2 in
  (* Correlate humidity with temperature (inverse relationship) *)
  let value :=
    if sd_value temperature >. d_lit 25
    then sd_value humidity *. d_lit (8 # 10)
    else if sd_value temperature <. d_lit 10
    then sd_value humidity *. d_lit (12 # 10)
    else sd_value humidity in
  (* Ensure humidity stays within bounds *)
  let humidity1 :=
    mk_sensor_data (sd_type humidity) (clamp value (d_lit 0) (d_lit 100))
      (sd_timestamp humidity) (sd_unit humidity) (sd_description humidity) in
  ([temperature; humidity1; pressure], 3%Z, sim3).

Definition cleanup_sensor_simulator (sim : simulator_t D) : simulator_t D :=
  if negb (sim_initialized sim =? 0)%Z then
    {| sim_configs := sim_configs sim;
       sim_initialized := 0;
       sim_step := 0;
       sim_seed := sim_seed sim;
       sim_drawn := sim_drawn sim |}
  else sim.

(** The simulator as the program finds it: static storage, [rand] as
    seeded by default. *)
Definition fresh_simulator : simulator_t D :=
  mk_simulator (replicate 8 zero_config) 0 0 1 0.

(** The simulator once a generator has made sure that it is initialized. *)
Definition started (w : world) (sim : simulator_t D) : simulator_t D :=
  if (sim_initialized sim =? 0)%Z then init_sensor_simulator w sim else sim.

(** [value] is a number within [lo, hi]; a NaN is not. *)
Definition within (lo hi value : D) : Prop :=
  (lo <=. value) = true /\ (value <=. hi) = true.

End Simulator.

(** A C library whose [sin] is constantly 0 and whose [rand] counts up
    from the seed. *)
Definition flat_libm : libm_t float :=
  mk_libm (fun _ => 0%float) (fun seed n => (seed + Z.of_nat n) mod 2147483648)%Z
    2147483647.
(** ** Parsers of hardware_interface.c *)

(** The fields of [s] between the occurrences of [c], empty ones
    included. *)
Fixpoint split_on (c : Ascii.ascii) (s : string) : list string :=
  match s with
  | EmptyString => [EmptyString]
  | String a rest =>
      if Ascii.eqb a c then EmptyString :: split_on c rest
      else match split_on c rest with
           | field :: fields => String a field :: fields
           | [] => [String a EmptyString]
           end
  end.

(** The tokens that [strtok(s, c)] followed by [strtok(NULL, c)] until NULL
    returns: the maximal runs of characters other than the delimiter. *)
Definition strtok_all (c : Ascii.ascii) (s : string) : list string :=
  filter (fun field => field <> EmptyString) (split_on c s).

Definition carriage_return : string := String (Ascii.ascii_of_nat 13) "".

(** The copy of the raw data the parsers work on: at most 255 characters,
    cut at the first line feed, then at the first carriage return. *)
Definition received_line (raw_data : string) : string :=
  cut_at_first (Ascii.ascii_of_nat 13)
    (cut_at_first (Ascii.ascii_of_nat 10) (String.substring 0 255 raw_data)).

(** The names of the sensor types in the Arduino format. *)
Definition arduino_type (token : string) : option Z :=
  if String.eqb token "TEMP" then Some 0%Z
  else if String.eqb token "VIB" then Some 1%Z
  else if String.eqb token "STRAIN" then Some 2%Z
  else if String.eqb token "HUM" then Some 3%Z
  else if String.eqb token "PRESS" then Some 4%Z
  else if String.eqb token "ACCEL_X" then Some 5%Z
  else if String.eqb token "ACCEL_Y" then Some 6%Z
  else if String.eqb token "ACCEL_Z" then Some 7%Z
  else None.

(** ["%d"]. *)
Definition fmt_d (z : Z) : string :=
  if (z <? 0)%Z then "-" +:+ pretty (Z.abs z) else pretty z.

Section HardwareParsers.
Context {D : Type} `{DoubleOps D}.
Variable libc : libc_t D.

(** [parse_arduino_sensor_data]: the status, and the structure behind
    [sensor_data] at the return; the fields are stored as they are
    parsed. *)
Definition parse_arduino_sensor_data (raw_data : string)
    (sensor_data : sensor_data_t D) : Z * sensor_data_t D :=
  match strtok_all ":" (received_line raw_data) with
  | [] => ((-1)%Z, sensor_data)
  | token :: tokens1 =>
      if negb (String.eqb token "SENSOR") then ((-1)%Z, sensor_data)
      else
        (* Parse sensor type *)
        match tokens1 with
        | [] => ((-1)%Z, sensor_data)
        | type_token :: tokens2 =>
            match arduino_type type_token with
            | None => ((-1)%Z, sensor_data)
            | Some type =>
                let data1 :=
                  mk_sensor_data type (sd_value sensor_data)
                    (sd_timestamp sensor_data) (sd_unit sensor_data)
                    (sd_description sensor_data) in
                (* Parse value *)
                match tokens2 with
                | [] => ((-1)%Z, data1)
                | value_token :: tokens3 =>
                    let data2 :=
                      mk_sensor_data type (c_atof libc value_token)
                        (sd_timestamp sensor_data) (sd_unit sensor_data)
                        (sd_description sensor_data) in
                    (* Parse unit *)
                    match tokens3 with
                    | [] => ((-1)%Z, data2)
                    | unit_token :: tokens4 =>
                        (0%Z,
                         mk_sensor_data type (c_atof libc value_token)
                           (sd_timestamp sensor_data)
                           (String.substring 0 15 unit_token)
                           (* Parse description *)
                           match tokens4 with
                           | token4 :: _ => String.substring 0 63 token4
                           | [] => "Hardware Sensor"
                           end)
                    end
                end
            end
        end
  end.

(** [parse_modbus_sensor_data]. *)
Definition parse_modbus_sensor_data (raw_data : string)
    (sensor_data : sensor_data_t D) : Z * sensor_data_t D :=
  match strtok_all ":" (received_line raw_data) with
  | token :: address_token :: register_token :: value_token :: _ =>
      if negb (String.eqb token "MB") then ((-1)%Z, sensor_data)
      else
        let address := c_atoi libc address_token in
        let reg := c_atoi libc register_token in
        let raw_value := c_atoi libc value_token in
        (* Convert based on register mapping *)
        (0%Z,
         if (reg =? 1)%Z then
           mk_sensor_data 0 (d_of_int raw_value /. d_lit 100)
             (sd_timestamp sensor_data) "Â°C" "Modbus Temperature"
         else if (reg =? 2)%Z then
           mk_sensor_data 3 (d_of_int raw_value /. d_lit 100)
             (sd_timestamp sensor_data) "%" "Modbus Humidity"
         else if (reg =? 3)%Z then
           mk_sensor_data 4 (d_of_int raw_value /. d_lit 10)
             (sd_timestamp sensor_data) "hPa" "Modbus Pressure"
         else
           (* Unknown register, treat as generic sensor *)
           mk_sensor_data 0 (d_of_int raw_value)
             (sd_timestamp sensor_data) "raw"
             (snprintf_trunc 64
                ("Modbus Addr:" +:+ fmt_d address +:+ " Reg:" +:+ fmt_d reg)))
  | _ => ((-1)%Z, sensor_data)
  end.

(** [parse_hardware_data]: the Arduino format first, then Modbus on the
    structure as the first parser left it. *)
Definition parse_hardware_data (raw_data : string)
    (sensor_data : sensor_data_t D) : Z * sensor_data_t D :=
  let '(status1, data1) := parse_arduino_sensor_data raw_data sensor_data in
  if (status1 =? 0)%Z then (0%Z, data1)
  else
    let '(status2, data2) := parse_modbus_sensor_data raw_data data1 in
    if (status2 =? 0)%Z then (0%Z, data2)
    else ((-1)%Z, data2).

End HardwareParsers.

(** A field of a line: not empty, and free of the delimiter and of the
    line terminators. *)
Definition is_field (s : string) : Prop :=
  s <> EmptyString
  /\ occurs ":" s = false
  /\ occurs (Ascii.ascii_of_nat 10) s = false
  /\ occurs (Ascii.ascii_of_nat 13) s = false.

(** A reading as the caller holds it before parsing. *)
Definition stale_reading : sensor_data_t float :=
  mk_sensor_data 3 40%float (mk_time 1700000000 0) "%" "Relative Humidity".
(** ** [trim_whitespace] of utils.c *)

(** A C string is taken here as the list of its characters before the
    terminating NUL; [l !! i] is [str[i]], and the NUL itself is not a
    space. *)
Definition space_at (l : list Ascii.ascii) (i : nat) : bool :=
  match l !! i with
  | Some c => isspace c
  | None => false
  end.

(** The first loop, over the leading white space: the index that [str]
    ends at. *)
Fixpoint count_leading (l : list Ascii.ascii) : nat :=
  match l with
  | c :: rest => if isspace c then S (count_leading rest) else O
  | [] => O
  end.

(** The second loop, which moves [end] back while it is beyond [str] and on
    white space, from [end = e]. *)
Fixpoint trailing_scan (l : list Ascii.ascii) (str e : nat) : nat :=
  match e with
  | O => O
  | S e' => if (str <? e)%nat && space_at l e
            then trailing_scan l str e' else e
  end.

(** The caller's string after [trim_whitespace(str)]: the function
    advances its own copy of the pointer, and writes one NUL, after
    [end]. *)
Definition trim_whitespace (l : list Ascii.ascii) : list Ascii.ascii :=
  let str := count_leading l in
  if (str =? length l)%nat then l   (* all spaces *)
  else
    let e := trailing_scan l str (length l - 1) in
    take (e + 1) l.

(** ** The running sum of the moving average, from the stream alone *)

Section RunningSum.
Context {D : Type} `{DoubleOps D}.

(** The running sum after the first [n] values of [stream], for a window
    of [c] values: each value is added in turn, after the value inserted
    [c] calls earlier has been subtracted, once there is one. *)
Fixpoint running_sum (c : nat) (stream : list D) (n : nat) : D :=
  match n with
  | O => d_lit 0
  | S k =>
      (if (c <=? k)%nat
       then running_sum c stream k
            -. default (d_lit 0) (stream !! (k - c)%nat)
       else running_sum c stream k)
      +. default (d_lit 0) (stream !! k)
  end.

(** The state of a filter of capacity [c] that has taken the first [n]
    values of [stream], in any arithmetic: the slot of index [i mod c]
    holds the value of rank [i], for the [c] most recent ranks. *)
Definition filter_tracks (c : nat) (stream : list D) (n : nat)
    (ma : moving_average_t D) : Prop :=
  exists buffer : list D,
    ma_buffer ma = Some buffer
    /\ length buffer = c
    /\ ma_buffer_size ma = Z.of_nat c
    /\ ma_current_index ma = Z.of_nat (n mod c)
    /\ ma_sample_count ma = Z.of_nat (n `min` c)
    /\ ma_sum ma = running_sum c stream n
    /\ (forall i x, (i < n)%nat -> (n <= i + c)%nat -> stream !! i = Some x ->
          buffer !! (i mod c)%nat = Some x).

End RunningSum.

(** A window of three ones that follows a value of 1e16. *)
Definition absorbed_stream : list float := [1e16; 1; 1; 1; 1; 1]%float.

(** A hundred readings of a bridge at rest but for one swing of 0.9 m/s2,
    downwards and upwards; and ten readings that are all below zero. *)
Definition swing_down : list (sensor_data_t float) :=
  map vib (replicate 99 0%float ++ [(-0.9)%float]).

Definition swing_up : list (sensor_data_t float) :=
  map vib (replicate 99 0%float ++ [0.9%float]).

Definition below10 : list (sensor_data_t float) :=
  map vib (replicate 10 (-0.05)%float).

(** * Properties *)

Lemma int_wrap_small (z : Z) :
  (- 2 ^ 31 <= z <= INT_MAX)%Z -> int_wrap z = z.
Proof.
  unfold int_wrap, INT_MAX. intros Hz.
  rewrite Z.mod_small; lia.
Qed.

(** ** The accumulator against the re-scanning reference *)

Section StatisticsFacts.
Context {D : Type} `{DoubleOps D}.

Lemma accumulate_from_sum (values : list D) (s : statistics_t D) :
  st_sum (fold_left update_statistics values s) = scan_sum (st_sum s) values.
Proof.
  revert s. induction values as [|v values IH]; intros s; simpl; [done|].
  by rewrite IH.
Qed.

Lemma accumulate_from_sum_squares (values : list D) (s : statistics_t D) :
  st_sum_squares (fold_left update_statistics values s)
  = scan_sum (st_sum_squares s) (map (fun v => v *. v) values).
Proof.
  revert s. induction values as [|v values IH]; intros s; simpl; [done|].
  by rewrite IH.
Qed.

Lemma accumulate_from_min (values : list D) (s : statistics_t D) :
  st_min (fold_left update_statistics values s) = scan_min (st_min s) values.
Proof.
  revert s. induction values as [|v values IH]; intros s; simpl; [done|].
  by rewrite IH.
Qed.

Lemma accumulate_from_max (values : list D) (s : statistics_t D) :
  st_max (fold_left update_statistics values s) = scan_max (st_max s) values.
Proof.
  revert s. induction values as [|v values IH]; intros s; simpl; [done|].
  by rewrite IH.
Qed.

Lemma accumulate_from_count (values : list D) (s : statistics_t D) :
  (0 <= st_sample_count s)%Z ->
  (st_sample_count s + Z.of_nat (length values) <= INT_MAX)%Z ->
  st_sample_count (fold_left update_statistics values s)
  = (st_sample_count s + Z.of_nat (length values))%Z.
Proof.
  revert s. induction values as [|v values IH]; intros s Hlo Hhi; simpl in * .
  - lia.
  - assert (Hw : int_wrap (st_sample_count s + 1) = (st_sample_count s + 1)%Z)
      by (apply int_wrap_small; unfold INT_MAX in *; lia).
    rewrite IH; simpl; rewrite Hw; lia.
Qed.

(** [update_statistics] never touches the derived fields. *)
Lemma accumulate_from_derived (values : list D) (s : statistics_t D) :
  let s' := fold_left update_statistics values s in
  st_mean s' = st_mean s /\ st_variance s' = st_variance s
  /\ st_std_deviation s' = st_std_deviation s /\ st_median s' = st_median s.
Proof.
  revert s. induction values as [|v values IH]; intros s; simpl; [done|].
  apply (IH (update_statistics s v)).
Qed.

(** What [finalize_statistics] stores when there is a sample: no clamp. *)
Lemma finalize_formulas (s : statistics_t D) :
  st_sample_count s <> 0%Z ->
  let n := d_of_int (st_sample_count s) in
  let s' := finalize_statistics s in
  st_mean s' = st_sum s /. n
  /\ st_variance s' = st_sum_squares s /. n -. st_mean s' *. st_mean s'
  /\ st_std_deviation s' = d_sqrt (st_variance s')
  /\ st_median s' = st_mean s'
  /\ st_sample_count s' = st_sample_count s
  /\ st_sum s' = st_sum s /\ st_sum_squares s' = st_sum_squares s
  /\ st_min s' = st_min s /\ st_max s' = st_max s.
Proof.
  intros Hn. unfold finalize_statistics.
  destruct (Z.eqb_spec (st_sample_count s) 0) as [E|_]; [done|].
  simpl. repeat split.
Qed.

Lemma finalize_keeps_raw (s : statistics_t D) :
  let s' := finalize_statistics s in
  st_sample_count s' = st_sample_count s
  /\ st_sum s' = st_sum s /\ st_sum_squares s' = st_sum_squares s
  /\ st_min s' = st_min s /\ st_max s' = st_max s.
Proof.
  unfold finalize_statistics.
  destruct (st_sample_count s =? 0)%Z; simpl; repeat split.
Qed.

(** C1. For every finite sequence of values (no longer than an [int] can
    count), folding them through [update_statistics] and then calling
    [finalize_statistics] gives the count, sum, minimum and maximum of the
    reference that re-scans the sequence, and, when the sequence is not
    empty, its mean (sum / n) and population variance (mean of squares
    minus square of mean).  The equalities are exact, in any arithmetic,
    the reference scanning in the order of arrival. *)
Theorem accumulate_matches_reference (values : list D) :
  (Z.of_nat (length values) <= INT_MAX)%Z ->
  let stats := finalize_statistics (accumulate values) in
  st_sample_count stats = ref_count values
  /\ st_sum stats = ref_sum values
  /\ st_min stats = ref_min values
  /\ st_max stats = ref_max values
  /\ (values <> [] ->
      st_mean stats = ref_mean values
      /\ st_variance stats = ref_variance values).
Proof.
  intros Hlen stats.
  assert (Hcount : st_sample_count (accumulate values) = ref_count values).
  { unfold accumulate. rewrite accumulate_from_count; simpl; [done|lia|lia]. }
  assert (Hsum : st_sum (accumulate values) = ref_sum values)
    by apply accumulate_from_sum.
  assert (Hsq : st_sum_squares (accumulate values)
                = ref_sum (map (fun v => v *. v) values))
    by apply accumulate_from_sum_squares.
  destruct (finalize_keeps_raw (accumulate values)) as (Kc & Ks & _ & Kmin & Kmax).
  subst stats. rewrite Kc, Ks, Kmin, Kmax.
  repeat split; try done.
  - apply accumulate_from_min.
  - apply accumulate_from_max.
  - destruct (finalize_formulas (accumulate values)) as (Fm & _).
    { rewrite Hcount. unfold ref_count. destruct values; [done|simpl; lia]. }
    rewrite Fm, Hsum, Hcount. done.
  - destruct (finalize_formulas (accumulate values)) as (Fm & Fv & _).
    { rewrite Hcount. unfold ref_count. destruct values; [done|simpl; lia]. }
    rewrite Fv, Fm, Hsq, Hsum, Hcount. done.
Qed.

End StatisticsFacts.

Lemma accumulate_matches_reference_witness :
  (Z.of_nat (length [1; 2; 4; 9]%float) <= INT_MAX)%Z
  /\ st_sample_count (finalize_statistics (accumulate [1; 2; 4; 9]%float))
     = ref_count [1; 2; 4; 9]%float
  /\ st_mean (finalize_statistics (accumulate [1; 2; 4; 9]%float))
     = ref_mean [1; 2; 4; 9]%float
  /\ st_variance (finalize_statistics (accumulate [1; 2; 4; 9]%float))
     = ref_variance [1; 2; 4; 9]%float.
Proof.
  assert (Hlen : (Z.of_nat (length [1; 2; 4; 9]%float) <= INT_MAX)%Z)
    by (vm_compute; discriminate).
  split; [exact Hlen|].
  destruct (accumulate_matches_reference [1; 2; 4; 9]%float Hlen)
    as (Hc & _ & _ & _ & Hmv).
  split; [exact Hc|]. apply Hmv. discriminate.
Defined.

(** ** Exact arithmetic on finite values *)

Lemma Q2R_zero : Q2R 0 = 0%R.
Proof. unfold Q2R. simpl. lra. Qed.

Lemma xlit_zero : d_lit (D := xreal) 0 = XFin 0.
Proof. simpl. by rewrite Q2R_zero. Qed.

Lemma xdiv_fin (a b : R) : b <> 0%R -> XFin a /. XFin b = XFin (a / b).
Proof.
  intros Hb. simpl. unfold xdiv. by rewrite bool_decide_eq_false_2.
Qed.

Lemma xsqrt_fin (a : R) : (0 <= a)%R -> d_sqrt (XFin a) = XFin (R_sqrt.sqrt a).
Proof.
  intros Ha. simpl. unfold xsqrt. rewrite bool_decide_eq_false_2; [done|lra].
Qed.

Lemma scan_sum_fin (rs : list R) (a : R) :
  scan_sum (XFin a) (map XFin rs) = XFin (a + sum_R rs).
Proof.
  revert a. induction rs as [|r rs IH]; intros a; simpl.
  - f_equal. lra.
  - rewrite IH. f_equal. lra.
Qed.

Lemma map_square_fin (rs : list R) :
  map (fun v : xreal => v *. v) (map XFin rs)
  = map XFin (map (fun r => (r * r)%R) rs).
Proof. induction rs as [|r rs IH]; [done|]. cbn [map]. by rewrite IH. Qed.

(** The sum of the squared deviations from any [m], expanded. *)
Lemma sum_squared_deviations (m : R) (rs : list R) :
  sum_R (map (fun r => ((r - m) * (r - m))%R) rs)
  = (sum_R (map (fun r => (r * r)%R) rs) - 2 * m * sum_R rs
     + INR (length rs) * (m * m))%R.
Proof.
  induction rs as [|r rs IH].
  - simpl. lra.
  - cbn [map sum_R length]. rewrite IH, S_INR. lra.
Qed.

Lemma sum_squares_nonneg (f : R -> R) (rs : list R) :
  (0 <= sum_R (map (fun r => (f r * f r)%R) rs))%R.
Proof.
  induction rs as [|r rs IH]; simpl; [lra|].
  pose proof (Rle_0_sqr (f r)) as Hsq. unfold Rsqr in Hsq. lra.
Qed.

(** Mean of squares minus square of mean is not negative over the reals. *)
Lemma real_variance_nonneg (rs : list R) :
  rs <> [] ->
  (0 <= sum_R (map (fun r => (r * r)%R) rs) / INR (length rs)
        - sum_R rs / INR (length rs) * (sum_R rs / INR (length rs)))%R.
Proof.
  intros Hne.
  assert (Hn : (0 < INR (length rs))%R).
  { apply lt_0_INR. destruct rs; [done|simpl; lia]. }
  pose proof (sum_squared_deviations (sum_R rs / INR (length rs)) rs) as Hdev.
  pose proof (sum_squares_nonneg (fun r => (r - sum_R rs / INR (length rs))%R) rs)
    as Hpos.
  cbv beta in Hpos. rewrite Hdev in Hpos.
  set (n := INR (length rs)) in * .
  set (sq := sum_R (map (fun r => (r * r)%R) rs)) in * .
  set (sm := sum_R rs) in * .
  assert (E : (sq / n - sm / n * (sm / n)
               = (sq - 2 * (sm / n) * sm + n * (sm / n * (sm / n))) / n)%R)
    by (field; lra).
  rewrite E. apply Rmult_le_pos; [lra|].
  apply Rlt_le, Rinv_0_lt_compat, Hn.
Qed.

(** The accumulator over finite readings, computed exactly. *)
Lemma accumulate_fin (rs : list R) :
  (Z.of_nat (length rs) <= INT_MAX)%Z ->
  let s := accumulate (map XFin rs) in
  st_sample_count s = Z.of_nat (length rs)
  /\ st_sum s = XFin (sum_R rs)
  /\ st_sum_squares s = XFin (sum_R (map (fun r => (r * r)%R) rs)).
Proof.
  intros Hlen s. subst s. unfold accumulate. repeat split.
  - rewrite accumulate_from_count; simpl; rewrite ?length_map; lia.
  - rewrite accumulate_from_sum. cbn [init_statistics st_sum].
    rewrite xlit_zero, scan_sum_fin. f_equal. lra.
  - rewrite accumulate_from_sum_squares. cbn [init_statistics st_sum_squares].
    rewrite xlit_zero, map_square_fin, scan_sum_fin. f_equal. lra.
Qed.

(** ** The derived variance is not clamped *)

(** C3, on binary64, refuted: after three readings of 0.1 the count is 3,
    the variance stored by [finalize_statistics] is negative and the
    standard deviation is NaN. *)
Lemma finalize_variance_negative_binary64 :
  (0 <? st_sample_count (finalize_statistics (accumulate three_tenths)))%Z
  = true
  /\ (st_variance (finalize_statistics (accumulate three_tenths)) <. d_lit 0)
     = true
  /\ PrimFloat.is_nan
       (st_std_deviation (finalize_statistics (accumulate three_tenths)))
     = true.
Proof. vm_compute. repeat split. Qed.

(** C3, amended.  For every statistics state with a count above 0,
    [finalize_statistics] stores the variance [sum_squares / count - mean²]
    as computed, with no clamp, and its square root as the standard
    deviation.  Computed exactly over finite readings, that variance is a
    real number that is not negative, and the standard deviation is its
    real square root. *)
Theorem finalize_variance_unclamped :
  (forall (D : Type) (ops : DoubleOps D) (s : statistics_t D),
     (0 < st_sample_count s)%Z ->
     st_variance (finalize_statistics s)
     = st_sum_squares s /. d_of_int (st_sample_count s)
       -. (st_sum s /. d_of_int (st_sample_count s))
          *. (st_sum s /. d_of_int (st_sample_count s))
     /\ st_std_deviation (finalize_statistics s)
        = d_sqrt (st_variance (finalize_statistics s)))
  /\ (forall rs : list R,
        rs <> [] -> (Z.of_nat (length rs) <= INT_MAX)%Z ->
        exists v : R,
          (0 <= v)%R
          /\ st_variance (finalize_statistics (accumulate (map XFin rs)))
             = XFin v
          /\ st_std_deviation (finalize_statistics (accumulate (map XFin rs)))
             = XFin (R_sqrt.sqrt v)).
Proof.
  split.
  - intros D ops s Hpos.
    destruct (finalize_formulas s) as (Fm & Fv & Fs & _); [lia|].
    rewrite Fs, Fv, Fm. done.
  - intros rs Hne Hlen.
    destruct (accumulate_fin rs Hlen) as (Hc & Hs & Hq).
    assert (Hn : Z.of_nat (length rs) <> 0%Z) by (destruct rs; [done|simpl; lia]).
    destruct (finalize_formulas (accumulate (map XFin rs))) as (Fm & Fv & Fs & _);
      [by rewrite Hc|].
    assert (HnR : IZR (Z.of_nat (length rs)) <> 0%R) by (by apply not_0_IZR).
    rewrite Fs, Fv, Fm, Hc, Hs, Hq.
    change (d_of_int (D := xreal) (Z.of_nat (length rs)))
      with (XFin (IZR (Z.of_nat (length rs)))).
    rewrite !xdiv_fin by done. rewrite <- INR_IZR_INZ.
    eexists. split; [apply (real_variance_nonneg rs Hne)|].
    split; [reflexivity|].
    apply xsqrt_fin, (real_variance_nonneg rs Hne).
Qed.

Lemma finalize_variance_unclamped_witness :
  st_variance (finalize_statistics (accumulate three_tenths))
  = st_sum_squares (accumulate three_tenths)
      /. d_of_int (st_sample_count (accumulate three_tenths))
    -. (st_sum (accumulate three_tenths)
          /. d_of_int (st_sample_count (accumulate three_tenths)))
       *. (st_sum (accumulate three_tenths)
             /. d_of_int (st_sample_count (accumulate three_tenths)))
  /\ exists v : R,
       (0 <= v)%R
       /\ st_variance
            (finalize_statistics (accumulate (map XFin [1%R; 3%R]))) = XFin v.
Proof.
  split.
  - apply (proj1 finalize_variance_unclamped float binary64
             (accumulate three_tenths)).
    vm_compute. reflexivity.
  - destruct (proj2 finalize_variance_unclamped [1%R; 3%R]) as (v & Hv & Hvar & _).
    + discriminate.
    + vm_compute. discriminate.
    + exists v. split; assumption.
Defined.

(** ** The literals of the source on binary64 *)

(** The quotient [d_lit] computes is the double the literal denotes. *)
Example binary64_literals :
  d_lit (1 # 10) = 0.1%float
  /\ d_lit (3 # 10) = 0.3%float
  /\ d_lit (8 # 10) = 0.8%float
  /\ d_lit (1 # 10000000000) = 1e-10%float
  /\ d_lit (1 # 1000000) = 1e-6%float
  /\ d_lit 1000 = 1000%float
  /\ d_lit 1000000 = 1000000%float
  /\ d_lit 0 = 0%float.
Proof. vm_compute. repeat split. Qed.

(** ** Anomaly detector *)

Section AnomalyFacts.
Context {D : Type} `{DoubleOps D}.
Variable fmt_f : nat -> D -> string.

(** C5. For every reading and every baseline whose sample count is below
    [min_samples_for_analysis], [detect_anomaly] reports no anomaly and a
    severity of 0. *)
Theorem detect_anomaly_warm_up (data : sensor_data_t D)
    (baseline_stats : statistics_t D) (config : anomaly_config_t D) :
  (st_sample_count baseline_stats < ac_min_samples_for_analysis config)%Z ->
  ar_is_anomaly (detect_anomaly fmt_f data baseline_stats config) = 0%Z
  /\ ar_severity (detect_anomaly fmt_f data baseline_stats config) = d_lit 0.
Proof.
  intros Hwarm. unfold detect_anomaly.
  destruct (Z.ltb_spec (st_sample_count baseline_stats)
              (ac_min_samples_for_analysis config)) as [_|Hge]; [|lia].
  split; reflexivity.
Qed.

(** The severity once the warm-up is over, in terms of the two checks. *)
Lemma detect_anomaly_analysed (data : sensor_data_t D)
    (baseline_stats : statistics_t D) (config : anomaly_config_t D) :
  (ac_min_samples_for_analysis config <= st_sample_count baseline_stats)%Z ->
  let r := detect_anomaly fmt_f data baseline_stats config in
  let sev1 :=
    if statistical_fires data baseline_stats config
    then statistical_severity data baseline_stats else d_lit 0 in
  ar_severity r
  = (if absolute_fires data config && (sev1 ==. d_lit 0)
     then absolute_severity data config else sev1)
  /\ ar_is_anomaly r
     = (if statistical_fires data baseline_stats config
           || absolute_fires data config then 1 else 0)%Z.
Proof.
  intros Hge. unfold detect_anomaly.
  destruct (Z.ltb_spec (st_sample_count baseline_stats)
              (ac_min_samples_for_analysis config)) as [Hlt|_]; [lia|].
  unfold statistical_fires, statistical_severity, absolute_fires,
    absolute_severity.
  cbv zeta.
  destruct (d_fabs (sd_value data -. st_mean baseline_stats)
            >. ac_threshold_multiplier config *. st_std_deviation baseline_stats);
    destruct (d_fabs (sd_value data) >. ac_absolute_threshold config);
    cbn [ar_severity ar_is_anomaly andb orb];
    try (split; reflexivity).
  - destruct (_ ==. d_lit 0); split; reflexivity.
  - destruct (_ ==. d_lit 0); split; reflexivity.
Qed.

(** C6. Past the warm-up, when the statistical check and the absolute
    check both fire, the reading is an anomaly and the severity reported is
    the statistical one, |value - mean| / stddev; the absolute check stores
    its own severity, |value| / absoluteThreshold, only where the severity
    left by the statistical check compares equal to zero. *)
Theorem detect_anomaly_statistical_first (data : sensor_data_t D)
    (baseline_stats : statistics_t D) (config : anomaly_config_t D) :
  (ac_min_samples_for_analysis config <= st_sample_count baseline_stats)%Z ->
  let r := detect_anomaly fmt_f data baseline_stats config in
  let sev1 :=
    if statistical_fires data baseline_stats config
    then statistical_severity data baseline_stats else d_lit 0 in
  (statistical_fires data baseline_stats config = true ->
   absolute_fires data config = true ->
   ar_is_anomaly r = 1%Z
   /\ ((statistical_severity data baseline_stats ==. d_lit 0) = false ->
       ar_severity r = statistical_severity data baseline_stats))
  /\ (absolute_fires data config = true ->
      ar_severity r
      = if sev1 ==. d_lit 0 then absolute_severity data config else sev1)
  /\ (absolute_fires data config = false -> ar_severity r = sev1).
Proof.
  intros Hge r sev1.
  destruct (detect_anomaly_analysed data baseline_stats config Hge)
    as [Hsev Hflag].
  fold r in Hsev, Hflag. fold sev1 in Hsev.
  split; [|split].
  - intros Hstat Habs. split.
    + rewrite Hflag, Hstat. reflexivity.
    + intros Hnz. rewrite Hsev. subst sev1.
      rewrite Hstat, Habs, Hnz. reflexivity.
  - intros Habs. rewrite Hsev, Habs. reflexivity.
  - intros Habs. rewrite Hsev, Habs. reflexivity.
Qed.

End AnomalyFacts.

Lemma detect_anomaly_warm_up_witness :
  (st_sample_count baseline4 < ac_min_samples_for_analysis config20)%Z
  /\ ar_is_anomaly
       (detect_anomaly float_fmt_f (vib 1e300) baseline4 config20) = 0%Z
  /\ ar_severity
       (detect_anomaly float_fmt_f (vib 1e300) baseline4 config20) = d_lit 0.
Proof.
  assert (Hwarm : (st_sample_count baseline4
                   < ac_min_samples_for_analysis config20)%Z)
    by (vm_compute; reflexivity).
  split; [exact Hwarm|].
  exact (detect_anomaly_warm_up float_fmt_f (vib 1e300) baseline4 config20 Hwarm).
Defined.

Lemma detect_anomaly_statistical_first_witness :
  statistical_fires (vib 10) baseline4 config4 = true
  /\ absolute_fires (vib 10) config4 = true
  /\ ar_is_anomaly (detect_anomaly float_fmt_f (vib 10) baseline4 config4) = 1%Z
  /\ ar_severity (detect_anomaly float_fmt_f (vib 10) baseline4 config4)
     = statistical_severity (vib 10) baseline4.
Proof.
  assert (Hge : (ac_min_samples_for_analysis config4
                 <= st_sample_count baseline4)%Z)
    by (vm_compute; discriminate).
  assert (Hstat : statistical_fires (vib 10) baseline4 config4 = true)
    by (vm_compute; reflexivity).
  assert (Habs : absolute_fires (vib 10) config4 = true)
    by (vm_compute; reflexivity).
  destruct (detect_anomaly_statistical_first float_fmt_f (vib 10) baseline4
              config4 Hge) as (Hboth & _ & _).
  destruct (Hboth Hstat Habs) as [Hflag Hsev].
  split; [exact Hstat|]. split; [exact Habs|]. split; [exact Hflag|].
  apply Hsev. vm_compute. reflexivity.
Defined.

(** The scenario of the specification: after five readings of 1.0 the
    sixth, 10.0, is checked against their statistics. *)
Example detect_anomaly_constant_baseline :
  ar_is_anomaly
    (detect_anomaly float_fmt_f (vib 10)
       (finalize_statistics (accumulate [1; 1; 1; 1; 1]%float))
       (mk_anomaly_config 2%float 100%float 50 5)) = 1%Z
  /\ ar_severity
       (detect_anomaly float_fmt_f (vib 10)
          (finalize_statistics (accumulate [1; 1; 1; 1; 1]%float))
          (mk_anomaly_config 2%float 100%float 50 5)) = infinity
  /\ ar_description
       (detect_anomaly float_fmt_f (vib 10)
          (finalize_statistics (accumulate [1; 1; 1; 1; 1]%float))
          (mk_anomaly_config 2%float 100%float 50 5))
     = "Statistical anomaly: inf std devs from mean".
Proof. vm_compute. repeat split. Qed.

(** The same stream as the control loop sees it: the statistics already
    hold the sixth reading when it is checked, and the severity is above
    2 standard deviations. *)
Example detect_anomaly_sixth_reading :
  ar_is_anomaly
    (detect_anomaly float_fmt_f (vib 10)
       (finalize_statistics (accumulate [1; 1; 1; 1; 1; 10]%float))
       (mk_anomaly_config 2%float 100%float 50 5)) = 1%Z
  /\ (2%float
      <. ar_severity
           (detect_anomaly float_fmt_f (vib 10)
              (finalize_statistics (accumulate [1; 1; 1; 1; 1; 10]%float))
              (mk_anomaly_config 2%float 100%float 50 5))) = true
  /\ ar_description
       (detect_anomaly float_fmt_f (vib 10)
          (finalize_statistics (accumulate [1; 1; 1; 1; 1; 10]%float))
          (mk_anomaly_config 2%float 100%float 50 5))
     = "Statistical anomaly: 2.24 std devs from mean".
Proof. vm_compute. repeat split. Qed.

(** ** Trend estimator *)

Section TrendFacts.
Context {D : Type} `{DoubleOps D}.

(** C7. Whenever the sample count is below the window size or the window
    size is below 2, [analyze_trend] returns the neutral result: direction
    "stable", slope, correlation and confidence 0.  It returns the same
    when the magnitude of the regression denominator does not exceed
    1e-10, instead of dividing by it. *)
Theorem analyze_trend_neutral (data_array : list (sensor_data_t D))
    (count window_size : Z) :
  ((count < window_size)%Z \/ (window_size < 2)%Z ->
   analyze_trend data_array count window_size
   = mk_trend_analysis (d_lit 0) (d_lit 0) "stable" (d_lit 0))
  /\ ((d_fabs (regression_denominator data_array count window_size)
       >. d_lit (1 # 10000000000)) = false ->
      analyze_trend data_array count window_size
      = mk_trend_analysis (d_lit 0) (d_lit 0) "stable" (d_lit 0)).
Proof.
  split.
  - intros Hshort. unfold analyze_trend.
    destruct (Z.ltb_spec count window_size), (Z.ltb_spec window_size 2);
      try reflexivity.
    lia.
  - intros Hden. unfold analyze_trend, regression_denominator in * .
    destruct ((count <? window_size)%Z || (window_size <? 2)%Z); [reflexivity|].
    destruct (regression_sums data_array (count - window_size) window_size)
      as [[[sum_x sum_y] sum_xy] sum_x2].
    cbv zeta. rewrite Hden. reflexivity.
Qed.

End TrendFacts.

(** Too few samples (3 for a window of 5), a window below 2, and a
    denominator of 0 (the one a window of a single index gives). *)
Lemma analyze_trend_neutral_witness :
  analyze_trend (map vib [1; 2; 3]%float) 3 5
  = mk_trend_analysis (d_lit 0) (d_lit 0) "stable" (d_lit 0)
  /\ analyze_trend (map vib [1; 2; 3]%float) 3 1
     = mk_trend_analysis (d_lit 0) (d_lit 0) "stable" (d_lit 0)
  /\ regression_denominator (map vib [1; 2; 3]%float) 3 1 = 0%float
  /\ analyze_trend (map vib [1; 2; 3]%float) 3 1
     = mk_trend_analysis (d_lit 0) (d_lit 0) "stable" (d_lit 0).
Proof.
  split.
  { apply (proj1 (analyze_trend_neutral (map vib [1; 2; 3]%float) 3 5)).
    left. vm_compute. reflexivity. }
  split.
  { apply (proj1 (analyze_trend_neutral (map vib [1; 2; 3]%float) 3 1)).
    right. vm_compute. reflexivity. }
  split; [vm_compute; reflexivity|].
  apply (proj2 (analyze_trend_neutral (map vib [1; 2; 3]%float) 3 1)).
  vm_compute. reflexivity.
Defined.

(** With a window of two or more unit-spaced indices the denominator is
    far from 0: 825 for a window of ten. *)
Example regression_denominator_window_10 :
  regression_denominator (map vib (map float_of_Z (seqZ 1 20))) 20 10
  = 825%float.
Proof. vm_compute. reflexivity. Qed.

(** The scenario of the specification: twenty increasing values, a window
    of ten. *)
Example analyze_trend_increasing :
  analyze_trend (map vib (map float_of_Z (seqZ 1 20))) 20 10
  = mk_trend_analysis 1%float 1%float "increasing" 1%float.
Proof. vm_compute. reflexivity. Qed.

(** ** Peak frequency estimator *)

Section FrequencyFacts.
Context {D : Type} `{DoubleOps D}.

Lemma array_get_nat (a : list D) (i : nat) :
  array_get a (Z.of_nat i) = default (d_lit 0) (a !! i).
Proof.
  unfold array_get. destruct (Z.ltb_spec (Z.of_nat i) 0) as [Hneg|_]; [lia|].
  by rewrite Nat2Z.id.
Qed.

Lemma array_get_app (pre l : list D) (k : nat) (i : Z) :
  i = Z.of_nat (length pre + k) ->
  array_get (pre ++ l) i = default (d_lit 0) (l !! k).
Proof.
  intros ->. rewrite array_get_nat, lookup_app_r by lia.
  do 2 f_equal. lia.
Qed.

Lemma peaks_step (a b c : D) (rest : list D) :
  peaks (a :: b :: c :: rest)
  = (if (b >. a) && (b >. c) then [b] else []) ++ peaks (b :: c :: rest).
Proof. reflexivity. Qed.

Lemma peaks_length (values : list D) :
  (length (peaks values) <= length values)%nat.
Proof.
  induction values as [|a values IH]; [done|].
  destruct values as [|b [|c rest]].
  { simpl. lia. }
  { simpl. lia. }
  rewrite peaks_step, length_app.
  destruct ((b >. a) && (b >. c)); cbn [length] in * ; lia.
Qed.

(** The loop over the interior indices sees exactly the strict local
    maxima, in order. *)
Lemma peak_loop (l pre : list D) (peak_count : Z) (amplitude : D) :
  (0 <= peak_count)%Z ->
  (peak_count + Z.of_nat (length l) <= INT_MAX)%Z ->
  fold_left (peak_step (pre ++ l))
    (seqZ (Z.of_nat (length pre) + 1) (Z.of_nat (length l) - 2))
    (peak_count, amplitude)
  = ((peak_count + Z.of_nat (length (peaks l)))%Z,
     scan_max amplitude (peaks l)).
Proof.
  revert pre peak_count amplitude.
  induction l as [|a l IH]; intros pre peak_count amplitude Hlo Hhi.
  { rewrite seqZ_nil by (simpl; lia). simpl. f_equal. lia. }
  destruct l as [|b [|c rest]].
  { rewrite seqZ_nil by (simpl; lia). simpl. f_equal. lia. }
  { rewrite seqZ_nil by (simpl; lia). simpl. f_equal. lia. }
  rewrite seqZ_cons by (simpl; lia). cbn [fold_left].
  rewrite peaks_step.
  assert (Hstep :
    peak_step (pre ++ a :: b :: c :: rest) (peak_count, amplitude)
      (Z.of_nat (length pre) + 1)
    = if (b >. a) && (b >. c)
      then ((peak_count + 1)%Z, if b >. amplitude then b else amplitude)
      else (peak_count, amplitude)).
  { unfold peak_step.
    rewrite (array_get_app pre _ 1 (Z.of_nat (length pre) + 1)) by lia.
    rewrite (array_get_app pre _ 0 (Z.of_nat (length pre) + 1 - 1)) by lia.
    rewrite (array_get_app pre _ 2 (Z.of_nat (length pre) + 1 + 1)) by lia.
    cbn [lookup list_lookup default from_option Datatypes.id].
    destruct ((b >. a) && (b >. c)); [|done].
    rewrite int_wrap_small; [done|]. simpl in Hhi. unfold INT_MAX in * . lia. }
  rewrite Hstep. clear Hstep.
  specialize (IH (pre ++ [a])).
  replace ((pre ++ [a]) ++ b :: c :: rest) with (pre ++ a :: b :: c :: rest)
    in IH by (by rewrite <- app_assoc).
  replace (Z.of_nat (length (pre ++ [a])) + 1)%Z
    with (Z.succ (Z.of_nat (length pre) + 1)) in IH
    by (rewrite length_app; simpl; lia).
  replace (Z.of_nat (length (b :: c :: rest)) - 2)%Z
    with (Z.pred (Z.of_nat (length (a :: b :: c :: rest)) - 2)) in IH
    by (simpl; lia).
  pose proof (peaks_length (b :: c :: rest)) as Hpk.
  simpl in Hhi, Hpk.
  destruct ((b >. a) && (b >. c)).
  - rewrite IH by (simpl; lia).
    rewrite length_app. cbn [length app scan_max]. f_equal. lia.
  - rewrite IH by (simpl; lia). done.
Qed.

(** What [analyze_frequency_spectrum] returns on an array of [count] values:
    the frequency over a duration of [count * 0.1] seconds, and the running
    maximum of the peaks, started at 0. *)
Lemma frequency_loop_result (values : list D) :
  (4 <= length values)%nat ->
  (Z.of_nat (length values) <= INT_MAX)%Z ->
  analyze_frequency_spectrum values (Z.of_nat (length values))
  = Some
      ((if (0 <? Z.of_nat (length (peaks values)))%Z
           && ((d_of_int (Z.of_nat (length values)) *. d_lit (1 # 10))
               >. d_of_int 0)
        then d_of_int (Z.of_nat (length (peaks values)))
             /. (d_of_int (Z.of_nat (length values)) *. d_lit (1 # 10))
        else d_lit 0),
       scan_max (d_lit 0) (peaks values)).
Proof.
  intros Hmin Hmax. unfold analyze_frequency_spectrum.
  destruct (Z.ltb_spec (Z.of_nat (length values)) 4) as [Hlt|_]; [lia|].
  pose proof (peak_loop values [] 0 (d_lit 0)) as Hloop.
  cbn [app length] in Hloop. change (Z.of_nat 0 + 1)%Z with 1%Z in Hloop.
  rewrite Hloop by lia. cbv zeta. cbn [Z.add]. reflexivity.
Qed.

(** A running maximum that no value exceeds stays where it started. *)
Lemma scan_max_unchanged (acc : D) (values : list D) :
  (forall v, v ∈ values -> (v >. acc) = false) ->
  scan_max acc values = acc.
Proof.
  induction values as [|v values IH]; intros Hall; simpl; [done|].
  rewrite (Hall v) by apply list_elem_of_here.
  apply IH. intros u Hu. apply Hall. by apply list_elem_of_further.
Qed.

(** C8, amended.  For every array of at least 4 values (and at most
    INT_MAX), [analyze_frequency_spectrum], which is given no sample
    interval, returns as frequency the number of strict interior local
    maxima divided by [count * 0.1] seconds (one sample per 100 ms is built
    in), 0 when there is no such maximum ([frequency_at_100ms]); and as
    amplitude the running
    maximum of the peak values started at 0, which is the largest peak only
    when that one is above 0. *)
Theorem frequency_estimate_fixed_interval (values : list D) :
  (4 <= length values)%nat ->
  (Z.of_nat (length values) <= INT_MAX)%Z ->
  exists frequency amplitude,
    analyze_frequency_spectrum values (Z.of_nat (length values))
    = Some (frequency, amplitude)
    /\ frequency = frequency_at_100ms values
    /\ amplitude = scan_max (d_lit 0) (peaks values).
Proof.
  intros Hmin Hmax. eexists _, _.
  split; [apply (frequency_loop_result values Hmin Hmax)|].
  split; reflexivity.
Qed.

End FrequencyFacts.

(** C8, as stated, refuted on binary64.  On [0; 1; 0; 0] the code returns
    the frequency 2.5, which is not the one peak over the duration of four
    samples one second apart (0.25); on [-3; -1; -2; -5] it returns the
    amplitude 0, while the largest (and only) peak is -1. *)
Lemma frequency_estimate_differs :
  analyze_frequency_spectrum one_peak 4 = Some (2.5, 1)%float
  /\ peak_frequency one_peak 1%float = 0.25%float
  /\ analyze_frequency_spectrum negative_peak 4 = Some (2.5, 0)%float
  /\ max_of_peaks negative_peak = Some (-1)%float.
Proof. vm_compute. repeat split. Qed.

Lemma frequency_estimate_fixed_interval_witness :
  exists frequency amplitude,
    analyze_frequency_spectrum negative_peak
      (Z.of_nat (length negative_peak)) = Some (frequency, amplitude)
    /\ frequency = frequency_at_100ms negative_peak
    /\ amplitude = scan_max (d_lit 0) (peaks negative_peak).
Proof.
  apply (frequency_estimate_fixed_interval negative_peak).
  - vm_compute. lia.
  - vm_compute. discriminate.
Defined.

(** *** The amplitude on binary64 *)

Lemma binary64_zero : d_lit (D := float) 0 = 0%float.
Proof. reflexivity. Qed.

(** IEEE 754 comparisons around zero: what exceeds a value that is not
    below zero is not below zero, and what is below zero does not exceed
    it. *)
Lemma binary64_above_nonneg (a v : float) :
  (d_lit 0 <=. a) = true -> (v >. a) = true -> (d_lit 0 <=. v) = true.
Proof.
  rewrite binary64_zero. cbn [d_leb d_ltb binary64].
  rewrite !leb_spec, ltb_spec.
  replace (Prim2SF 0) with (S754_zero false) by reflexivity.
  destruct (Prim2SF a) as [sa|sa| |sa ma ea], (Prim2SF v) as [sv|sv| |sv mv ev];
    try destruct sa; try destruct sv; cbn; congruence.
Qed.

Lemma binary64_negative_not_above (p : float) :
  (p <. d_lit 0) = true -> (p >. d_lit 0) = false.
Proof.
  rewrite binary64_zero. cbn [d_ltb binary64].
  rewrite !ltb_spec.
  replace (Prim2SF 0) with (S754_zero false) by reflexivity.
  destruct (Prim2SF p) as [sp|sp| |sp mp ep]; try destruct sp; cbn; congruence.
Qed.

Lemma peak_loop_nonneg (values : list float) (indices : list Z)
    (peak_count : Z) (amplitude : float) :
  (d_lit 0 <=. amplitude) = true ->
  (d_lit 0 <=. snd (fold_left (peak_step values) indices
                      (peak_count, amplitude))) = true.
Proof.
  revert peak_count amplitude.
  induction indices as [|i indices IH]; intros peak_count amplitude Hamp;
    [exact Hamp|].
  cbn [fold_left]. unfold peak_step at 2.
  destruct ((array_get values i >. array_get values (i - 1))
            && (array_get values i >. array_get values (i + 1)));
    [|by apply IH].
  destruct (array_get values i >. amplitude) eqn:Hgt; apply IH; [|exact Hamp].
  exact (binary64_above_nonneg amplitude (array_get values i) Hamp Hgt).
Qed.

(** C10. On binary64, whatever [analyze_frequency_spectrum] returns as
    amplitude is at least 0: it starts at 0 and only a peak above the
    running maximum replaces it.  So for a signal whose strict interior
    local maxima are all negative, or which has none, the amplitude
    returned is 0 and not the largest peak. *)
Theorem frequency_amplitude_floor (values : list float) :
  (forall (count : Z) (frequency amplitude : float),
     analyze_frequency_spectrum values count = Some (frequency, amplitude) ->
     (d_lit 0 <=. amplitude) = true)
  /\ ((4 <= length values)%nat ->
      (Z.of_nat (length values) <= INT_MAX)%Z ->
      (forall p, p ∈ peaks values -> (p <. d_lit 0) = true) ->
      exists frequency,
        analyze_frequency_spectrum values (Z.of_nat (length values))
        = Some (frequency, d_lit 0)).
Proof.
  split.
  - intros count frequency amplitude. unfold analyze_frequency_spectrum.
    destruct (count <? 4)%Z; [discriminate|].
    pose proof (peak_loop_nonneg values (seqZ 1 (count - 2)) 0 (d_lit 0)
                  eq_refl) as Hloop.
    destruct (fold_left (peak_step values) (seqZ 1 (count - 2)) (0%Z, d_lit 0))
      as [peak_count amp].
    cbv zeta. intros [= _ <-]. exact Hloop.
  - intros Hmin Hmax Hneg.
    rewrite (frequency_loop_result values Hmin Hmax).
    rewrite scan_max_unchanged; [by eexists|].
    intros p Hp. apply binary64_negative_not_above, Hneg, Hp.
Qed.

Lemma frequency_amplitude_floor_witness :
  (d_lit 0 <=. 0%float) = true
  /\ exists frequency,
       analyze_frequency_spectrum negative_peak
         (Z.of_nat (length negative_peak)) = Some (frequency, d_lit 0).
Proof.
  split.
  - apply (proj1 (frequency_amplitude_floor negative_peak) 4%Z 2.5%float).
    vm_compute. reflexivity.
  - apply (proj2 (frequency_amplitude_floor negative_peak)).
    + vm_compute. lia.
    + vm_compute. discriminate.
    + assert (Hpeaks : peaks negative_peak = [(-1)%float])
        by (vm_compute; reflexivity).
      rewrite Hpeaks. intros p Hp.
      apply list_elem_of_singleton in Hp. subst p. vm_compute. reflexivity.
Defined.

(** ** Bridge vibration classifier *)

Section BridgeFacts.
Context {D : Type} `{DoubleOps D}.

Lemma sample_value_app (pre data : list (sensor_data_t D))
    (d : sensor_data_t D) :
  sample_value (pre ++ d :: data) (Z.of_nat (length pre)) = sd_value d.
Proof.
  unfold sample_value.
  destruct (Z.ltb_spec (Z.of_nat (length pre)) 0) as [Hneg|_]; [lia|].
  rewrite Nat2Z.id, lookup_app_r by lia.
  by rewrite Nat.sub_diag.
Qed.

(** Reading the array at the indices [0 .. count-1] gives its values. *)
Lemma sample_values_from (data pre : list (sensor_data_t D)) :
  map (sample_value (pre ++ data))
    (seqZ (Z.of_nat (length pre)) (Z.of_nat (length data)))
  = map sd_value data.
Proof.
  revert pre. induction data as [|d data IH]; intros pre; [done|].
  rewrite seqZ_cons by (simpl; lia). cbn [map].
  rewrite sample_value_app. f_equal.
  specialize (IH (pre ++ [d])).
  rewrite <- app_assoc in IH. cbn [app] in IH.
  rewrite <- IH. f_equal. rewrite length_app. f_equal; simpl; lia.
Qed.

Lemma bridge_loop (data : list (sensor_data_t D)) (indices : list Z)
    (sum_squares peak : D) :
  fold_left
    (fun '(sum_squares, peak) i =>
       let value := sample_value data i in
       (sum_squares +. value *. value,
        if value >. peak then value else peak))
    indices (sum_squares, peak)
  = (scan_sum sum_squares
       (map (fun v => v *. v) (map (sample_value data) indices)),
     scan_max peak (map (sample_value data) indices)).
Proof.
  revert sum_squares peak.
  induction indices as [|i indices IH]; intros sum_squares peak; [done|].
  cbn [fold_left map scan_sum scan_max]. by rewrite IH.
Qed.

Lemma bridge_sums_scans (data : list (sensor_data_t D)) :
  bridge_sums data (Z.of_nat (length data))
  = (ref_sum (map (fun v => v *. v) (map sd_value data)),
     scan_max (d_lit 0) (map sd_value data)).
Proof.
  unfold bridge_sums. rewrite bridge_loop.
  pose proof (sample_values_from data []) as Hvalues.
  cbn [app length] in Hvalues. change (Z.of_nat 0) with 0%Z in Hvalues.
  by rewrite Hvalues.
Qed.

(** C9, amended.  For every array of at least 10 readings the classifier
    computes rms = sqrt(mean(value²)) and the peak as the running maximum
    of the values started at 0, and returns status 0 (Safe) when rms < 0.1
    and peak < 0.3, else 1 (Warning) when rms < 0.3 and peak < 0.8, else 2
    (Critical).  For a count below 10 it returns zero amplitudes and
    frequency, the message "Insufficient data" and the status 0, which is
    the code of Safe: only the message tells the two apart. *)
Theorem bridge_classifier_tiers (data : list (sensor_data_t D)) :
  (forall count : Z,
     (count < 10)%Z ->
     analyze_bridge_vibration data count
     = mk_bridge_analysis (d_lit 0) (d_lit 0) (d_lit 0) 0 "Insufficient data")
  /\ ((10 <= length data)%nat ->
      ba_rms_amplitude (analyze_bridge_vibration data (Z.of_nat (length data)))
      = d_sqrt (ref_mean_of_squares (map sd_value data))
      /\ ba_peak_amplitude
           (analyze_bridge_vibration data (Z.of_nat (length data)))
         = scan_max (d_lit 0) (map sd_value data)
      /\ ba_safety_status
           (analyze_bridge_vibration data (Z.of_nat (length data)))
         = safety_tier
             (d_sqrt (ref_mean_of_squares (map sd_value data)))
             (scan_max (d_lit 0) (map sd_value data))).
Proof.
  split.
  - intros count Hfew. unfold analyze_bridge_vibration.
    destruct (Z.ltb_spec count 10) as [_|Hge]; [reflexivity|lia].
  - intros Hmany. unfold analyze_bridge_vibration.
    destruct (Z.ltb_spec (Z.of_nat (length data)) 10) as [Hlt|_]; [lia|].
    rewrite bridge_sums_scans. cbv zeta.
    unfold ref_mean_of_squares, ref_count, safety_tier.
    rewrite length_map.
    set (rms := d_sqrt (_ /. _)).
    set (peak := scan_max _ _).
    destruct ((rms <. d_lit (1 # 10)) && (peak <. d_lit (3 # 10)));
      [repeat split|].
    destruct ((rms <. d_lit (3 # 10)) && (peak <. d_lit (8 # 10)));
      repeat split.
Qed.

End BridgeFacts.

(** C9, as stated, refuted on binary64, on both counts.  Nine readings of
    5 m/s2 come back with the status 0, the very status ten quiet readings
    get with the message that the bridge is safe, while ten readings of
    5 m/s2 are Critical.  And the peak is not taken from the samples when
    they are negative: a swing of 0.9 m/s2 downwards among 99 readings at
    rest leaves the peak at 0 and the bridge Safe, the same swing upwards
    being Critical; ten readings of -0.05 have the peak 0, which none of
    them is. *)
Lemma bridge_verdict_slips :
  (ba_safety_status (analyze_bridge_vibration violent9 9) = 0%Z
   /\ ba_safety_message (analyze_bridge_vibration violent9 9)
      = "Insufficient data"
   /\ ba_safety_status (analyze_bridge_vibration quiet10 10) = 0%Z
   /\ ba_safety_message (analyze_bridge_vibration quiet10 10)
      = "Normal vibration levels - Bridge is safe"
   /\ ba_safety_status (analyze_bridge_vibration violent10 10) = 2%Z)
  /\ (ba_peak_amplitude (analyze_bridge_vibration swing_down 100) = 0%float
      /\ ba_safety_status (analyze_bridge_vibration swing_down 100) = 0%Z
      /\ ba_safety_message (analyze_bridge_vibration swing_down 100)
         = "Normal vibration levels - Bridge is safe"
      /\ ba_peak_amplitude (analyze_bridge_vibration swing_up 100) = 0.9%float
      /\ ba_safety_status (analyze_bridge_vibration swing_up 100) = 2%Z)
  /\ (ba_peak_amplitude (analyze_bridge_vibration below10 10) = 0%float
      /\ map sd_value below10 = replicate 10 (-0.05)%float).
Proof. vm_compute. repeat split. Qed.

Lemma bridge_classifier_tiers_witness :
  analyze_bridge_vibration violent9 9
  = mk_bridge_analysis (d_lit 0) (d_lit 0) (d_lit 0) 0 "Insufficient data"
  /\ ba_safety_status
       (analyze_bridge_vibration quiet10 (Z.of_nat (length quiet10)))
     = safety_tier
         (d_sqrt (ref_mean_of_squares (map sd_value quiet10)))
         (scan_max (d_lit 0) (map sd_value quiet10)).
Proof.
  split.
  - apply (proj1 (bridge_classifier_tiers violent9) 9%Z). lia.
  - apply (proj2 (bridge_classifier_tiers quiet10)). vm_compute. lia.
Defined.

(** ** Moving average filter *)

(** C4, as stated, refuted on binary64.  With a capacity of 2 the stream
    1e16, 1, 3 yields the averages 1e16, 5e15 and 1.5, while the mean of
    the two most recent values, 1 and 3, is 2: the 1 was absorbed when it
    was added to 1e16, and evicting 1e16 does not bring it back. *)
Lemma moving_average_drifts_binary64 :
  fst (run_moving_average filter2 drift_stream) = [1e16; 5e15; 1.5]%float
  /\ window 2 drift_stream = [1; 3]%float
  /\ ref_mean (window 2 drift_stream) = 2%float.
Proof. vm_compute. repeat split. Qed.

Lemma sum_R_app (l k : list R) : sum_R (l ++ k) = (sum_R l + sum_R k)%R.
Proof. induction l as [|x l IH]; simpl; [lra|]. rewrite IH. lra. Qed.

Lemma window_length {A : Type} (c : nat) (stream : list A) :
  length (window c stream) = (length stream `min` c)%nat.
Proof. unfold window. rewrite length_drop. lia. Qed.

Lemma window_short {A : Type} (c : nat) (stream : list A) :
  (length stream <= c)%nat -> window c stream = stream.
Proof.
  intros Hshort. unfold window.
  by replace (length stream - c)%nat with 0%nat by lia.
Qed.

(** Once the stream is as long as the window, a new value pushes the
    oldest one out. *)
Lemma window_slide (c : nat) (p : list R) (x v : R) :
  (0 < c)%nat -> (c <= length p)%nat ->
  p !! (length p - c)%nat = Some x ->
  sum_R (window c (p ++ [v])) = (sum_R (window c p) - x + v)%R.
Proof.
  intros Hc Hfull Hx. unfold window.
  rewrite length_app. cbn [length].
  replace (length p + 1 - c)%nat with (S (length p - c)) by lia.
  rewrite drop_app_le by lia.
  rewrite (drop_S p x (length p - c)) by done.
  rewrite sum_R_app. simpl. lra.
Qed.

(** Two ranks less than [c] apart do not share a slot. *)
Lemma slots_differ (c i n : nat) :
  (i < n)%nat -> (n < i + c)%nat -> (i mod c)%nat <> (n mod c)%nat.
Proof.
  intros Hlt Hnear Heq.
  pose proof (Nat.div_mod_eq n c) as Hn.
  pose proof (Nat.div_mod_eq i c) as Hi.
  rewrite <- Heq in Hn.
  assert (Hle : (i / c <= n / c)%nat) by (apply Nat.Div0.div_le_mono; lia).
  assert (Hd : (n / c = i / c \/ i / c + 1 <= n / c)%nat) by lia.
  destruct Hd as [Hd|Hd]; [rewrite Hd in Hn; lia|nia].
Qed.

Lemma xadd_fin (a b : R) : XFin a +. XFin b = XFin (a + b).
Proof. reflexivity. Qed.

Lemma xsub_fin (a b : R) : XFin a -. XFin b = XFin (a - b).
Proof. reflexivity. Qed.

Lemma evicted_slot (c n : nat) :
  (c <= n)%nat -> ((n - c) mod c)%nat = (n mod c)%nat.
Proof.
  intros Hle. replace n with ((n - c) + 1 * c)%nat at 2 by lia.
  by rewrite Nat.Div0.mod_add.
Qed.

Lemma next_index (c n : nat) :
  (0 < c)%nat -> (Z.of_nat c <= INT_MAX)%Z ->
  Z.rem (int_wrap (Z.of_nat (n mod c) + 1)) (Z.of_nat c)
  = Z.of_nat ((n + 1) mod c).
Proof.
  intros Hc Hmax.
  pose proof (Nat.mod_upper_bound n c) as Hlt.
  rewrite int_wrap_small by (unfold INT_MAX in * ; lia).
  rewrite Z.rem_mod_nonneg by lia.
  replace (Z.of_nat (n mod c) + 1)%Z with (Z.of_nat (n mod c + 1)) by lia.
  rewrite <- Nat2Z.inj_mod. by rewrite Nat.Div0.add_mod_idemp_l.
Qed.

(** A freshly initialised filter holds the empty stream. *)
Lemma init_holds (c : nat) (ma0 : moving_average_t xreal) :
  (0 < c)%nat ->
  init_moving_average ma0 (Z.of_nat c)
  = (0%Z, snd (init_moving_average ma0 (Z.of_nat c)))
  /\ filter_holds c [] (snd (init_moving_average ma0 (Z.of_nat c))).
Proof.
  intros Hc. unfold init_moving_average.
  destruct (Z.leb_spec (Z.of_nat c) 0) as [Hle|_]; [lia|].
  split; [reflexivity|]. cbn [snd].
  exists (replicate c (d_lit 0)). cbn [ma_buffer ma_buffer_size
    ma_current_index ma_sample_count ma_sum length].
  rewrite Nat2Z.id, length_replicate, Nat.Div0.mod_0_l.
  repeat split; try done.
  - by rewrite xlit_zero.
Qed.

(** One update, computed exactly. *)
Lemma update_exact (c : nat) (p : list R) (ma : moving_average_t xreal)
    (v : R) :
  (0 < c)%nat -> (Z.of_nat c <= INT_MAX)%Z ->
  filter_holds c p ma ->
  exists ma',
    update_moving_average ma (XFin v)
    = (XFin (window_mean c (p ++ [v])), ma')
    /\ filter_holds c (p ++ [v]) ma'.
Proof.
  intros Hc Hmax (buffer & Hbuf & Hlen & Hsize & Hidx & Hcnt & Hsum & Hslots).
  pose proof (Nat.mod_upper_bound (length p) c) as Hmod.
  unfold update_moving_average.
  rewrite Hbuf, Hsize, Hidx, Hcnt, Hsum.
  eexists. split.
  - f_equal.
    unfold window_mean, mean_R. rewrite window_length, length_app.
    cbn [length]. rewrite INR_IZR_INZ.
    destruct (Z.leb_spec (Z.of_nat c) (Z.of_nat (length p `min` c)))
      as [Hfull|Hroom].
    + destruct (lookup_lt_is_Some_2 p (length p - c)%nat) as [x Hx]; [lia|].
      rewrite array_get_nat.
      rewrite <- (evicted_slot c (length p)) by lia.
      rewrite (Hslots _ x) by (done || lia). cbn [default from_option Datatypes.id].
      rewrite xsub_fin, xadd_fin.
      change (d_of_int (D := xreal) (Z.of_nat (length p `min` c)))
        with (XFin (IZR (Z.of_nat (length p `min` c)))).
      rewrite xdiv_fin by (apply not_0_IZR; lia).
      rewrite (window_slide c p x v) by (done || lia).
      do 3 f_equal. lia.
    + rewrite int_wrap_small by (unfold INT_MAX in * ; lia).
      rewrite xadd_fin.
      change (d_of_int (D := xreal) (Z.of_nat (length p `min` c) + 1))
        with (XFin (IZR (Z.of_nat (length p `min` c) + 1))).
      rewrite xdiv_fin by (apply not_0_IZR; lia).
      rewrite (window_short c p) by lia.
      rewrite (window_short c (p ++ [v])) by (rewrite length_app; simpl; lia).
      rewrite sum_R_app. simpl.
      f_equal. f_equal; [lra|]. f_equal. lia.
  - exists (array_store buffer (Z.of_nat (length p mod c)) (XFin v)).
    cbn [ma_buffer ma_buffer_size ma_current_index ma_sample_count ma_sum].
    assert (Hstore :
      array_store buffer (Z.of_nat (length p mod c)) (XFin v)
      = <[(length p mod c)%nat := XFin v]> buffer).
    { unfold array_store.
      destruct (Z.ltb_spec (Z.of_nat (length p mod c)) 0); [lia|].
      by rewrite Nat2Z.id. }
    rewrite Hstore, length_insert, length_app. cbn [length].
    split; [reflexivity|]. split; [exact Hlen|]. split; [reflexivity|].
    split; [by apply next_index|].
    destruct (Z.leb_spec (Z.of_nat c) (Z.of_nat (length p `min` c)))
      as [Hfull|Hroom].
    + destruct (lookup_lt_is_Some_2 p (length p - c)%nat) as [x Hx]; [lia|].
      split; [f_equal; lia|].
      split.
      * rewrite array_get_nat.
        rewrite <- (evicted_slot c (length p)) by lia.
        rewrite (Hslots _ x) by (done || lia).
        cbn [default from_option Datatypes.id].
        rewrite xsub_fin, xadd_fin.
        by rewrite (window_slide c p x v) by (done || lia).
      * intros i y Hnear Hy.
        destruct (decide (i = length p)) as [->|Hne].
        -- rewrite lookup_app_r, Nat.sub_diag in Hy by lia.
           injection Hy as <-. apply list_lookup_insert_eq. lia.
        -- assert (Hi : (i < length p)%nat).
           { apply lookup_lt_Some in Hy. rewrite length_app in Hy.
             simpl in Hy. lia. }
           rewrite lookup_app_l in Hy by lia.
           rewrite list_lookup_insert_ne
             by (apply not_eq_sym, slots_differ; lia).
           apply Hslots; [lia|done].
    + split; [rewrite int_wrap_small by (unfold INT_MAX in * ; lia);
              f_equal; lia|].
      split.
      * rewrite xadd_fin.
        rewrite (window_short c p) by lia.
        rewrite (window_short c (p ++ [v])) by (rewrite length_app; simpl; lia).
        rewrite sum_R_app. simpl. f_equal. lra.
      * intros i y Hnear Hy.
        destruct (decide (i = length p)) as [->|Hne].
        -- rewrite lookup_app_r, Nat.sub_diag in Hy by lia.
           injection Hy as <-. apply list_lookup_insert_eq. lia.
        -- assert (Hi : (i < length p)%nat).
           { apply lookup_lt_Some in Hy. rewrite length_app in Hy.
             simpl in Hy. lia. }
           rewrite lookup_app_l in Hy by lia.
           rewrite list_lookup_insert_ne
             by (apply not_eq_sym, slots_differ; lia).
           apply Hslots; [lia|done].
Qed.

(** A whole stream, computed exactly, from a filter that holds [p]. *)
Lemma run_exact (c : nat) (rs p : list R) (ma : moving_average_t xreal) :
  (0 < c)%nat -> (Z.of_nat c <= INT_MAX)%Z ->
  filter_holds c p ma ->
  fst (run_moving_average ma (map XFin rs))
  = map (fun k => XFin (window_mean c (p ++ take (S k) rs)))
      (seq 0 (length rs)).
Proof.
  intros Hc Hmax. revert p ma.
  induction rs as [|r rs IH]; intros p ma Hholds; [done|].
  destruct (update_exact c p ma r Hc Hmax Hholds) as (ma1 & Hupd & Hholds1).
  cbn [map run_moving_average length seq]. rewrite Hupd.
  specialize (IH (p ++ [r]) ma1 Hholds1).
  destruct (run_moving_average ma1 (map XFin rs)) as [averages ma2].
  cbn [fst] in * . rewrite IH. f_equal.
  rewrite <- seq_shift, map_map.
  apply map_ext. intros k. cbn [take]. by rewrite <- app_assoc.
Qed.

Section RunningSumFacts.
Context {D : Type} `{DoubleOps D}.

Lemma init_tracks (c : nat) (stream : list D) (ma0 : moving_average_t D) :
  (0 < c)%nat ->
  init_moving_average ma0 (Z.of_nat c)
  = (0%Z, snd (init_moving_average ma0 (Z.of_nat c)))
  /\ filter_tracks c stream 0 (snd (init_moving_average ma0 (Z.of_nat c))).
Proof.
  intros Hc. unfold init_moving_average.
  destruct (Z.leb_spec (Z.of_nat c) 0) as [Hle|_]; [lia|].
  split; [reflexivity|]. cbn [snd].
  exists (replicate c (d_lit 0)).
  cbn [ma_buffer ma_buffer_size ma_current_index ma_sample_count ma_sum
       running_sum].
  rewrite Nat2Z.id, length_replicate, Nat.Div0.mod_0_l.
  repeat split; try done. intros i x Hi. lia.
Qed.

(** One update, in any arithmetic. *)
Lemma update_tracks (c : nat) (stream : list D) (n : nat)
    (ma : moving_average_t D) (v : D) :
  (0 < c)%nat -> (Z.of_nat c <= INT_MAX)%Z ->
  stream !! n = Some v ->
  filter_tracks c stream n ma ->
  exists ma',
    update_moving_average ma v
    = (running_sum c stream (S n) /. d_of_int (Z.of_nat (S n `min` c)), ma')
    /\ filter_tracks c stream (S n) ma'.
Proof.
  intros Hc Hmax Hv (buffer & Hbuf & Hlen & Hsize & Hidx & Hcnt & Hsum & Hslots).
  pose proof (Nat.mod_upper_bound n c) as Hmod.
  assert (Hn : (n < length stream)%nat) by (by apply lookup_lt_Some in Hv).
  assert (Hstore :
    array_store buffer (Z.of_nat (n mod c)) v = <[(n mod c)%nat := v]> buffer).
  { unfold array_store.
    destruct (Z.ltb_spec (Z.of_nat (n mod c)) 0); [lia|].
    by rewrite Nat2Z.id. }
  assert (Hkeep : forall i y, (i < S n)%nat -> (S n <= i + c)%nat ->
            stream !! i = Some y ->
            <[(n mod c)%nat := v]> buffer !! (i mod c)%nat = Some y).
  { intros i y Hi Hnear Hy.
    destruct (decide (i = n)) as [->|Hne].
    - rewrite Hv in Hy. injection Hy as <-.
      apply list_lookup_insert_eq. lia.
    - rewrite list_lookup_insert_ne
        by (apply not_eq_sym, slots_differ; lia).
      apply Hslots; [lia|lia|done]. }
  unfold update_moving_average.
  rewrite Hbuf, Hsize, Hidx, Hcnt, Hsum, Hstore.
  cbn [running_sum]. rewrite Hv. cbn [default from_option Datatypes.id].
  destruct (Z.leb_spec (Z.of_nat c) (Z.of_nat (n `min` c))) as [Hfull|Hroom].
  - destruct (Nat.leb_spec c n) as [_|Hlt]; [|lia].
    destruct (lookup_lt_is_Some_2 stream (n - c)%nat) as [x Hx]; [lia|].
    assert (Hevicted : array_get buffer (Z.of_nat (n mod c)) = x).
    { rewrite array_get_nat, <- (evicted_slot c n) by lia.
      by rewrite (Hslots _ x) by (lia || done). }
    rewrite Hevicted, Hx. cbn [default from_option Datatypes.id].
    replace (S n `min` c)%nat with (n `min` c)%nat by lia.
    eexists. split; [reflexivity|].
    exists (<[(n mod c)%nat := v]> buffer).
    cbn [ma_buffer ma_buffer_size ma_current_index ma_sample_count ma_sum
         running_sum].
    rewrite length_insert, Hv, Hx.
    cbn [default from_option Datatypes.id].
    destruct (Nat.leb_spec c n) as [_|Hlt]; [|lia].
    split; [reflexivity|]. split; [exact Hlen|]. split; [reflexivity|].
    split; [rewrite next_index by done; do 2 f_equal; lia|].
    split; [f_equal; lia|]. split; [reflexivity|exact Hkeep].
  - destruct (Nat.leb_spec c n) as [Hle|_]; [lia|].
    rewrite int_wrap_small by (unfold INT_MAX in * ; lia).
    replace (Z.of_nat (n `min` c) + 1)%Z with (Z.of_nat (S n `min` c)) by lia.
    eexists. split; [reflexivity|].
    exists (<[(n mod c)%nat := v]> buffer).
    cbn [ma_buffer ma_buffer_size ma_current_index ma_sample_count ma_sum
         running_sum].
    rewrite length_insert, Hv.
    cbn [default from_option Datatypes.id].
    destruct (Nat.leb_spec c n) as [Hle|_]; [lia|].
    split; [reflexivity|]. split; [exact Hlen|]. split; [reflexivity|].
    split; [rewrite next_index by done; do 2 f_equal; lia|].
    split; [reflexivity|]. split; [reflexivity|exact Hkeep].
Qed.

(** The rest of a stream, from a filter that has taken its first [n]
    values. *)
Lemma run_tracks (c : nat) (stream rest : list D) (n : nat)
    (ma : moving_average_t D) :
  (0 < c)%nat -> (Z.of_nat c <= INT_MAX)%Z ->
  drop n stream = rest ->
  filter_tracks c stream n ma ->
  fst (run_moving_average ma rest)
  = map (fun k => running_sum c stream (S k)
                  /. d_of_int (Z.of_nat (S k `min` c)))
      (seq n (length rest)).
Proof.
  intros Hc Hmax. revert n ma.
  induction rest as [|v rest IH]; intros n ma Hdrop Htracks; [done|].
  assert (Hv : stream !! n = Some v).
  { rewrite <- (Nat.add_0_r n), <- lookup_drop, Hdrop. done. }
  destruct (update_tracks c stream n ma v Hc Hmax Hv Htracks)
    as (ma1 & Hupd & Htracks1).
  cbn [run_moving_average length seq map]. rewrite Hupd.
  assert (Hdrop1 : drop (S n) stream = rest).
  { replace (S n) with (n + 1)%nat by lia.
    rewrite <- drop_drop, Hdrop. done. }
  specialize (IH (S n) ma1 Hdrop1 Htracks1).
  destruct (run_moving_average ma1 rest) as [averages ma2].
  cbn [fst] in * . by rewrite IH.
Qed.

End RunningSumFacts.

(** C4, amended.  For every filter of capacity c > 0 (within [int]) and
    every stream, in the arithmetic of [double] and in any other, call n
    of [update_moving_average] returns the running sum divided by
    min(n, c), the running sum being built by adding each value in turn
    after subtracting, once more than c values have been inserted, the
    value inserted c calls earlier.  Computed exactly on finite values,
    that is the arithmetic mean of the min(n, c) most recent values, which
    are never more than c.  (On binary64 it need not be: the running sum
    keeps the rounding error of values it has evicted.) *)
Theorem moving_average_running_sum (c : nat) :
  (0 < c)%nat -> (Z.of_nat c <= INT_MAX)%Z ->
  (forall (D : Type) (ops : DoubleOps D) (ma0 : moving_average_t D)
          (values : list D),
     fst (init_moving_average ma0 (Z.of_nat c)) = 0%Z
     /\ fst (run_moving_average (snd (init_moving_average ma0 (Z.of_nat c)))
               values)
        = map (fun k => running_sum c values (S k)
                        /. d_of_int (Z.of_nat (S k `min` c)))
            (seq 0 (length values)))
  /\ (forall (ma0 : moving_average_t xreal) (rs : list R),
        fst (run_moving_average (snd (init_moving_average ma0 (Z.of_nat c)))
               (map XFin rs))
        = map (fun k => XFin (window_mean c (take (S k) rs)))
            (seq 0 (length rs))
        /\ (forall k, length (window c (take (S k) rs))
                      = (length (take (S k) rs) `min` c)%nat
                      /\ (length (window c (take (S k) rs)) <= c)%nat)).
Proof.
  intros Hc Hmax. split.
  - intros D ops ma0 values.
    destruct (init_tracks c values ma0 Hc) as [Hinit Htracks].
    split; [by rewrite Hinit|].
    by apply (run_tracks c values values 0).
  - intros ma0 rs.
    destruct (init_holds c ma0 Hc) as [_ Hholds].
    split; [exact (run_exact c rs [] _ Hc Hmax Hholds)|].
    intros k. rewrite window_length. lia.
Qed.

Lemma moving_average_running_sum_witness :
  fst (run_moving_average filter2 drift_stream)
  = map (fun k => running_sum 2 drift_stream (S k)
                  /. d_of_int (Z.of_nat (S k `min` 2)))
      (seq 0 (length drift_stream))
  /\ fst (run_moving_average
            (snd (init_moving_average
                    (mk_moving_average None 0 0 0 XNaN) (Z.of_nat 2)))
            (map XFin [1%R; 3%R; 8%R]))
     = map (fun k => XFin (window_mean 2 (take (S k) [1%R; 3%R; 8%R])))
         (seq 0 (length [1%R; 3%R; 8%R])).
Proof.
  assert (Hc : (0 < 2)%nat) by lia.
  assert (Hmax : (Z.of_nat 2 <= INT_MAX)%Z) by (vm_compute; discriminate).
  destruct (moving_average_running_sum 2 Hc Hmax) as [Hany Hexact].
  split.
  - exact (proj2 (Hany float binary64 blank_filter drift_stream)).
  - exact (proj1 (Hexact (mk_moving_average None 0 0 0 XNaN)
                    [1%R; 3%R; 8%R])).
Defined.

(** The error does not go away.  With a capacity of 3, after 1e16 has
    absorbed two ones and has been evicted, every window of three ones
    comes back as 0.333..., its mean being 1. *)
Example moving_average_error_persists :
  drop 3 (fst (run_moving_average (snd (init_moving_average blank_filter 3))
                 absorbed_stream))
  = [0.33333333333333331; 0.33333333333333331; 0.33333333333333331]%float
  /\ window 3 absorbed_stream = [1; 1; 1]%float
  /\ ref_mean (window 3 absorbed_stream) = 1%float.
Proof. vm_compute. repeat split. Qed.

(** The window of the last call of that witness holds 3 and 8. *)
Example window_mean_3_8 : window_mean 2 [1%R; 3%R; 8%R] = (11 / 2)%R.
Proof. unfold window_mean, mean_R, window. simpl. lra. Qed.

(** ** Buffered rotating logger *)

Lemma string_app_cons (x : Ascii.ascii) (a b : string) :
  String x a +:+ b = String x (a +:+ b).
Proof. reflexivity. Qed.

Lemma string_app_assoc (a b c : string) :
  (a +:+ b) +:+ c = a +:+ (b +:+ c).
Proof.
  induction a as [|x a IH]; [done|].
  rewrite !string_app_cons. by rewrite IH.
Qed.

Lemma string_app_length (a b : string) :
  String.length (a +:+ b) = (String.length a + String.length b)%nat.
Proof.
  induction a as [|x a IH]; [done|].
  rewrite string_app_cons. simpl. by rewrite IH.
Qed.

Lemma string_app_empty (a : string) : a +:+ "" = a.
Proof.
  induction a as [|x a IH]; [done|].
  rewrite string_app_cons. by rewrite IH.
Qed.

Lemma after_last_absent (c : Ascii.ascii) (s : string) :
  occurs c s = false -> after_last c s = None.
Proof.
  induction s as [|a s IH]; simpl; [done|].
  intros [Ha Hs]%orb_false_iff. by rewrite IH, Ha.
Qed.

Lemma after_last_app (c : Ascii.ascii) (s t : string) :
  occurs c t = false -> after_last c (s +:+ String c t) = Some t.
Proof.
  intros Ht. induction s as [|a s IH].
  - change ("" +:+ String c t) with (String c t). simpl.
    by rewrite after_last_absent, Ascii.eqb_refl.
  - rewrite string_app_cons. simpl. by rewrite IH.
Qed.

Lemma cut_at_first_app (c : Ascii.ascii) (s t : string) :
  occurs c s = false -> cut_at_first c (s +:+ String c t) = s.
Proof.
  induction s as [|a s IH].
  - intros _. change ("" +:+ String c t) with (String c t). simpl.
    by rewrite Ascii.eqb_refl.
  - rewrite string_app_cons. simpl.
    intros [Ha Hs]%orb_false_iff. by rewrite Ha, IH.
Qed.

Lemma occurs_app (c : Ascii.ascii) (s t : string) :
  occurs c (s +:+ t) = occurs c s || occurs c t.
Proof.
  induction s as [|a s IH]; [done|].
  rewrite string_app_cons. simpl. by rewrite IH, orb_assoc.
Qed.

(** A base name with no slash and no underscore is recovered from a name
    of the form [directory/base_suffix]. *)
Lemma extract_base_name_plain (directory base suffix : string) :
  occurs "/" base = false -> occurs "_" base = false ->
  occurs "/" suffix = false ->
  extract_base_name (directory +:+ "/" +:+ base +:+ "_" +:+ suffix) = base.
Proof.
  intros Hslash Hunder Hsuffix. unfold extract_base_name.
  change ("/" +:+ base +:+ "_" +:+ suffix)
    with (String "/" (base +:+ String "_" suffix)).
  rewrite after_last_app.
  - by apply cut_at_first_app.
  - rewrite occurs_app. simpl. by rewrite Hslash, Hsuffix.
Qed.

Section LoggerFacts.
Context {D : Type} `{DoubleOps D}.
Variable host : host_t D.

Lemma csv_line_not_empty (data : sensor_data_t D) :
  (0 < Z.of_nat (String.length (csv_line host data)))%Z.
Proof.
  unfold csv_line. rewrite string_app_length. simpl. lia.
Qed.

(** The flush loop appends the records to the file, in order, and counts
    their bytes. *)
Lemma flush_loop (f : string) (entries : list (sensor_data_t D)) (size : Z)
    (w : world) :
  h_fprintf_ok host f = true ->
  exists w',
    fold_left (flush_step host f) entries (size, w)
    = ((size + Z.of_nat (String.length (records_text host entries)))%Z, w')
    /\ w_open w' = w_open w
    /\ w_clock w' = w_clock w
    /\ default "" (w_files w' !! f)
       = default "" (w_files w !! f) +:+ records_text host entries
    /\ (forall g, g <> f -> w_files w' !! g = w_files w !! g).
Proof.
  intros Hok. revert size w.
  induction entries as [|data entries IH]; intros size w.
  - exists w. cbn [fold_left records_text foldr String.length].
    repeat split; [f_equal; lia|].
    by rewrite string_app_empty.
  - cbn [fold_left]. unfold flush_step at 2, fprintf. rewrite Hok.
    pose proof (csv_line_not_empty data) as Hpos.
    destruct (Z.ltb_spec 0 (Z.of_nat (String.length (csv_line host data))))
      as [_|Hle]; [|lia].
    destruct (IH (size + Z.of_nat (String.length (csv_line host data)))%Z
                {| w_files :=
                     <[f := default "" (w_files w !! f) +:+ csv_line host data]>
                       (w_files w);
                   w_open := w_open w;
                   w_clock := w_clock w |})
      as (w' & Hfold & Hopen & Hclock & Hfile & Hother).
    cbn [w_files w_open w_clock] in * .
    exists w'. rewrite Hfold. cbn [records_text foldr].
    fold (records_text host entries).
    split; [f_equal; rewrite string_app_length; lia|].
    split; [exact Hopen|]. split; [exact Hclock|]. split.
    + rewrite Hfile, lookup_insert_eq. cbn [default from_option Datatypes.id].
      apply string_app_assoc.
    + intros g Hg. rewrite Hother by done. by rewrite lookup_insert_ne.
Qed.

(** [rotate_log_file] when the new file can be created and written. *)
Lemma rotate_opens_fresh_file (logger : data_logger_t D) (w : world)
    (f : string) :
  let new_name :=
    log_file_name (lc_directory (lg_config logger))
      (extract_base_name (lg_current_filename logger))
      (h_localtime host (pt_timestamp (w_clock w))) in
  lg_file logger = Some f ->
  h_fopen_ok host new_name = true ->
  h_fprintf_ok host new_name = true ->
  rotate_log_file host logger w
  = (0%Z,
     {| lg_file := Some new_name;
        lg_config := lg_config logger;
        lg_current_filename := new_name;
        lg_current_file_size := 45;
        lg_sample_count := lg_sample_count logger;
        lg_buffer := lg_buffer logger;
        lg_buffer_index := lg_buffer_index logger;
        lg_last_flush := lg_last_flush logger |},
     {| w_files := <[new_name := csv_header]> (<[new_name := ""]> (w_files w));
        w_open := w_open w ∖ {[f]} ∪ {[new_name]};
        w_clock := w_clock w |}).
Proof.
  intros new_name Hfile Hopen Hwrite.
  unfold rotate_log_file. rewrite Hfile.
  cbn [fclose w_clock w_files w_open].
  fold new_name. unfold fopen_w. rewrite Hopen.
  unfold write_csv_header. cbn [lg_file w_files w_open w_clock].
  unfold fprintf. rewrite Hwrite.
  cbn [w_files w_open w_clock]. rewrite lookup_insert_eq.
  reflexivity.
Qed.

End LoggerFacts.

Section RotationFacts.
Context {D : Type} `{DoubleOps D}.
Variable host : host_t D.


End RotationFacts.



(** The base name the program uses by default does not survive a rotation:
    [strchr] cuts it at its own underscore. *)
Example rotation_cuts_default_base_name :
  lg_current_filename (loaded_logger "bridge_vibration")
  = "data/bridge_vibration_20231114_221320.csv"
  /\ lg_current_filename
       (snd (fst (flush_logger_buffer utc_host
                    (loaded_logger "bridge_vibration")
                    (loaded_world "bridge_vibration"))))
     = "data/bridge_20231114_221500.csv".
Proof. vm_compute. repeat split. Qed.

(** A rotation in the second the file was opened in gives the new file the
    name of the old one, and [fopen] empties it: the record just flushed is
    gone. *)
Example rotation_in_the_same_second :
  w_files
    (snd (flush_logger_buffer utc_host (loaded_logger "sensors")
            (mk_world (w_files (loaded_world "sensors"))
               (w_open (loaded_world "sensors")) (mk_time 1700000000 900))))
  !! "data/sensors_20231114_221320.csv" = Some csv_header.
Proof. vm_compute. reflexivity. Qed.

(** *** Two ways a rotation goes wrong *)

(** The base name is cut at its first underscore: a base name [head_tail]
    comes back as [head]. *)
Theorem rotation_cuts_base_name (directory head tail suffix : string) :
  occurs "/" head = false -> occurs "_" head = false ->
  occurs "/" tail = false -> occurs "/" suffix = false ->
  extract_base_name
    (directory +:+ "/" +:+ (head +:+ "_" +:+ tail) +:+ "_" +:+ suffix)
  = head.
Proof.
  intros Hslash Hunder Htail Hsuffix.
  rewrite (string_app_assoc head).
  change (("_" +:+ tail) +:+ "_" +:+ suffix)
    with ("_" +:+ tail +:+ "_" +:+ suffix).
  apply extract_base_name_plain; try done.
  rewrite occurs_app.
  change (occurs "/" ("_" +:+ suffix)) with (occurs "/" suffix).
  by rewrite Htail, Hsuffix.
Qed.

Lemma rotation_cuts_base_name_witness :
  extract_base_name
    ("data" +:+ "/" +:+ ("bridge" +:+ "_" +:+ "vibration") +:+ "_"
     +:+ "20231114_221320.csv")
  = "bridge".
Proof.
  apply (rotation_cuts_base_name "data" "bridge" "vibration"
           "20231114_221320.csv"); reflexivity.
Defined.

Section SameSecond.
Context {D : Type} `{DoubleOps D}.
Variable host : host_t D.

(** When the name made at the rotation is the name of the file being
    rotated (same base name, same second), [fopen(..., "w")] empties that
    file: after the flush it holds the header alone, and the records just
    written to it are gone. *)
Theorem rotation_same_name_truncates (logger : data_logger_t D) (w : world)
    (f : string) :
  let entries :=
    take (Z.to_nat (lg_buffer_index logger)) (lg_buffer logger) in
  let new_name :=
    log_file_name (lc_directory (lg_config logger))
      (extract_base_name (lg_current_filename logger))
      (h_localtime host (pt_timestamp (w_clock w))) in
  lg_file logger = Some f ->
  lg_buffer_index logger <> 0%Z ->
  lc_auto_rotate (lg_config logger) <> 0%Z ->
  h_fprintf_ok host f = true ->
  h_fopen_ok host f = true ->
  new_name = f ->
  (int_wrap (lc_max_file_size_mb (lg_config logger) * 1024 * 1024)
   < lg_current_file_size logger
     + Z.of_nat (String.length (records_text host entries)))%Z ->
  exists logger' w',
    flush_logger_buffer host logger w = (0%Z, logger', w')
    /\ lg_buffer_index logger' = 0%Z
    /\ lg_file logger' = Some f
    /\ w_files w' !! f = Some csv_header.
Proof.
  intros entries new_name Hfile Hbuffered Hauto Hwrite Hopen Hsame Hsize.
  unfold flush_logger_buffer. rewrite Hfile.
  destruct (Z.eqb_spec (lg_buffer_index logger) 0) as [E|_]; [done|].
  destruct (flush_loop host f entries (lg_current_file_size logger) w Hwrite)
    as (w1 & Hloop & Hopen1 & Hclock1 & Hold & Hother).
  fold entries. rewrite Hloop.
  destruct (Z.eqb_spec (lc_auto_rotate (lg_config logger)) 0) as [E|_];
    [done|].
  destruct (Z.ltb_spec
              (int_wrap (lc_max_file_size_mb (lg_config logger) * 1024 * 1024))
              (lg_current_file_size logger
               + Z.of_nat (String.length (records_text host entries))))
    as [_|Hle]; [|lia].
  cbn [negb andb].
  rewrite (rotate_opens_fresh_file host _ w1 f);
    cbn [lg_file lg_config lg_current_filename get_current_time];
    rewrite ?Hclock1; fold new_name; rewrite ?Hsame; try done.
  eexists _, _. split; [reflexivity|].
  cbn [w_files lg_buffer_index lg_file].
  split; [reflexivity|]. split; [reflexivity|].
  by rewrite lookup_insert_eq.
Qed.

End SameSecond.

Lemma rotation_same_name_truncates_witness :
  exists logger' w',
    flush_logger_buffer utc_host (loaded_logger "sensors")
      (mk_world (w_files (loaded_world "sensors"))
         (w_open (loaded_world "sensors")) (mk_time 1700000000 900))
    = (0%Z, logger', w')
    /\ lg_buffer_index logger' = 0%Z
    /\ lg_file logger' = Some "data/sensors_20231114_221320.csv"
    /\ w_files w' !! "data/sensors_20231114_221320.csv" = Some csv_header.
Proof.
  apply (rotation_same_name_truncates utc_host (loaded_logger "sensors")
           (mk_world (w_files (loaded_world "sensors"))
              (w_open (loaded_world "sensors")) (mk_time 1700000000 900))
           "data/sensors_20231114_221320.csv").
  - vm_compute. reflexivity.
  - vm_compute. discriminate.
  - vm_compute. discriminate.
  - reflexivity.
  - reflexivity.
  - vm_compute. reflexivity.
  - vm_compute. reflexivity.
Defined.

(** * The logger over a session *)

Section FlushFacts.
Context {D : Type} `{DoubleOps D}.
Variable host : host_t D.

Lemma records_text_app (l k : list (sensor_data_t D)) :
  records_text host (l ++ k) = records_text host l +:+ records_text host k.
Proof.
  induction l as [|d l IH]; [done|].
  cbn [app records_text foldr]. fold (records_text host (l ++ k)).
  fold (records_text host l). by rewrite IH, string_app_assoc.
Qed.

Lemma records_text_one (d : sensor_data_t D) :
  records_text host [d] = csv_line host d.
Proof. apply string_app_empty. Qed.

(** What a flush does to an open file with a buffer that is not empty, up
    to the decision to rotate. *)
Lemma flush_unfold (logger : data_logger_t D) (w : world) (f : string) :
  lg_file logger = Some f ->
  lg_buffer_index logger <> 0%Z ->
  h_fprintf_ok host f = true ->
  exists w1,
    w_open w1 = w_open w
    /\ w_clock w1 = w_clock w
    /\ default "" (w_files w1 !! f)
       = default "" (w_files w !! f)
         +:+ records_text host
               (take (Z.to_nat (lg_buffer_index logger)) (lg_buffer logger))
    /\ (forall g, g <> f -> w_files w1 !! g = w_files w !! g)
    /\ flush_logger_buffer host logger w
       = let size :=
           (lg_current_file_size logger
            + Z.of_nat
                (String.length
                   (records_text host
                      (take (Z.to_nat (lg_buffer_index logger))
                         (lg_buffer logger)))))%Z in
         if negb (lc_auto_rotate (lg_config logger) =? 0)%Z
            && (rotation_threshold (lg_config logger) <? size)%Z
         then rotate_log_file host (flushed_logger logger size (w_clock w)) w1
         else (0%Z, flushed_logger logger size (w_clock w), w1).
Proof.
  intros Hfile Hbuffered Hwrite.
  destruct (flush_loop host f
              (take (Z.to_nat (lg_buffer_index logger)) (lg_buffer logger))
              (lg_current_file_size logger) w Hwrite)
    as (w1 & Hloop & Hopen1 & Hclock1 & Hold & Hother).
  exists w1. repeat (split; [assumption|]).
  unfold flush_logger_buffer. rewrite Hfile.
  destruct (Z.eqb_spec (lg_buffer_index logger) 0) as [E|_]; [done|].
  rewrite Hloop. unfold get_current_time, flushed_logger, rotation_threshold.
  rewrite Hclock1, ?Hfile. reflexivity.
Qed.

(** The threshold is [max_file_size_mb] MiB as long as the product fits an
    [int]. *)
Lemma rotation_threshold_mib (config : logger_config_t) :
  (0 <= lc_max_file_size_mb config <= 2047)%Z ->
  rotation_threshold config = (lc_max_file_size_mb config * 1048576)%Z.
Proof.
  intros Hmb. unfold rotation_threshold.
  rewrite int_wrap_small; unfold INT_MAX; lia.
Qed.

(** Flush without rotation.  On an open file with buffered readings and
    writes that succeed, when rotation is off, or the size after the flush
    does not exceed the threshold the code computes
    ([max_file_size_mb * 1024 * 1024] as an [int]), or [max_file_size_mb]
    is between 0 and 2047 and the size after the flush does not exceed
    that many MiB, [flush_logger_buffer] returns 0, appends the record of
    every buffered reading to the file, in order, adds their bytes to the
    size counter and empties the buffer; the file stays open under its
    name and no other file is touched. *)
Theorem flush_keeps_file (logger : data_logger_t D) (w : world) (f : string) :
  let text :=
    records_text host
      (take (Z.to_nat (lg_buffer_index logger)) (lg_buffer logger)) in
  lg_file logger = Some f ->
  lg_buffer_index logger <> 0%Z ->
  h_fprintf_ok host f = true ->
  lc_auto_rotate (lg_config logger) = 0%Z
  \/ (lg_current_file_size logger + Z.of_nat (String.length text)
      <= rotation_threshold (lg_config logger))%Z
  \/ ((0 <= lc_max_file_size_mb (lg_config logger) <= 2047)%Z
      /\ (lg_current_file_size logger + Z.of_nat (String.length text)
          <= lc_max_file_size_mb (lg_config logger) * 1048576)%Z) ->
  exists logger' w',
    flush_logger_buffer host logger w = (0%Z, logger', w')
    /\ default "" (w_files w' !! f) = default "" (w_files w !! f) +:+ text
    /\ (forall g, g <> f -> w_files w' !! g = w_files w !! g)
    /\ w_open w' = w_open w
    /\ lg_buffer_index logger' = 0%Z
    /\ lg_current_file_size logger'
       = (lg_current_file_size logger + Z.of_nat (String.length text))%Z
    /\ lg_file logger' = Some f
    /\ lg_current_filename logger' = lg_current_filename logger
    /\ lg_sample_count logger' = lg_sample_count logger
    /\ lg_buffer logger' = lg_buffer logger
    /\ lg_config logger' = lg_config logger.
Proof.
  intros text Hfile Hbuffered Hwrite Hkeep.
  destruct (flush_unfold logger w f Hfile Hbuffered Hwrite)
    as (w1 & Hopen1 & Hclock1 & Hold & Hother & Hflush).
  rewrite Hflush. cbv zeta. fold text.
  assert (Hcond :
    negb (lc_auto_rotate (lg_config logger) =? 0)%Z
    && (rotation_threshold (lg_config logger)
        <? lg_current_file_size logger + Z.of_nat (String.length text))%Z
    = false).
  { destruct Hkeep as [Hoff|[Hsmall|[Hmb Hsmall]]].
    - by rewrite Hoff.
    - apply andb_false_iff. right. apply Z.ltb_ge. exact Hsmall.
    - apply andb_false_iff. right. apply Z.ltb_ge.
      by rewrite rotation_threshold_mib. }
  rewrite Hcond. eexists _, _. split; [reflexivity|].
  cbn [flushed_logger lg_buffer_index lg_current_file_size lg_file
       lg_current_filename lg_sample_count lg_buffer lg_config].
  repeat (split; [done|]). done.
Qed.

(** Rotation that cannot open the new file.  When the flush calls for a
    rotation and [fopen] of the new name fails, [flush_logger_buffer]
    returns -1 with no file open any more; the records just flushed are in
    the old file, which is closed, and the buffer is empty. *)
Theorem flush_rotation_failure (logger : data_logger_t D) (w : world)
    (f : string) :
  let text :=
    records_text host
      (take (Z.to_nat (lg_buffer_index logger)) (lg_buffer logger)) in
  let new_name :=
    log_file_name (lc_directory (lg_config logger))
      (extract_base_name (lg_current_filename logger))
      (h_localtime host (pt_timestamp (w_clock w))) in
  lg_file logger = Some f ->
  lg_buffer_index logger <> 0%Z ->
  h_fprintf_ok host f = true ->
  lc_auto_rotate (lg_config logger) <> 0%Z ->
  (rotation_threshold (lg_config logger)
   < lg_current_file_size logger + Z.of_nat (String.length text))%Z ->
  h_fopen_ok host new_name = false ->
  exists logger' w',
    flush_logger_buffer host logger w = ((-1)%Z, logger', w')
    /\ lg_file logger' = None
    /\ lg_current_filename logger' = new_name
    /\ lg_buffer_index logger' = 0%Z
    /\ default "" (w_files w' !! f) = default "" (w_files w !! f) +:+ text
    /\ (forall g, g <> f -> w_files w' !! g = w_files w !! g)
    /\ w_open w' = w_open w ∖ {[f]}.
Proof.
  intros text new_name Hfile Hbuffered Hwrite Hauto Hbig Hfail.
  destruct (flush_unfold logger w f Hfile Hbuffered Hwrite)
    as (w1 & Hopen1 & Hclock1 & Hold & Hother & Hflush).
  rewrite Hflush. cbv zeta. fold text.
  destruct (Z.eqb_spec (lc_auto_rotate (lg_config logger)) 0) as [E|_];
    [done|].
  destruct (Z.ltb_spec (rotation_threshold (lg_config logger))
              (lg_current_file_size logger + Z.of_nat (String.length text)))
    as [_|Hle]; [|lia].
  cbn [negb andb]. unfold rotate_log_file.
  cbn [flushed_logger lg_file lg_config lg_current_filename].
  rewrite Hfile. cbn [fclose w_clock]. rewrite Hclock1. fold new_name.
  unfold fopen_w. rewrite Hfail.
  eexists _, _. split; [reflexivity|].
  unfold fclose.
  cbn [lg_file lg_current_filename lg_buffer_index w_files w_open].
  split; [reflexivity|]. split; [reflexivity|]. split; [reflexivity|].
  split; [exact Hold|]. split; [exact Hother|]. by rewrite Hopen1.
Qed.

End FlushFacts.

Lemma flush_keeps_file_witness :
  exists logger' w',
    flush_logger_buffer utc_host one_buffered started_world
    = (0%Z, logger', w')
    /\ default "" (w_files w' !! "data/sensors_20231114_221320.csv")
       = default "" (w_files started_world
                       !! "data/sensors_20231114_221320.csv")
         +:+ records_text utc_host
               (take (Z.to_nat (lg_buffer_index one_buffered))
                  (lg_buffer one_buffered))
    /\ lg_buffer_index logger' = 0%Z
    /\ lg_file logger' = Some "data/sensors_20231114_221320.csv".
Proof.
  destruct (flush_keeps_file utc_host one_buffered started_world
              "data/sensors_20231114_221320.csv")
    as (logger' & w' & Hrun & Hfile & _ & _ & Hindex & _ & Hopen & _).
  - vm_compute. reflexivity.
  - vm_compute. discriminate.
  - reflexivity.
  - right. right.
    split; [split; vm_compute; discriminate|vm_compute; discriminate].
  - exists logger', w'. repeat (split; [assumption|]). assumption.
Defined.

Lemma flush_rotation_failure_witness :
  exists logger' w',
    flush_logger_buffer full_disk_host (loaded_logger "sensors")
      (loaded_world "sensors") = ((-1)%Z, logger', w')
    /\ lg_file logger' = None
    /\ lg_current_filename logger' = "data/sensors_20231114_221500.csv"
    /\ lg_buffer_index logger' = 0%Z.
Proof.
  destruct (flush_rotation_failure full_disk_host (loaded_logger "sensors")
              (loaded_world "sensors") "data/sensors_20231114_221320.csv")
    as (logger' & w' & Hrun & Hfile & Hname & Hindex & _).
  - vm_compute. reflexivity.
  - vm_compute. discriminate.
  - reflexivity.
  - vm_compute. discriminate.
  - vm_compute. reflexivity.
  - vm_compute. reflexivity.
  - exists logger', w'. repeat (split; [assumption|]). assumption.
Defined.

Section ClosedLogger.
Context {D : Type} `{DoubleOps D}.
Variable host : host_t D.

Lemma log_sensor_data_closed (logger : data_logger_t D)
    (data : sensor_data_t D) (w : world) :
  lg_file logger = None ->
  log_sensor_data host logger data w
  = (0%Z,
     {| lg_file := None;
        lg_config := lg_config logger;
        lg_current_filename := lg_current_filename logger;
        lg_current_file_size := lg_current_file_size logger;
        lg_sample_count := int_wrap (lg_sample_count logger + 1);
        lg_buffer :=
          array_store (lg_buffer logger) (lg_buffer_index logger) data;
        lg_buffer_index := int_wrap (lg_buffer_index logger + 1);
        lg_last_flush := lg_last_flush logger |},
     w).
Proof.
  intros Hfile. unfold log_sensor_data, flush_logger_buffer.
  cbn [lg_file lg_config lg_buffer_index lg_last_flush]. rewrite Hfile.
  by destruct (_ || _).
Qed.

Lemma cleanup_closed (logger : data_logger_t D) (w : world) :
  lg_file logger = None ->
  snd (cleanup_data_logger host logger w) = w.
Proof.
  intros Hfile. unfold cleanup_data_logger, flush_logger_buffer.
  rewrite Hfile. cbv beta iota zeta. cbn [snd]. by rewrite Hfile.
Qed.

(** The stream on a logger with no file, while the buffer has room. *)
Lemma log_stream_closed (items : list (precise_time_t * sensor_data_t D))
    (logger : data_logger_t D) (w : world) (index : nat) :
  lg_file logger = None ->
  lg_buffer_index logger = Z.of_nat index ->
  (index + length items <= length (lg_buffer logger))%nat ->
  (Z.of_nat (length (lg_buffer logger)) <= INT_MAX)%Z ->
  w_files (snd (log_stream host logger items w)) = w_files w
  /\ lg_file (fst (log_stream host logger items w)) = None
  /\ lg_buffer_index (fst (log_stream host logger items w))
     = Z.of_nat (index + length items)
  /\ lg_buffer (fst (log_stream host logger items w))
     = take index (lg_buffer logger) ++ map snd items
       ++ drop (index + length items) (lg_buffer logger).
Proof.
  revert logger w index.
  induction items as [|[t data] items IH];
    intros logger w index Hfile Hindex Hroom Hmax.
  { cbn [log_stream fst snd length map app]. rewrite Nat.add_0_r.
    split; [done|]. split; [done|]. split; [done|].
    by rewrite take_drop. }
  cbn [log_stream length] in * . rewrite log_sensor_data_closed by done.
  rewrite Hindex.
  assert (Hstore :
    array_store (lg_buffer logger) (Z.of_nat index) data
    = <[index := data]> (lg_buffer logger)).
  { unfold array_store.
    destruct (Z.ltb_spec (Z.of_nat index) 0); [lia|]. by rewrite Nat2Z.id. }
  rewrite Hstore.
  rewrite (int_wrap_small (Z.of_nat index + 1))
    by (unfold INT_MAX in * ; lia).
  match goal with |- context [log_stream host ?l items ?w1] =>
    destruct (IH l w1 (S index)) as (Hworld & Hnone & Hnext & Hbuffer)
  end.
  - reflexivity.
  - cbn [lg_buffer_index]. lia.
  - cbn [lg_buffer]. rewrite length_insert. lia.
  - cbn [lg_buffer]. by rewrite length_insert.
  - rewrite Hworld, Hnone, Hnext, Hbuffer. cbn [lg_buffer map].
    split; [done|]. split; [done|].
    split; [f_equal; lia|].
    rewrite (take_S_r _ index data)
      by (apply list_lookup_insert_eq; lia).
    rewrite take_insert_ge by lia.
    rewrite drop_insert_lt by lia.
    replace (S index + length items)%nat
      with (index + S (length items))%nat by lia.
    by rewrite <- app_assoc.
Qed.

(** Readings taken and lost.  A logger with no file open and room in its
    buffer (as a rotation whose [fopen] failed leaves it) still takes
    readings: while the buffer has room [log_sensor_data] returns 0, the
    status of success, and stores the reading in the buffer, but
    [flush_logger_buffer] returns at once, so nothing is written; and
    [cleanup_data_logger] then frees the buffer without writing them.
    (Beyond the end of the buffer the store is undefined, and nothing is
    stated.) *)
Theorem closed_logger_drops_readings (logger : data_logger_t D)
    (items : list (precise_time_t * sensor_data_t D)) (w : world)
    (index : nat) :
  lg_file logger = None ->
  lg_buffer_index logger = Z.of_nat index ->
  (index + length items <= length (lg_buffer logger))%nat ->
  (Z.of_nat (length (lg_buffer logger)) <= INT_MAX)%Z ->
  let logger' := fst (log_stream host logger items w) in
  let w' := snd (log_stream host logger items w) in
  (forall t data,
     (index < length (lg_buffer logger))%nat ->
     fst (fst (log_sensor_data host logger data (at_time t w))) = 0%Z)
  /\ w_files w' = w_files w
  /\ lg_file logger' = None
  /\ lg_buffer_index logger' = Z.of_nat (index + length items)
  /\ lg_buffer logger'
     = take index (lg_buffer logger) ++ map snd items
       ++ drop (index + length items) (lg_buffer logger)
  /\ w_files (snd (cleanup_data_logger host logger' w')) = w_files w.
Proof.
  intros Hfile Hindex Hroom Hmax logger' w'. subst logger' w'.
  destruct (log_stream_closed items logger w index Hfile Hindex Hroom Hmax)
    as (Hworld & Hnone & Hnext & Hbuffer).
  split; [intros t data _; by rewrite log_sensor_data_closed|].
  split; [done|]. split; [done|]. split; [done|]. split; [done|].
  by rewrite cleanup_closed.
Qed.

End ClosedLogger.

Section ConsistencyFacts.
Context {D : Type} `{DoubleOps D}.
Variable host : host_t D.

Lemma buffered_entries (buffer : list (sensor_data_t D)) (index : Z)
    (data : sensor_data_t D) :
  (0 <= index < Z.of_nat (length buffer))%Z ->
  take (Z.to_nat (index + 1)) (array_store buffer index data)
  = take (Z.to_nat index) buffer ++ [data].
Proof.
  intros Hindex. unfold array_store.
  destruct (Z.ltb_spec index 0) as [Hneg|_]; [lia|].
  replace (Z.to_nat (index + 1)) with (S (Z.to_nat index)) by lia.
  rewrite (take_S_r _ _ data) by (apply list_lookup_insert_eq; lia).
  by rewrite take_insert_ge.
Qed.

Lemma array_store_length (buffer : list (sensor_data_t D)) (index : Z)
    (data : sensor_data_t D) :
  length (array_store buffer index data) = length buffer.
Proof.
  unfold array_store. destruct (index <? 0)%Z; [done|apply length_insert].
Qed.

(** One call of [log_sensor_data] on a consistent logger, every [fopen]
    and every write succeeding. *)
Lemma log_sensor_data_consistent (logger : data_logger_t D)
    (data : sensor_data_t D) (w : world) :
  (forall path, h_fprintf_ok host path = true) ->
  (forall path, h_fopen_ok host path = true) ->
  logger_consistent logger w ->
  exists logger' w',
    log_sensor_data host logger data w = (0%Z, logger', w')
    /\ logger_consistent logger' w'
    /\ lg_config logger' = lg_config logger
    /\ lg_sample_count logger' = int_wrap (lg_sample_count logger + 1).
Proof.
  intros Hwrite Hopen (f & Hfile & [Hlo Hhi] & Hsize & Hmax & Hcount).
  assert (Hwrap : int_wrap (lg_buffer_index logger + 1)
                  = (lg_buffer_index logger + 1)%Z)
    by (apply int_wrap_small; unfold INT_MAX in * ; lia).
  unfold log_sensor_data.
  cbn [lg_file lg_config lg_buffer_index lg_last_flush].
  rewrite Hwrap.
  match goal with |- context [flush_logger_buffer host ?l _] =>
    set (logger1 := l)
  end.
  destruct (_ || _) eqn:Hcond.
  - destruct (flush_unfold host logger1 w f) as
      (w1 & Hopen1 & Hclock1 & Hold & Hother & Hflush);
      [exact Hfile|cbn; lia|apply Hwrite|].
    rewrite Hflush. cbv zeta.
    cbn [logger1 lg_config lg_current_file_size lg_buffer_index lg_buffer].
    destruct (negb _ && _).
    + rewrite (rotate_opens_fresh_file host _ w1 f);
        [|exact Hfile|apply Hopen|apply Hwrite].
      eexists _, _. split; [reflexivity|].
      split; [|split; reflexivity].
      eexists. split; [reflexivity|]. subst logger1.
      cbn [flushed_logger lg_buffer_index lg_config lg_buffer
           lg_current_file_size w_files].
      rewrite array_store_length, lookup_insert_eq.
      repeat split; try done; lia.
    + eexists _, _. split; [reflexivity|].
      split; [|split; reflexivity].
      exists f. split; [exact Hfile|]. subst logger1.
      cbn [flushed_logger lg_buffer_index lg_config lg_buffer
           lg_current_file_size] in * .
      rewrite array_store_length, Hold, string_app_length, Hcount.
      repeat split; try done; lia.
  - apply orb_false_iff in Hcond as [Hroom _].
    cbn [logger1 lg_config lg_buffer_index] in Hroom.
    apply Z.leb_gt in Hroom.
    eexists _, _. split; [reflexivity|].
    split; [|split; reflexivity].
    exists f. split; [exact Hfile|].
    cbn [logger1 lg_buffer_index lg_config lg_buffer lg_current_file_size].
    rewrite array_store_length. repeat split; try done; lia.
Qed.

(** The logger stays consistent.  From a logger with a file open, its
    buffer index within the buffer and its size counter equal to the bytes
    in the file, and on a host where every [fopen] and every write
    succeeds, each [log_sensor_data] returns 0, and after any stream of
    readings, flushes and rotations included, the logger again has a file
    open, its buffer index within the buffer (no reading is stored outside
    it) and its size counter equal to the number of bytes in the current
    file. *)
Theorem log_stream_consistent (logger : data_logger_t D)
    (items : list (precise_time_t * sensor_data_t D)) (w : world) :
  (forall path, h_fprintf_ok host path = true) ->
  (forall path, h_fopen_ok host path = true) ->
  logger_consistent logger w ->
  logger_consistent (fst (log_stream host logger items w))
    (snd (log_stream host logger items w))
  /\ lg_config (fst (log_stream host logger items w)) = lg_config logger.
Proof.
  intros Hwrite Hopen. revert logger w.
  induction items as [|[t data] items IH]; intros logger w Hcons; [done|].
  cbn [log_stream].
  destruct (log_sensor_data_consistent logger data (at_time t w) Hwrite Hopen)
    as (logger1 & w1 & Hrun & Hcons1 & Hconfig & _).
  { destruct Hcons as (f & Hcons). exists f. exact Hcons. }
  rewrite Hrun. destruct (IH logger1 w1 Hcons1) as [Hfinal Hconfig'].
  split; [exact Hfinal|]. by rewrite Hconfig'.
Qed.

End ConsistencyFacts.

Section RoundTripFacts.
Context {D : Type} `{DoubleOps D}.
Variable host : host_t D.

Lemma records_text_length_app (l k : list (sensor_data_t D)) :
  (Z.of_nat (String.length (csv_header +:+ records_text host l))
   <= Z.of_nat (String.length (csv_header +:+ records_text host (l ++ k))))%Z.
Proof. rewrite records_text_app, !string_app_length. lia. Qed.

(** One call of [log_sensor_data] that does not rotate. *)
Lemma log_sensor_data_holds (logger : data_logger_t D)
    (data : sensor_data_t D) (w : world) (f : string)
    (logged : list (sensor_data_t D)) :
  h_fprintf_ok host f = true ->
  logger_holds host f logged logger w ->
  lc_auto_rotate (lg_config logger) = 0%Z
  \/ (Z.of_nat (String.length
                  (csv_header +:+ records_text host (logged ++ [data])))
      <= rotation_threshold (lg_config logger))%Z ->
  exists logger' w',
    log_sensor_data host logger data w = (0%Z, logger', w')
    /\ logger_holds host f (logged ++ [data]) logger' w'
    /\ lg_config logger' = lg_config logger
    /\ w_open w' = w_open w
    /\ (forall g, g <> f -> w_files w' !! g = w_files w !! g).
Proof.
  intros Hwrite (Hfile & [Hlo Hhi] & Hsize & Hmax & Hcount & Htext) Hkeep.
  assert (Hwrap : int_wrap (lg_buffer_index logger + 1)
                  = (lg_buffer_index logger + 1)%Z)
    by (apply int_wrap_small; unfold INT_MAX in * ; lia).
  assert (Hentries :
    take (Z.to_nat (lg_buffer_index logger + 1))
      (array_store (lg_buffer logger) (lg_buffer_index logger) data)
    = take (Z.to_nat (lg_buffer_index logger)) (lg_buffer logger) ++ [data])
    by (apply buffered_entries; lia).
  assert (Hall :
    default "" (w_files w !! f)
    +:+ records_text host
          (take (Z.to_nat (lg_buffer_index logger)) (lg_buffer logger)
           ++ [data])
    = csv_header +:+ records_text host (logged ++ [data])).
  { rewrite !records_text_app, <- !string_app_assoc. by rewrite Htext. }
  unfold log_sensor_data.
  cbn [lg_file lg_config lg_buffer_index lg_last_flush].
  rewrite Hwrap.
  match goal with |- context [flush_logger_buffer host ?l _] =>
    set (logger1 := l)
  end.
  destruct (_ || _) eqn:Hcond.
  - destruct (flush_unfold host logger1 w f) as
      (w1 & Hopen1 & Hclock1 & Hold & Hother & Hflush);
      [exact Hfile|cbn; lia|exact Hwrite|].
    rewrite Hflush. cbv zeta. subst logger1.
    cbn [lg_config lg_current_file_size lg_buffer_index lg_buffer] in * .
    rewrite Hentries in * .
    assert (Hnow :
      (lg_current_file_size logger
       + Z.of_nat
           (String.length
              (records_text host
                 (take (Z.to_nat (lg_buffer_index logger)) (lg_buffer logger)
                  ++ [data]))))%Z
      = Z.of_nat
          (String.length
             (csv_header +:+ records_text host (logged ++ [data])))).
    { rewrite <- Hall, string_app_length, Hcount. lia. }
    rewrite Hnow.
    assert (Hno :
      negb (lc_auto_rotate (lg_config logger) =? 0)%Z
      && (rotation_threshold (lg_config logger)
          <? Z.of_nat
               (String.length
                  (csv_header +:+ records_text host (logged ++ [data]))))%Z
      = false).
    { destruct Hkeep as [Hoff|Hsmall]; [by rewrite Hoff|].
      apply andb_false_iff. right. by apply Z.ltb_ge. }
    rewrite Hno. eexists _, _. split; [reflexivity|].
    split; [|by repeat split].
    unfold logger_holds.
    cbn [flushed_logger lg_file lg_buffer_index lg_config lg_buffer
         lg_current_file_size].
    rewrite array_store_length, Hold, Hall.
    change (Z.to_nat 0) with 0%nat. rewrite take_0.
    cbn [records_text foldr]. rewrite string_app_empty.
    repeat split; try done; lia.
  - apply orb_false_iff in Hcond as [Hroom _].
    cbn [logger1 lg_config lg_buffer_index] in Hroom.
    apply Z.leb_gt in Hroom.
    eexists _, _. split; [reflexivity|].
    split; [|by repeat split].
    unfold logger_holds. subst logger1.
    cbn [lg_file lg_buffer_index lg_config lg_buffer lg_current_file_size].
    rewrite array_store_length, Hentries, Hall.
    repeat split; try done; lia.
Qed.

Lemma log_stream_holds (items : list (precise_time_t * sensor_data_t D))
    (logger : data_logger_t D) (w : world) (f : string)
    (logged : list (sensor_data_t D)) :
  h_fprintf_ok host f = true ->
  logger_holds host f logged logger w ->
  lc_auto_rotate (lg_config logger) = 0%Z
  \/ (Z.of_nat (String.length
                  (csv_header
                   +:+ records_text host (logged ++ map snd items)))
      <= rotation_threshold (lg_config logger))%Z ->
  logger_holds host f (logged ++ map snd items)
    (fst (log_stream host logger items w))
    (snd (log_stream host logger items w))
  /\ lg_config (fst (log_stream host logger items w)) = lg_config logger
  /\ w_open (snd (log_stream host logger items w)) = w_open w
  /\ (forall g, g <> f ->
        w_files (snd (log_stream host logger items w)) !! g
        = w_files w !! g).
Proof.
  intros Hwrite. revert logger w logged.
  induction items as [|[t data] items IH]; intros logger w logged Hholds Hkeep.
  { cbn [log_stream map fst snd]. rewrite app_nil_r.
    split; [exact Hholds|]. by repeat split. }
  cbn [log_stream map snd] in * .
  replace (logged ++ data :: map snd items)
    with ((logged ++ [data]) ++ map snd items) in *
    by (by rewrite <- app_assoc).
  destruct (log_sensor_data_holds logger data (at_time t w) f logged Hwrite)
    as (logger1 & w1 & Hrun & Hholds1 & Hconfig & Hopen & Hother).
  { exact Hholds. }
  { destruct Hkeep as [Hoff|Hsmall]; [by left|right].
    etrans; [apply (records_text_length_app _ (map snd items))|exact Hsmall]. }
  rewrite Hrun.
  destruct (IH logger1 w1 (logged ++ [data]) Hholds1) as
    (Hfinal & Hconfig' & Hopen' & Hother').
  { by rewrite Hconfig. }
  split; [exact Hfinal|]. split; [by rewrite Hconfig'|].
  split; [by rewrite Hopen'|].
  intros g Hg. rewrite Hother' by done. by apply Hother.
Qed.

Lemma content_is_some (o : option string) (s : string) :
  default "" o = csv_header +:+ s -> o = Some (csv_header +:+ s).
Proof.
  destruct o as [c|]; cbn [default from_option Datatypes.id]; [congruence|].
  intros E. apply (f_equal String.length) in E.
  rewrite string_app_length in E. simpl in E. lia.
Qed.

(** [init_data_logger] when the file can be created and written: the file
    holds the header, nothing is buffered. *)
Lemma init_holds_header (logger : data_logger_t D) (base : string)
    (w : world) :
  let name :=
    log_file_name "data" base (h_localtime host (pt_timestamp (w_clock w))) in
  h_fopen_ok host name = true ->
  h_fprintf_ok host name = true ->
  exists logger' w',
    init_data_logger host logger base w = (0%Z, logger', w')
    /\ logger_holds host name [] logger' w'
    /\ lc_auto_rotate (lg_config logger') = 1%Z
    /\ rotation_threshold (lg_config logger') = 10485760%Z
    /\ lc_buffer_size (lg_config logger') = 100%Z
    /\ lg_current_filename logger' = name
    /\ lg_sample_count logger' = 0%Z
    /\ w_open w' = w_open w ∪ {[name]}
    /\ (forall g, g <> name -> w_files w' !! g = w_files w !! g).
Proof.
  intros name Hopen Hwrite. unfold init_data_logger.
  cbn [lc_directory]. fold name. unfold fopen_w. rewrite Hopen.
  unfold write_csv_header. cbn [lg_file]. unfold fprintf. rewrite Hwrite.
  cbn [w_files w_open w_clock]. rewrite lookup_insert_eq.
  eexists _, _. split; [reflexivity|].
  unfold logger_holds.
  cbn [lg_file lg_buffer_index lg_config lg_buffer lg_current_file_size
       lc_buffer_size lc_auto_rotate lg_current_filename lg_sample_count
       w_files w_open].
  rewrite lookup_insert_eq, length_replicate.
  repeat split; try done.
  intros g Hg. by rewrite !lookup_insert_ne.
Qed.

(** [cleanup_data_logger] without rotation: what was buffered reaches the
    file, which is then closed. *)
Lemma cleanup_holds (logger : data_logger_t D) (w : world) (f : string)
    (logged : list (sensor_data_t D)) :
  h_fprintf_ok host f = true ->
  logger_holds host f logged logger w ->
  lc_auto_rotate (lg_config logger) = 0%Z
  \/ (Z.of_nat (String.length (csv_header +:+ records_text host logged))
      <= rotation_threshold (lg_config logger))%Z ->
  let result := cleanup_data_logger host logger w in
  default "" (w_files (snd result) !! f)
  = csv_header +:+ records_text host logged
  /\ lg_file (fst result) = None
  /\ lg_sample_count (fst result) = lg_sample_count logger
  /\ w_open (snd result) = w_open w ∖ {[f]}
  /\ (forall g, g <> f -> w_files (snd result) !! g = w_files w !! g).
Proof.
  intros Hwrite (Hfile & [Hlo Hhi] & Hsize & Hmax & Hcount & Htext) Hkeep.
  unfold cleanup_data_logger.
  destruct (Z.eq_dec (lg_buffer_index logger) 0%Z) as [Hzero|Hbuffered].
  - unfold flush_logger_buffer. rewrite Hfile, Hzero.
    cbn [Z.eqb lg_file]. rewrite Hfile. cbn [fst snd fclose w_files w_open].
    rewrite Hzero in Htext. change (Z.to_nat 0) with 0%nat in Htext.
    rewrite take_0 in Htext. cbn [records_text foldr] in Htext.
    rewrite string_app_empty in Htext. by repeat split.
  - destruct (flush_unfold host logger w f Hfile Hbuffered Hwrite)
      as (w1 & Hopen1 & Hclock1 & Hold & Hother & Hflush).
    rewrite Hflush. cbv zeta.
    assert (Hno :
      negb (lc_auto_rotate (lg_config logger) =? 0)%Z
      && (rotation_threshold (lg_config logger)
          <? lg_current_file_size logger
             + Z.of_nat
                 (String.length
                    (records_text host
                       (take (Z.to_nat (lg_buffer_index logger))
                          (lg_buffer logger)))))%Z
      = false).
    { destruct Hkeep as [Hoff|Hsmall]; [by rewrite Hoff|].
      apply andb_false_iff. right. apply Z.ltb_ge.
      rewrite <- Htext, string_app_length in Hsmall. lia. }
    rewrite Hno. cbn [flushed_logger lg_file]. rewrite Hfile.
    cbn [fst snd fclose w_files w_open lg_file lg_sample_count].
    rewrite Hold, Htext, Hopen1. by repeat split.
Qed.

(** A whole session loses nothing.  On a host where the log file can be
    created and written, with all the records together within the 10 MiB
    of the default configuration (so that no rotation takes place), a
    session of [init_data_logger], any stream of [log_sensor_data] calls
    at any times, and [cleanup_data_logger] leaves the file closed and
    holding the header followed by the record of every reading, once each,
    in the order they were logged; no other file is touched. *)
Theorem session_round_trip (logger : data_logger_t D) (base : string)
    (items : list (precise_time_t * sensor_data_t D)) (w : world) :
  let name :=
    log_file_name "data" base (h_localtime host (pt_timestamp (w_clock w))) in
  h_fopen_ok host name = true ->
  h_fprintf_ok host name = true ->
  (Z.of_nat (String.length
               (csv_header +:+ records_text host (map snd items)))
   <= 10485760)%Z ->
  exists logger' w',
    session host logger base items w = (0%Z, logger', w')
    /\ w_files w' !! name
       = Some (csv_header +:+ records_text host (map snd items))
    /\ lg_file logger' = None
    /\ w_open w' = (w_open w ∪ {[name]}) ∖ {[name]}
    /\ (forall g, g <> name -> w_files w' !! g = w_files w !! g).
Proof.
  intros name Hopen Hwrite Hsmall.
  destruct (init_holds_header logger base w Hopen Hwrite)
    as (logger1 & w1 & Hinit & Hholds1 & Hauto & Hthreshold & _ & _ & _
        & Hopen1 & Hother1).
  fold name in Hholds1, Hopen1, Hother1.
  unfold session. rewrite Hinit. cbn [Z.eqb].
  destruct (log_stream_holds items logger1 w1 name [] Hwrite Hholds1)
    as (Hholds2 & Hconfig2 & Hopen2 & Hother2).
  { right. rewrite Hthreshold. exact Hsmall. }
  cbn [app] in Hholds2.
  destruct (log_stream host logger1 items w1) as [logger2 w2].
  cbn [fst snd] in * .
  destruct (cleanup_holds logger2 w2 name (map snd items) Hwrite Hholds2)
    as (Hcontent & Hnone & _ & Hopen3 & Hother3).
  { right. rewrite Hconfig2, Hthreshold. exact Hsmall. }
  destruct (cleanup_data_logger host logger2 w2) as [logger3 w3].
  cbn [fst snd] in * .
  eexists _, _. split; [reflexivity|].
  split; [by apply content_is_some|]. split; [exact Hnone|].
  split; [by rewrite Hopen3, Hopen2, Hopen1|].
  intros g Hg. rewrite Hother3, Hother2, Hother1 by done. done.
Qed.

End RoundTripFacts.

Lemma closed_logger_drops_readings_witness :
  lg_file orphaned_logger = None
  /\ w_files (snd (log_stream full_disk_host orphaned_logger late_items
                     orphaned_world))
     = w_files orphaned_world
  /\ lg_buffer_index
       (fst (log_stream full_disk_host orphaned_logger late_items
               orphaned_world)) = 2%Z
  /\ w_files
       (snd (cleanup_data_logger full_disk_host
               (fst (log_stream full_disk_host orphaned_logger late_items
                       orphaned_world))
               (snd (log_stream full_disk_host orphaned_logger late_items
                       orphaned_world))))
     = w_files orphaned_world.
Proof.
  assert (Hfile : lg_file orphaned_logger = None) by (vm_compute; reflexivity).
  destruct (closed_logger_drops_readings full_disk_host orphaned_logger
              late_items orphaned_world 0)
    as (_ & Hfiles & _ & Hindex & _ & Hcleanup).
  - exact Hfile.
  - vm_compute. reflexivity.
  - vm_compute. lia.
  - vm_compute. discriminate.
  - split; [exact Hfile|]. split; [exact Hfiles|].
    split; [exact Hindex|exact Hcleanup].
Defined.

Lemma started_logger_consistent : logger_consistent started_logger started_world.
Proof.
  exists "data/sensors_20231114_221320.csv".
  split; [vm_compute; reflexivity|].
  split; [split; [apply Z.leb_le|apply Z.ltb_lt]; vm_compute; reflexivity|].
  split; [vm_compute; reflexivity|].
  split; [apply Z.leb_le; vm_compute; reflexivity|].
  vm_compute. reflexivity.
Qed.

Lemma log_stream_consistent_witness :
  logger_consistent
    (fst (log_stream utc_host started_logger three_items started_world))
    (snd (log_stream utc_host started_logger three_items started_world))
  /\ lg_config
       (fst (log_stream utc_host started_logger three_items started_world))
     = lg_config started_logger.
Proof.
  apply (log_stream_consistent utc_host started_logger three_items
           started_world).
  - intros path. reflexivity.
  - intros path. reflexivity.
  - exact started_logger_consistent.
Defined.

Lemma session_round_trip_witness :
  exists logger' w',
    session utc_host blank_logger "sensors" three_items world_start
    = (0%Z, logger', w')
    /\ w_files w' !! "data/sensors_20231114_221320.csv"
       = Some (csv_header +:+ records_text utc_host (map snd three_items))
    /\ lg_file logger' = None.
Proof.
  destruct (session_round_trip utc_host blank_logger "sensors" three_items
              world_start) as (logger' & w' & Hrun & Hcontent & Hnone & _).
  - reflexivity.
  - reflexivity.
  - apply Z.leb_le. vm_compute. reflexivity.
  - exists logger', w'. split; [exact Hrun|]. split; [|exact Hnone].
    exact Hcontent.
Defined.

(** The file that session leaves. *)
Example session_file :
  w_files (snd (session utc_host blank_logger "sensors" three_items
                  world_start))
  !! "data/sensors_20231114_221320.csv"
  = Some
      ("Timestamp,Sensor_Type,Value,Unit,Description" +:+ newline
       +:+ "2023-11-14 22:13:20.000000,Vibration,0.250000,m/s2,Bridge vibration"
       +:+ newline
       +:+ "2023-11-14 22:13:20.000000,Vibration,0.500000,m/s2,Bridge vibration"
       +:+ newline
       +:+ "2023-11-14 22:13:20.000000,Vibration,0.125000,m/s2,Bridge vibration"
       +:+ newline).
Proof. vm_compute. reflexivity. Qed.

Section InitFacts.
Context {D : Type} `{DoubleOps D}.
Variable host : host_t D.

(** [init_data_logger] and its two outcomes, writes succeeding on a
    stream that opens.  When the log file cannot be created it returns -1,
    with no file open and the files as they were.  When the file is
    created it returns 0 and the file holds the header alone, counted in
    the size (45), with an empty buffer of 100 readings. *)
Theorem init_data_logger_outcomes (logger : data_logger_t D) (base : string)
    (w : world) :
  let name :=
    log_file_name "data" base (h_localtime host (pt_timestamp (w_clock w))) in
  let result := init_data_logger host logger base w in
  (h_fopen_ok host name = false ->
   fst (fst result) = (-1)%Z
   /\ lg_file (snd (fst result)) = None
   /\ snd result = w)
  /\ (h_fopen_ok host name = true ->
      h_fprintf_ok host name = true ->
      fst (fst result) = 0%Z
      /\ lg_file (snd (fst result)) = Some name
      /\ lg_current_filename (snd (fst result)) = name
      /\ lg_buffer_index (snd (fst result)) = 0%Z
      /\ lg_sample_count (snd (fst result)) = 0%Z
      /\ length (lg_buffer (snd (fst result))) = 100%nat
      /\ lc_buffer_size (lg_config (snd (fst result))) = 100%Z
      /\ (name ∈ w_open (snd result))
      /\ w_files (snd result) !! name = Some csv_header
      /\ (forall g, g <> name -> w_files (snd result) !! g = w_files w !! g)
      /\ lg_current_file_size (snd (fst result)) = 45%Z).
Proof.
  intros name result. subst result. unfold init_data_logger.
  cbn [lc_directory]. fold name. unfold fopen_w. split.
  - intros Hfail. rewrite Hfail. by repeat split.
  - intros Hopen Hwrite. rewrite Hopen.
    unfold write_csv_header. cbn [lg_file]. unfold fprintf.
    cbn [w_files w_open w_clock]. rewrite Hwrite.
    change (0 <? Z.of_nat (String.length csv_header))%Z with true.
    change (0 + Z.of_nat (String.length csv_header))%Z with 45%Z.
    cbn [fst snd
         lg_file lg_current_filename lg_buffer_index lg_sample_count
         lg_buffer lg_config lc_buffer_size lg_current_file_size
         w_files w_open].
    rewrite !lookup_insert_eq, length_replicate.
    split; [done|]. split; [done|]. split; [done|]. split; [done|].
    split; [done|]. split; [done|]. split; [done|].
    split; [by apply elem_of_union_r, elem_of_singleton|].
    split; [done|]. split; [|done].
    intros g Hg. by rewrite !lookup_insert_ne.
Qed.

(** [configure_logger] never reallocates.  The configuration is stored
    before its buffer size is compared with the stored one, so for every
    configuration the buffer and its index are left as they were, also
    when the new buffer size differs from the length of the buffer. *)
Theorem configure_logger_keeps_buffer (logger : data_logger_t D)
    (config : logger_config_t) :
  lg_config (configure_logger logger config) = config
  /\ lg_buffer (configure_logger logger config) = lg_buffer logger
  /\ lg_buffer_index (configure_logger logger config)
     = lg_buffer_index logger
  /\ lg_file (configure_logger logger config) = lg_file logger
  /\ lg_current_file_size (configure_logger logger config)
     = lg_current_file_size logger.
Proof.
  unfold configure_logger. cbn [lg_config].
  rewrite Z.eqb_refl. cbn [negb]. by repeat split.
Qed.

End InitFacts.

Lemma init_data_logger_outcomes_witness :
  fst (fst (init_data_logger no_file_host blank_logger "sensors" world_start))
  = (-1)%Z
  /\ snd (init_data_logger no_file_host blank_logger "sensors" world_start)
     = world_start
  /\ fst (fst (init_data_logger utc_host blank_logger "sensors" world_start))
     = 0%Z
  /\ lg_current_file_size
       (snd (fst (init_data_logger utc_host blank_logger "sensors"
                    world_start))) = 45%Z.
Proof.
  destruct (init_data_logger_outcomes no_file_host blank_logger "sensors"
              world_start) as [Hfail _].
  destruct (init_data_logger_outcomes utc_host blank_logger "sensors"
              world_start) as [_ Hok].
  destruct (Hfail eq_refl) as (Hstatus & _ & Hworld).
  destruct (Hok eq_refl eq_refl)
    as (Hstatus0 & _ & _ & _ & _ & _ & _ & _ & _ & _ & Hsize).
  repeat (split; [assumption|]). assumption.
Defined.

(** With the buffer size raised to 200 on an allocation of 100, nothing
    stops the index at the end of the allocation: 100 readings within the
    flush interval fill it without a flush, and the next reading is due at
    index 100, outside it. *)
Example configure_logger_overrun :
  lg_buffer_index
    (fst (log_stream utc_host
            (configure_logger started_logger
               (mk_logger_config "" "data" 10 1 200 1000))
            (replicate 100 (mk_time 1700000000 500, vib 0.25))
            started_world)) = 100%Z
  /\ length
       (lg_buffer
          (fst (log_stream utc_host
                  (configure_logger started_logger
                     (mk_logger_config "" "data" 10 1 200 1000))
                  (replicate 100 (mk_time 1700000000 500, vib 0.25))
                  started_world))) = 100%nat
  /\ w_files
       (snd (log_stream utc_host
               (configure_logger started_logger
                  (mk_logger_config "" "data" 10 1 200 1000))
               (replicate 100 (mk_time 1700000000 500, vib 0.25))
               started_world))
     = w_files started_world.
Proof. vm_compute. repeat split. Qed.

Section BatchFacts.
Context {D : Type} `{DoubleOps D}.
Variable host : host_t D.

Lemma log_batch_loop_holds (rest pre : list (sensor_data_t D))
    (logger : data_logger_t D) (w : world) (f : string)
    (logged : list (sensor_data_t D)) :
  h_fprintf_ok host f = true ->
  logger_holds host f logged logger w ->
  lc_auto_rotate (lg_config logger) = 0%Z
  \/ (Z.of_nat (String.length
                  (csv_header +:+ records_text host (logged ++ rest)))
      <= rotation_threshold (lg_config logger))%Z ->
  exists logger' w',
    log_batch_loop host logger (pre ++ rest)
      (seqZ (Z.of_nat (length pre)) (Z.of_nat (length rest))) w
    = (0%Z, logger', w')
    /\ logger_holds host f (logged ++ rest) logger' w'
    /\ lg_config logger' = lg_config logger.
Proof.
  intros Hwrite. revert pre logger w logged.
  induction rest as [|data rest IH]; intros pre logger w logged Hholds Hkeep.
  { rewrite seqZ_nil by (simpl; lia). cbn [log_batch_loop].
    rewrite app_nil_r. by eexists _, _. }
  rewrite seqZ_cons by (simpl; lia). cbn [log_batch_loop].
  rewrite Nat2Z.id, lookup_app_r, Nat.sub_diag by lia.
  cbn [lookup list_lookup default from_option Datatypes.id].
  replace (logged ++ data :: rest) with ((logged ++ [data]) ++ rest) in *
    by (by rewrite <- app_assoc).
  destruct (log_sensor_data_holds host logger data w f logged Hwrite Hholds)
    as (logger1 & w1 & Hrun & Hholds1 & Hconfig & _).
  { destruct Hkeep as [Hoff|Hsmall]; [by left|right].
    etrans; [apply (records_text_length_app host _ rest)|exact Hsmall]. }
  rewrite Hrun. cbn [Z.eqb].
  specialize (IH (pre ++ [data]) logger1 w1 (logged ++ [data]) Hholds1).
  rewrite Hconfig in IH. specialize (IH Hkeep).
  destruct IH as (logger2 & w2 & Hloop & Hholds2 & Hconfig2).
  exists logger2, w2. split; [|by split].
  rewrite <- Hloop, <- app_assoc. cbn [app].
  do 2 f_equal; rewrite ?length_app; simpl; lia.
Qed.

(** [log_sensor_data_batch].  A count that is not positive is refused with
    -1 and nothing is logged.  On a logger whose file and buffer together
    hold the header and the records of the readings logged so far, a batch
    of as many readings as the array holds, small enough for no rotation
    to take place, returns 0 and adds the readings of the array, in order
    and once each, to what the file and the buffer hold. *)
Theorem log_sensor_data_batch_appends (logger : data_logger_t D)
    (data_array : list (sensor_data_t D)) (w : world) (f : string)
    (logged : list (sensor_data_t D)) :
  (forall count, (count <= 0)%Z ->
     log_sensor_data_batch host logger data_array count w
     = ((-1)%Z, logger, w))
  /\ (data_array <> [] ->
      h_fprintf_ok host f = true ->
      logger_holds host f logged logger w ->
      lc_auto_rotate (lg_config logger) = 0%Z
      \/ (Z.of_nat (String.length
                      (csv_header
                       +:+ records_text host (logged ++ data_array)))
          <= rotation_threshold (lg_config logger))%Z ->
      exists logger' w',
        log_sensor_data_batch host logger data_array
          (Z.of_nat (length data_array)) w = (0%Z, logger', w')
        /\ logger_holds host f (logged ++ data_array) logger' w').
Proof.
  split.
  - intros count Hcount. unfold log_sensor_data_batch.
    destruct (Z.leb_spec count 0) as [_|Hpos]; [reflexivity|lia].
  - intros Hne Hwrite Hholds Hkeep. unfold log_sensor_data_batch.
    destruct (Z.leb_spec (Z.of_nat (length data_array)) 0) as [Hle|_].
    { destruct data_array; [done|simpl in Hle; lia]. }
    destruct (log_batch_loop_holds data_array [] logger w f logged Hwrite
                Hholds Hkeep) as (logger' & w' & Hloop & Hholds' & _).
    exists logger', w'. split; [exact Hloop|exact Hholds'].
Qed.

End BatchFacts.

Lemma started_logger_holds :
  logger_holds utc_host "data/sensors_20231114_221320.csv" []
    started_logger started_world.
Proof.
  split; [vm_compute; reflexivity|].
  split; [split; [apply Z.leb_le|apply Z.ltb_lt]; vm_compute; reflexivity|].
  split; [vm_compute; reflexivity|].
  split; [apply Z.leb_le; vm_compute; reflexivity|].
  split; vm_compute; reflexivity.
Qed.

Lemma log_sensor_data_batch_appends_witness :
  log_sensor_data_batch utc_host started_logger (map snd three_items) 0
    started_world = ((-1)%Z, started_logger, started_world)
  /\ exists logger' w',
       log_sensor_data_batch utc_host started_logger (map snd three_items)
         (Z.of_nat (length (map snd three_items))) started_world
       = (0%Z, logger', w')
       /\ logger_holds utc_host "data/sensors_20231114_221320.csv"
            ([] ++ map snd three_items) logger' w'.
Proof.
  destruct (log_sensor_data_batch_appends utc_host started_logger
              (map snd three_items) started_world
              "data/sensors_20231114_221320.csv" []) as [Hrefuse Hbatch].
  split.
  - apply Hrefuse. lia.
  - apply Hbatch.
    + discriminate.
    + reflexivity.
    + exact started_logger_holds.
    + right. apply Z.leb_le. vm_compute. reflexivity.
Defined.

(** * The analyzer: bookkeeping, batches and exact results *)

Section FilterBookkeeping.
Context {D : Type} `{DoubleOps D}.

Lemma init_wellformed (ma : moving_average_t D) (c : nat) :
  (0 < c)%nat ->
  filter_wellformed c 0 (init_moving_average ma (Z.of_nat c)).2.
Proof.
  intros Hc. unfold init_moving_average.
  destruct (Z.leb_spec (Z.of_nat c) 0) as [Hle|_]; [lia|].
  cbn [snd]. exists (replicate c (d_lit 0)).
  cbn [ma_buffer ma_buffer_size ma_current_index ma_sample_count].
  rewrite Nat2Z.id, length_replicate, Nat.Div0.mod_0_l.
  repeat split; lia.
Qed.

Lemma update_wellformed (c n : nat) (ma : moving_average_t D) (v : D) :
  (0 < c)%nat -> (Z.of_nat c <= INT_MAX)%Z ->
  filter_wellformed c n ma ->
  filter_wellformed c (S n) (update_moving_average ma v).2
  /\ get_moving_average (update_moving_average ma v).2
     = (update_moving_average ma v).1.
Proof.
  intros Hc Hmax (buffer & Hbuf & Hlen & Hsize & Hindex & Hcount).
  unfold update_moving_average. rewrite Hbuf, Hsize, Hindex, Hcount.
  cbn [fst snd].
  rewrite next_index by done.
  replace (n + 1)%nat with (S n) by lia.
  destruct (Z.leb_spec (Z.of_nat c) (Z.of_nat (n `min` c))) as [Hfull|Hroom].
  - split.
    + eexists. cbn [ma_buffer ma_buffer_size ma_current_index ma_sample_count].
      split; [reflexivity|].
      split; [unfold array_store;
              destruct (Z.of_nat (n mod c) <? 0)%Z; by rewrite ?length_insert|].
      repeat split; lia.
    + unfold get_moving_average.
      cbn [ma_sample_count ma_sum].
      destruct (Z.eqb_spec (Z.of_nat (n `min` c)) 0) as [Hz|_]; [lia|done].
  - rewrite int_wrap_small by (unfold INT_MAX in * ; lia).
    split.
    + eexists. cbn [ma_buffer ma_buffer_size ma_current_index ma_sample_count].
      split; [reflexivity|].
      split; [unfold array_store;
              destruct (Z.of_nat (n mod c) <? 0)%Z; by rewrite ?length_insert|].
      repeat split; lia.
    + unfold get_moving_average.
      cbn [ma_sample_count ma_sum].
      destruct (Z.eqb_spec (Z.of_nat (n `min` c) + 1) 0) as [Hz|_]; [lia|done].
Qed.

Lemma run_wellformed (c : nat) (values : list D) (n : nat)
    (ma : moving_average_t D) :
  (0 < c)%nat -> (Z.of_nat c <= INT_MAX)%Z ->
  filter_wellformed c n ma ->
  filter_wellformed c (n + length values) (run_moving_average ma values).2
  /\ length (run_moving_average ma values).1 = length values
  /\ (values <> [] ->
      last (run_moving_average ma values).1
      = Some (get_moving_average (run_moving_average ma values).2)).
Proof.
  intros Hc Hmax. revert n ma.
  induction values as [|v values IH]; intros n ma Hwf.
  - cbn [run_moving_average fst snd length]. rewrite Nat.add_0_r.
    split; [done|]. split; [done|]. by intros [].
  - cbn [run_moving_average].
    destruct (update_wellformed c n ma v Hc Hmax Hwf) as [Hwf1 Hget].
    destruct (update_moving_average ma v) as [avg ma1].
    cbn [fst snd] in Hwf1, Hget.
    destruct (IH (S n) ma1 Hwf1) as (Hwf2 & Hlen & Hlast).
    destruct (run_moving_average ma1 values) as [avgs ma2] eqn:Hrun.
    cbn [fst snd] in * .
    split; [by replace (n + length (v :: values))%nat
                 with (S n + length values)%nat by (simpl; lia)|].
    split; [simpl; lia|].
    intros _. destruct values as [|v' values'].
    + cbn [run_moving_average] in Hrun. injection Hrun as <- <-.
      simpl. by rewrite Hget.
    + destruct avgs as [|a avgs']; [simpl in Hlen; lia|].
      rewrite last_cons_cons. by apply Hlast.
Qed.

(** The bookkeeping of the moving-average filter, in any arithmetic.
    After [init_moving_average] with a window of [c] values,
    [0 < c <= INT_MAX], and any stream of values: the circular buffer
    still has [c] slots, the write index is the number of values taken
    modulo [c] (so it stays inside the buffer), the sample count is that
    number capped at [c], one average is returned per value, and
    [get_moving_average] afterwards gives the average returned last. *)
Theorem moving_average_bookkeeping (ma0 : moving_average_t D) (c : nat)
    (values : list D) :
  (0 < c)%nat -> (Z.of_nat c <= INT_MAX)%Z ->
  let filter := (init_moving_average ma0 (Z.of_nat c)).2 in
  let averages := (run_moving_average filter values).1 in
  let filter' := (run_moving_average filter values).2 in
  (exists buffer, ma_buffer filter' = Some buffer /\ length buffer = c)
  /\ ma_buffer_size filter' = Z.of_nat c
  /\ ma_current_index filter' = Z.of_nat (length values mod c)
  /\ (0 <= ma_current_index filter' < Z.of_nat c)%Z
  /\ ma_sample_count filter' = Z.of_nat (length values `min` c)
  /\ length averages = length values
  /\ (values <> [] -> last averages = Some (get_moving_average filter'))
  /\ (values = [] -> get_moving_average filter' = d_lit 0).
Proof.
  intros Hc Hmax filter averages filter'.
  destruct (run_wellformed c values 0 filter Hc Hmax
              (init_wellformed ma0 c Hc))
    as ((buffer & Hbuf & Hlen & Hsize & Hindex & Hcount) & Hn & Hlast).
  cbn [Nat.add] in * .
  pose proof (Nat.mod_upper_bound (length values) c) as Hlt.
  split; [by exists buffer|].
  split; [done|]. split; [done|].
  split; [subst filter'; rewrite Hindex; lia|].
  split; [done|]. split; [done|]. split; [done|].
  intros ->. subst filter' filter. unfold init_moving_average.
  destruct (Z.leb_spec (Z.of_nat c) 0) as [Hle|_]; [lia|done].
Qed.

(** After [cleanup_moving_average] the filter is inert: every later
    [update_moving_average] returns 0.0 and stores nothing, and
    [get_moving_average] returns 0.0. *)
Theorem moving_average_after_cleanup (ma : moving_average_t D)
    (values : list D) :
  run_moving_average (cleanup_moving_average ma) values
  = (replicate (length values) (d_lit 0), cleanup_moving_average ma)
  /\ get_moving_average (cleanup_moving_average ma) = d_lit 0.
Proof.
  split; [|done].
  induction values as [|v values IH]; [done|].
  cbn [run_moving_average].
  change (update_moving_average (cleanup_moving_average ma) v)
    with (d_lit (D := D) 0, cleanup_moving_average ma).
  cbv beta iota. by rewrite IH.
Qed.

End FilterBookkeeping.

Lemma moving_average_bookkeeping_witness :
  (0 < 2)%nat /\ (Z.of_nat 2 <= INT_MAX)%Z
  /\ ma_current_index
       (run_moving_average (init_moving_average blank_filter 2).2
          three_tenths).2 = 1%Z
  /\ ma_sample_count
       (run_moving_average (init_moving_average blank_filter 2).2
          three_tenths).2 = 2%Z.
Proof.
  assert (Hc : (0 < 2)%nat) by lia.
  assert (Hmax : (Z.of_nat 2 <= INT_MAX)%Z) by (vm_compute; discriminate).
  split; [exact Hc|]. split; [exact Hmax|].
  destruct (moving_average_bookkeeping blank_filter 2 three_tenths Hc Hmax)
    as (_ & _ & Hindex & _ & Hcount & _).
  split; [exact Hindex|exact Hcount].
Defined.
(** ** Batch anomaly detection *)

Section AnomalyBatchFacts.
Context {D : Type} `{DoubleOps D}.
Variable fmt_f : nat -> D -> string.

Lemma reading_at_app (pre data : list (sensor_data_t D))
    (d : sensor_data_t D) :
  reading_at (pre ++ d :: data) (Z.of_nat (length pre)) = d.
Proof.
  unfold reading_at.
  destruct (Z.ltb_spec (Z.of_nat (length pre)) 0) as [Hneg|_]; [lia|].
  rewrite Nat2Z.id, lookup_app_r by lia.
  by rewrite Nat.sub_diag.
Qed.

Lemma readings_from (data pre : list (sensor_data_t D)) :
  map (reading_at (pre ++ data))
    (seqZ (Z.of_nat (length pre)) (Z.of_nat (length data)))
  = data.
Proof.
  revert pre. induction data as [|d data IH]; intros pre; [done|].
  rewrite seqZ_cons by (simpl; lia). cbn [map].
  rewrite reading_at_app. f_equal.
  specialize (IH (pre ++ [d])).
  rewrite <- app_assoc in IH. cbn [app] in IH.
  rewrite <- IH at 3. f_equal. rewrite length_app. f_equal; simpl; lia.
Qed.

Lemma fold_left_through {A B C : Type} (f : A -> B -> A) (g : C -> B)
    (l : list C) (a : A) :
  fold_left (fun s i => f s (g i)) l a = fold_left f (map g l) a.
Proof. revert a. induction l as [|x l IH]; intros a; [done|]. apply IH. Qed.

Lemma batch_baseline (data : list (sensor_data_t D)) :
  fold_left
    (fun stats i => update_statistics stats (sd_value (reading_at data i)))
    (seqZ 0 (Z.of_nat (length data))) init_statistics
  = accumulate (map sd_value data).
Proof.
  rewrite (fold_left_through update_statistics
             (fun i => sd_value (reading_at data i))).
  unfold accumulate. f_equal.
  pose proof (readings_from data []) as Hread.
  cbn [app length] in Hread. change (Z.of_nat 0) with 0%Z in Hread.
  rewrite <- Hread at 2. by rewrite map_map.
Qed.

Lemma batch_loop (verdict : Z -> anomaly_result_t D) (indices : list Z)
    (anomaly_count : Z) (results : list (anomaly_result_t D)) :
  (0 <= anomaly_count)%Z ->
  (anomaly_count + Z.of_nat (length indices) <= INT_MAX)%Z ->
  fold_left
    (fun '(anomaly_count, results) i =>
       let result := verdict i in
       (if (ar_is_anomaly result =? 0)%Z then anomaly_count
        else int_wrap (anomaly_count + 1),
        results ++ [result]))
    indices (anomaly_count, results)
  = ((anomaly_count + Z.of_nat (flagged (map verdict indices)))%Z,
     results ++ map verdict indices).
Proof.
  revert anomaly_count results.
  induction indices as [|i indices IH]; intros anomaly_count results Hlo Hhi.
  - cbn [fold_left map]. unfold flagged. cbn [filter list_filter length].
    rewrite app_nil_r. f_equal. lia.
  - cbn [fold_left map length] in * . unfold flagged in * .
    rewrite filter_cons.
    pose proof (length_filter (fun r : anomaly_result_t D => ar_is_anomaly r <> 0%Z)
                  (map verdict indices)) as Hfew.
    rewrite length_map in Hfew.
    destruct (Z.eqb_spec (ar_is_anomaly (verdict i)) 0) as [Hz|Hnz].
    + rewrite IH by lia.
      rewrite decide_False by (intros Hne; by apply Hne).
      by rewrite <- app_assoc.
    + rewrite int_wrap_small by (unfold INT_MAX in * ; lia).
      rewrite IH by lia.
      rewrite decide_True by done. cbn [length].
      rewrite <- app_assoc. cbn [app]. f_equal. lia.
Qed.

(** The batch detector on a whole non-empty array. *)
Lemma batch_result (data : list (sensor_data_t D))
    (config : anomaly_config_t D) :
  data <> [] ->
  (Z.of_nat (length data) <= INT_MAX)%Z ->
  let baseline := finalize_statistics (accumulate (map sd_value data)) in
  let verdicts := map (fun d => detect_anomaly fmt_f d baseline config) data in
  detect_anomalies_batch fmt_f data (Z.of_nat (length data)) config
  = (Z.of_nat (flagged verdicts), verdicts).
Proof.
  intros Hdata Hmax baseline verdicts. unfold detect_anomalies_batch.
  destruct (Z.leb_spec (Z.of_nat (length data)) 0) as [Hle|_].
  { destruct data; [done|simpl in Hle; lia]. }
  rewrite batch_baseline. fold baseline.
  rewrite (batch_loop
             (fun i => detect_anomaly fmt_f (reading_at data i) baseline config))
    by (rewrite ?length_seqZ; lia).
  cbn [app]. rewrite Z.add_0_l.
  assert (Hsame :
    map (fun i => detect_anomaly fmt_f (reading_at data i) baseline config)
      (seqZ 0 (Z.of_nat (length data))) = verdicts).
  { subst verdicts.
    pose proof (readings_from data []) as Hread.
    cbn [app length] in Hread. change (Z.of_nat 0) with 0%Z in Hread.
    rewrite <- Hread at 2. by rewrite map_map. }
  by rewrite Hsame.
Qed.

(** [detect_anomalies_batch] over a whole array of readings (no more than
    an [int] can count).  For an empty array it returns -1 and writes no
    result.  Otherwise the baseline is the finalized statistics of the
    very readings under test, result [i] is [detect_anomaly] of reading
    [i] against that baseline, and the value returned is the number of
    results whose [is_anomaly] is set, between 0 and the array length. *)
Theorem detect_anomalies_batch_counts (data : list (sensor_data_t D))
    (config : anomaly_config_t D) :
  (Z.of_nat (length data) <= INT_MAX)%Z ->
  let baseline := finalize_statistics (accumulate (map sd_value data)) in
  let verdicts := map (fun d => detect_anomaly fmt_f d baseline config) data in
  detect_anomalies_batch fmt_f data (Z.of_nat (length data)) config
  = match data with
    | [] => ((-1)%Z, [])
    | _ :: _ => (Z.of_nat (flagged verdicts), verdicts)
    end
  /\ (flagged verdicts <= length data)%nat.
Proof.
  intros Hmax baseline verdicts. split.
  - destruct data as [|d data']; [done|].
    by apply batch_result.
  - unfold flagged.
    etransitivity; [apply length_filter|]. subst verdicts.
    by rewrite length_map.
Qed.

(** A batch shorter than [min_samples_for_analysis] is never analysed:
    [detect_anomalies_batch] returns 0 and every result is the "Normal"
    one, whatever the readings and the thresholds are. *)
Theorem detect_anomalies_batch_short (data : list (sensor_data_t D))
    (config : anomaly_config_t D) :
  data <> [] ->
  (Z.of_nat (length data) <= INT_MAX)%Z ->
  (Z.of_nat (length data) < ac_min_samples_for_analysis config)%Z ->
  detect_anomalies_batch fmt_f data (Z.of_nat (length data)) config
  = (0%Z,
     map (fun d => mk_anomaly_result 0 (d_lit 0) "Normal" (sd_timestamp d))
       data).
Proof.
  intros Hdata Hmax Hshort.
  rewrite batch_result by done.
  set (baseline := finalize_statistics (accumulate (map sd_value data))).
  assert (Hcount : st_sample_count baseline = Z.of_nat (length data)).
  { subst baseline.
    destruct (finalize_keeps_raw (accumulate (map sd_value data)))
      as (-> & _).
    unfold accumulate. rewrite accumulate_from_count; simpl;
      rewrite ?length_map; lia. }
  assert (Hnormal : forall d,
    detect_anomaly fmt_f d baseline config
    = mk_anomaly_result 0 (d_lit 0) "Normal" (sd_timestamp d)).
  { intros d. unfold detect_anomaly. rewrite Hcount.
    destruct (Z.ltb_spec (Z.of_nat (length data))
                (ac_min_samples_for_analysis config)) as [_|Hge]; [done|lia]. }
  rewrite (map_ext _ _ Hnormal).
  f_equal. unfold flagged.
  clear. induction data as [|d data IH]; [done|].
  cbn [map]. rewrite filter_cons. cbn [ar_is_anomaly].
  by rewrite decide_False by (intros Hne; by apply Hne).
Qed.

End AnomalyBatchFacts.

(** ** Minimum, maximum and mean on exact readings *)

Section StatisticsExact.

Lemma scan_min_fin (rs : list R) (a : R) :
  exists m : R,
    scan_min (XFin a) (map XFin rs) = XFin m
    /\ (m <= a)%R /\ (forall r, r ∈ rs -> (m <= r)%R) /\ (m = a \/ m ∈ rs).
Proof.
  revert a. induction rs as [|r rs IH]; intros a.
  - exists a. cbn [map scan_min]. split; [done|]. split; [lra|].
    split; [|by left]. intros r Hr. by apply elem_of_nil in Hr.
  - cbn [map scan_min].
    change (XFin r <. XFin a) with (bool_decide (r < a)%R).
    destruct (bool_decide_reflect (r < a)%R) as [Hlt|Hge].
    + destruct (IH r) as (m & -> & Hle & Hall & Hin). exists m.
      split; [done|]. split; [lra|]. split.
      * intros x Hx. apply elem_of_cons in Hx as [->|Hx]; [done|by apply Hall].
      * right. apply elem_of_cons. destruct Hin as [->|Hin]; [by left|by right].
    + destruct (IH a) as (m & -> & Hle & Hall & Hin). exists m.
      split; [done|]. split; [done|]. split.
      * intros x Hx. apply elem_of_cons in Hx as [->|Hx]; [lra|by apply Hall].
      * destruct Hin as [->|Hin]; [by left|]. right. apply elem_of_cons. by right.
Qed.

Lemma scan_max_fin (rs : list R) (a : R) :
  exists m : R,
    scan_max (XFin a) (map XFin rs) = XFin m
    /\ (a <= m)%R /\ (forall r, r ∈ rs -> (r <= m)%R) /\ (m = a \/ m ∈ rs).
Proof.
  revert a. induction rs as [|r rs IH]; intros a.
  - exists a. cbn [map scan_max]. split; [done|]. split; [lra|].
    split; [|by left]. intros r Hr. by apply elem_of_nil in Hr.
  - cbn [map scan_max].
    change (XFin r >. XFin a) with (bool_decide (a < r)%R).
    destruct (bool_decide_reflect (a < r)%R) as [Hlt|Hge].
    + destruct (IH r) as (m & -> & Hle & Hall & Hin). exists m.
      split; [done|]. split; [lra|]. split.
      * intros x Hx. apply elem_of_cons in Hx as [->|Hx]; [done|by apply Hall].
      * right. apply elem_of_cons. destruct Hin as [->|Hin]; [by left|by right].
    + destruct (IH a) as (m & -> & Hle & Hall & Hin). exists m.
      split; [done|]. split; [done|]. split.
      * intros x Hx. apply elem_of_cons in Hx as [->|Hx]; [lra|by apply Hall].
      * destruct Hin as [->|Hin]; [by left|]. right. apply elem_of_cons. by right.
Qed.

Lemma sum_R_between (lo hi : R) (rs : list R) :
  (forall r, r ∈ rs -> (lo <= r <= hi)%R) ->
  (INR (length rs) * lo <= sum_R rs <= INR (length rs) * hi)%R.
Proof.
  induction rs as [|r rs IH]; intros Hall.
  - simpl. lra.
  - cbn [sum_R length]. rewrite S_INR.
    assert (Hr : (lo <= r <= hi)%R) by (apply Hall; by left).
    assert (Hrest : (INR (length rs) * lo <= sum_R rs <= INR (length rs) * hi)%R).
    { apply IH. intros x Hx. apply Hall. by right. }
    lra.
Qed.

(** On finite readings and in exact arithmetic the accumulator's minimum
    and maximum are readings of the stream that bound every reading, the
    mean is the arithmetic mean, and it lies between the two. *)
Theorem statistics_bounds_exact (rs : list R) :
  rs <> [] ->
  (Z.of_nat (length rs) <= INT_MAX)%Z ->
  let s := finalize_statistics (accumulate (map XFin rs)) in
  exists lo hi : R,
    st_min s = XFin lo /\ st_max s = XFin hi
    /\ lo ∈ rs /\ hi ∈ rs
    /\ (forall r, r ∈ rs -> (lo <= r <= hi)%R)
    /\ st_mean s = XFin (mean_R rs)
    /\ (lo <= mean_R rs <= hi)%R.
Proof.
  intros Hrs Hmax s.
  destruct rs as [|r0 rs]; [done|]. clear Hrs.
  destruct (accumulate_fin (r0 :: rs) Hmax) as (Hcount & Hsum & _).
  assert (Hn : st_sample_count (accumulate (map XFin (r0 :: rs))) <> 0%Z)
    by (rewrite Hcount; simpl; lia).
  destruct (finalize_formulas _ Hn) as (Hmean & _ & _ & _ & _ & _ & _ & Hmin & Hmax').
  fold s in Hmean, Hmin, Hmax'.
  assert (Hlen : (0 < INR (length (r0 :: rs)))%R) by (apply lt_0_INR; simpl; lia).
  (* the minimum *)
  assert (Hlo : exists lo, st_min s = XFin lo /\ lo ∈ r0 :: rs
                           /\ forall r, r ∈ r0 :: rs -> (lo <= r)%R).
  { rewrite Hmin. unfold accumulate. rewrite accumulate_from_min.
    cbn [init_statistics st_min map scan_min].
    change (XFin r0 <. d_infinity) with true. cbv iota.
    destruct (scan_min_fin rs r0) as (m & -> & Hle & Hall & Hin).
    exists m. split; [done|]. split.
    - apply elem_of_cons. destruct Hin as [->|Hin]; [by left|by right].
    - intros r Hr. apply elem_of_cons in Hr as [->|Hr]; [done|by apply Hall]. }
  assert (Hhi : exists hi, st_max s = XFin hi /\ hi ∈ r0 :: rs
                           /\ forall r, r ∈ r0 :: rs -> (r <= hi)%R).
  { rewrite Hmax'. unfold accumulate. rewrite accumulate_from_max.
    cbn [init_statistics st_max map scan_max].
    change (XFin r0 >. d_neg d_infinity) with true. cbv iota.
    destruct (scan_max_fin rs r0) as (m & -> & Hle & Hall & Hin).
    exists m. split; [done|]. split.
    - apply elem_of_cons. destruct Hin as [->|Hin]; [by left|by right].
    - intros r Hr. apply elem_of_cons in Hr as [->|Hr]; [done|by apply Hall]. }
  destruct Hlo as (lo & Hlo & Hlo_in & Hlo_all).
  destruct Hhi as (hi & Hhi & Hhi_in & Hhi_all).
  exists lo, hi.
  split; [done|]. split; [done|]. split; [done|]. split; [done|].
  split; [intros r Hr; split; [by apply Hlo_all|by apply Hhi_all]|].
  split.
  - rewrite Hmean, Hsum, Hcount.
    change (d_of_int (Z.of_nat (length (r0 :: rs))))
      with (XFin (IZR (Z.of_nat (length (r0 :: rs))))).
    rewrite <- INR_IZR_INZ. rewrite xdiv_fin by lra. done.
  - unfold mean_R.
    destruct (sum_R_between lo hi (r0 :: rs)) as [Hsum_lo Hsum_hi].
    { intros r Hr; split; [by apply Hlo_all|by apply Hhi_all]. }
    split.
    + apply Rmult_le_reg_r with (INR (length (r0 :: rs))); [done|].
      unfold Rdiv. rewrite Rmult_assoc, Rinv_l by lra. lra.
    + apply Rmult_le_reg_r with (INR (length (r0 :: rs))); [done|].
      unfold Rdiv. rewrite Rmult_assoc, Rinv_l by lra. lra.
Qed.

End StatisticsExact.

Lemma statistics_bounds_exact_witness :
  exists lo hi : R,
    st_min (finalize_statistics (accumulate (map XFin [2; 1; 3]%R))) = XFin lo
    /\ st_max (finalize_statistics (accumulate (map XFin [2; 1; 3]%R)))
       = XFin hi
    /\ (lo <= mean_R [2; 1; 3]%R <= hi)%R.
Proof.
  assert (Hne : [2; 1; 3]%R <> []) by discriminate.
  assert (Hmax : (Z.of_nat (length [2; 1; 3]%R) <= INT_MAX)%Z)
    by (vm_compute; discriminate).
  destruct (statistics_bounds_exact [2; 1; 3]%R Hne Hmax)
    as (lo & hi & Hlo & Hhi & _ & _ & _ & _ & Hmean).
  by exists lo, hi.
Defined.
(** ** Least squares on a line *)

Section TrendExact.
Local Open Scope R_scope.

Lemma sum_to_ext (f g : nat -> R) (n : nat) :
  (forall k, (k < n)%nat -> f k = g k) -> sum_to f n = sum_to g n.
Proof.
  induction n as [|n IH]; intros Hfg; [done|].
  cbn [sum_to]. rewrite IH by (intros k Hk; apply Hfg; lia).
  by rewrite Hfg by lia.
Qed.

(** Sums of the ranks and of their squares. *)
Lemma rank_sums (n : nat) :
  (2 * sum_to INR n = INR n * (INR n - 1))%R
  /\ (6 * sum_to (fun k => INR k * INR k) n
      = (INR n - 1) * INR n * (2 * INR n - 1))%R.
Proof.
  induction n as [|n [IH1 IH2]].
  - simpl. split; lra.
  - cbn [sum_to]. rewrite S_INR. split; nra.
Qed.

(** The sums of a line [a + b k] over the ranks. *)
Lemma line_sums (a b : R) (n : nat) :
  sum_to (fun k => a + b * INR k) n
  = (a * INR n + b * sum_to INR n)%R
  /\ sum_to (fun k => INR k * (a + b * INR k)) n
     = (a * sum_to INR n + b * sum_to (fun k => INR k * INR k) n)%R.
Proof.
  induction n as [|n [IH1 IH2]].
  - simpl. split; lra.
  - cbn [sum_to]. rewrite S_INR, IH1, IH2. split; lra.
Qed.

(** The sums of squared and mixed deviations around [m] and [a + b m]. *)
Lemma deviation_line_sums (a b m : R) (n : nat) :
  sum_to (fun k => (INR k - m) * (INR k - m)) n
  = (sum_to (fun k => INR k * INR k) n - 2 * m * sum_to INR n
     + INR n * m * m)%R
  /\ sum_to (fun k => (a + b * INR k - (a + b * m))
                      * (a + b * INR k - (a + b * m))) n
     = (b * b * sum_to (fun k => (INR k - m) * (INR k - m)) n)%R
  /\ sum_to (fun k => (INR k - m) * (a + b * INR k - (a + b * m))) n
     = (b * sum_to (fun k => (INR k - m) * (INR k - m)) n)%R.
Proof.
  induction n as [|n (IH1 & IH2 & IH3)].
  - simpl. repeat split; lra.
  - cbn [sum_to]. rewrite S_INR.
    split; [rewrite IH1; lra|]. split; [rewrite IH2; lra|rewrite IH3; lra].
Qed.

Lemma regression_sums_fin (data : list (sensor_data_t xreal)) (start : Z)
    (y : nat -> R) (n : nat) :
  (forall k, (k < n)%nat ->
     sample_value data (start + Z.of_nat k)%Z = XFin (y k)) ->
  regression_sums data start (Z.of_nat n)
  = (XFin (sum_to INR n), XFin (sum_to y n),
     XFin (sum_to (fun k => INR k * y k) n),
     XFin (sum_to (fun k => INR k * INR k) n)).
Proof.
  unfold regression_sums.
  induction n as [|n IH]; intros Hy.
  - cbn [seqZ fold_left sum_to]. by rewrite xlit_zero.
  - replace (Z.of_nat (S n)) with (Z.of_nat n + 1)%Z by lia.
    rewrite seqZ_app by lia. rewrite fold_left_app.
    rewrite IH by (intros k Hk; apply Hy; lia).
    rewrite Z.add_0_l.
    rewrite seqZ_cons by lia. rewrite seqZ_nil by lia.
    cbn [fold_left]. rewrite Hy by lia.
    change (d_of_int (Z.of_nat n)) with (XFin (IZR (Z.of_nat n))).
    rewrite <- INR_IZR_INZ. reflexivity.
Qed.

Lemma deviation_sums_fin (data : list (sensor_data_t xreal)) (start : Z)
    (y : nat -> R) (mx my : R) (n : nat) :
  (forall k, (k < n)%nat ->
     sample_value data (start + Z.of_nat k)%Z = XFin (y k)) ->
  deviation_sums data start (Z.of_nat n) (XFin mx) (XFin my)
  = (XFin (sum_to (fun k => (INR k - mx) * (INR k - mx)) n),
     XFin (sum_to (fun k => (y k - my) * (y k - my)) n),
     XFin (sum_to (fun k => (INR k - mx) * (y k - my)) n)).
Proof.
  unfold deviation_sums.
  induction n as [|n IH]; intros Hy.
  - cbn [seqZ fold_left sum_to]. by rewrite xlit_zero.
  - replace (Z.of_nat (S n)) with (Z.of_nat n + 1)%Z by lia.
    rewrite seqZ_app by lia. rewrite fold_left_app.
    rewrite IH by (intros k Hk; apply Hy; lia).
    rewrite Z.add_0_l.
    rewrite seqZ_cons by lia. rewrite seqZ_nil by lia.
    cbn [fold_left]. rewrite Hy by lia.
    change (d_of_int (Z.of_nat n)) with (XFin (IZR (Z.of_nat n))).
    rewrite <- INR_IZR_INZ. reflexivity.
Qed.

Lemma Q2R_small_denominator : Q2R (1 # 10000000000) = (/ 10000000000)%R.
Proof. unfold Q2R. simpl. lra. Qed.

Lemma Q2R_millionth : Q2R (1 # 1000000) = (/ 1000000)%R.
Proof. unfold Q2R. simpl. lra. Qed.

(** Least squares on a line.  When the last [n >= 2] readings of the
    array are finite and lie exactly on the line [a + b k] (k the rank in
    the window), [analyze_trend] computed in exact arithmetic returns the
    slope [b]; the direction is "stable" when [|b| < 1e-6], else
    "increasing" for a positive and "decreasing" for a negative slope;
    the correlation is 1 or -1 with the sign of [b] and the confidence is
    1, except for a flat line ([b = 0]) where both are 0. *)
Theorem analyze_trend_line (data : list (sensor_data_t xreal)) (n : nat)
    (a b : R) :
  (2 <= n <= length data)%nat ->
  (forall k, (k < n)%nat ->
     sample_value data (Z.of_nat (length data) - Z.of_nat n + Z.of_nat k)%Z
     = XFin (a + b * INR k)) ->
  let trend := analyze_trend data (Z.of_nat (length data)) (Z.of_nat n) in
  ta_slope trend = XFin b
  /\ ((Rabs b < / 1000000)%R -> ta_trend_direction trend = "stable")
  /\ ((/ 1000000 <= b)%R -> ta_trend_direction trend = "increasing")
  /\ ((b <= - / 1000000)%R -> ta_trend_direction trend = "decreasing")
  /\ ((0 < b)%R ->
      ta_correlation trend = XFin 1 /\ ta_confidence trend = XFin 1)
  /\ ((b < 0)%R ->
      ta_correlation trend = XFin (-1) /\ ta_confidence trend = XFin 1)
  /\ (b = 0%R ->
      ta_correlation trend = XFin 0 /\ ta_confidence trend = XFin 0).
Proof.
  intros [Hn2 Hlen] Hline trend. subst trend. unfold analyze_trend.
  destruct (Z.ltb_spec (Z.of_nat (length data)) (Z.of_nat n)) as [Hlt|_];
    [lia|].
  destruct (Z.ltb_spec (Z.of_nat n) 2) as [Hlt|_]; [lia|].
  cbn [orb].
  rewrite (regression_sums_fin data _ (fun k => a + b * INR k)%R n Hline).
  destruct (line_sums a b n) as [Hsy Hsxy]. rewrite Hsy, Hsxy.
  destruct (rank_sums n) as [Hs1 Hs2].
  set (s1 := sum_to INR n) in * .
  set (s2 := sum_to (fun k => INR k * INR k) n) in * .
  change (d_of_int (Z.of_nat n)) with (XFin (IZR (Z.of_nat n))).
  rewrite <- INR_IZR_INZ.
  assert (Hnr : (2 <= INR n)%R).
  { change 2%R with (INR 2). by apply le_INR. }
  set (den := (INR n * s2 - s1 * s1)%R).
  assert (Hden : (12 * den = INR n * INR n * (INR n - 1) * (INR n + 1))%R).
  { unfold den. nra. }
  assert (Hden1 : (1 <= den)%R).
  { assert (H4 : (4 <= INR n * INR n)%R) by nra.
    assert (H3 : (3 <= (INR n - 1) * (INR n + 1))%R) by nra.
    assert (H12 : (12 <= INR n * INR n * ((INR n - 1) * (INR n + 1)))%R) by nra.
    lra. }
  change (XFin (INR n) *. XFin s2 -. XFin s1 *. XFin s1) with (XFin den).
  change (d_fabs (XFin den)) with (XFin (Rabs den)).
  change (XFin (Rabs den) >. d_lit (1 # 10000000000))
    with (bool_decide (Q2R (1 # 10000000000) < Rabs den)%R).
  rewrite Q2R_small_denominator.
  rewrite bool_decide_eq_true_2
    by (rewrite Rabs_right by lra; lra).
  change (XFin (INR n) *. XFin (a * s1 + b * s2)
          -. XFin s1 *. XFin (a * INR n + b * s1))
    with (XFin (INR n * (a * s1 + b * s2) - s1 * (a * INR n + b * s1))).
  rewrite !xdiv_fin by lra.
  assert (Hslope :
    ((INR n * (a * s1 + b * s2) - s1 * (a * INR n + b * s1)) / den = b)%R).
  { unfold den. field. fold den. lra. }
  rewrite Hslope.
  set (mx := (s1 / INR n)%R).
  assert (Hmy : ((a * INR n + b * s1) / INR n = a + b * mx)%R).
  { subst mx. field. lra. }
  rewrite Hmy.
  rewrite (deviation_sums_fin data _ (fun k => a + b * INR k)%R mx
             (a + b * mx)%R n Hline).
  destruct (deviation_line_sums a b mx n) as (Hdx & Hdy & Hdxy).
  rewrite Hdy, Hdxy.
  set (sdx := sum_to (fun k => (INR k - mx) * (INR k - mx)) n) in * .
  fold s1 s2 in Hdx.
  assert (Hsdx : (sdx * INR n = den)%R).
  { rewrite Hdx. unfold mx, den. field. lra. }
  assert (Hsdx_pos : (0 < sdx)%R) by nra.
  change (XFin sdx >. d_of_int 0) with (bool_decide (0 < sdx)%R).
  rewrite bool_decide_eq_true_2 by done.
  change (XFin (b * b * sdx) >. d_of_int 0)
    with (bool_decide (0 < b * b * sdx)%R).
  change (d_fabs (XFin b) <. d_lit (1 # 1000000))
    with (bool_decide (Rabs b < Q2R (1 # 1000000))%R).
  change (XFin b >. d_of_int 0) with (bool_decide (0 < b)%R).
  rewrite Q2R_millionth.
  cbn [andb].
  assert (Hroot : R_sqrt.sqrt (sdx * (b * b * sdx)) = (Rabs b * sdx)%R).
  { replace (sdx * (b * b * sdx))%R with (Rsqr (b * sdx))
      by (unfold Rsqr; ring).
    rewrite sqrt_Rsqr_abs, Rabs_mult. f_equal. apply Rabs_right. lra. }
  destruct (bool_decide_reflect (0 < b * b * sdx)%R) as [Hb|Hb].
  - assert (Hb0 : b <> 0%R) by (intros ->; lra).
    change (XFin sdx *. XFin (b * b * sdx)) with (XFin (sdx * (b * b * sdx))).
    rewrite xsqrt_fin by nra. rewrite Hroot.
    assert (Habs : (0 < Rabs b)%R) by (by apply Rabs_pos_lt).
    rewrite xdiv_fin by nra.
    cbn [ta_slope ta_correlation ta_trend_direction ta_confidence].
    split; [done|].
    split.
    { intros Hsmall. by rewrite bool_decide_eq_true_2. }
    split.
    { intros Hup. rewrite bool_decide_eq_false_2
        by (rewrite Rabs_right by lra; lra).
      rewrite bool_decide_eq_true_2 by lra. done. }
    split.
    { intros Hdown. rewrite bool_decide_eq_false_2
        by (rewrite Rabs_left by lra; lra).
      rewrite bool_decide_eq_false_2 by lra. done. }
    split.
    { intros Hpos. rewrite (Rabs_right b) by lra.
      replace (b * sdx / (b * sdx))%R with 1%R by (field; lra).
      split; [done|]. change (d_fabs (XFin 1)) with (XFin (Rabs 1)).
      by rewrite Rabs_R1. }
    split.
    { intros Hneg. rewrite (Rabs_left b) by lra.
      replace (b * sdx / (- b * sdx))%R with (-1)%R by (field; lra).
      split; [done|]. change (d_fabs (XFin (-1))) with (XFin (Rabs (-1))).
      f_equal. rewrite Rabs_left; lra. }
    intros Hzero. done.
  - assert (Hb0 : b = 0%R).
    { destruct (Req_dec b 0) as [Hz|Hnz]; [done|].
      exfalso. apply Hb. assert (0 < b * b)%R by nra. nra. }
    cbn [ta_slope ta_correlation ta_trend_direction ta_confidence
         neutral_trend].
    rewrite xlit_zero.
    split; [done|].
    split.
    { intros Hsmall. by rewrite bool_decide_eq_true_2. }
    split; [intros Hup; lra|].
    split; [intros Hdown; lra|].
    split; [intros Hpos; lra|].
    split; [intros Hneg; lra|].
    done.
Qed.

End TrendExact.

Lemma analyze_trend_line_witness :
  ta_slope (analyze_trend line3 3 3) = XFin 2
  /\ ta_trend_direction (analyze_trend line3 3 3) = "increasing"
  /\ ta_confidence (analyze_trend line3 3 3) = XFin 1.
Proof.
  assert (Hn : (2 <= 3 <= length line3)%nat) by (simpl; lia).
  assert (Hline : forall k, (k < 3)%nat ->
    sample_value line3 (Z.of_nat (length line3) - Z.of_nat 3 + Z.of_nat k)%Z
    = XFin (1 + 2 * INR k)).
  { intros k Hk.
    destruct k as [|[|[|k]]]; [| | |lia];
      cbv [sample_value line3 map length Z.of_nat Pos.of_succ_nat Pos.succ
           Z.sub Z.add Z.opp Z.pos_sub Z.ltb Z.compare Z.to_nat Pos.to_nat
           Pos.iter_op Init.Nat.add lookup list_lookup sd_value
           Z.double Z.succ_double Z.pred_double Pos.pred_double Pos.compare
           Pos.compare_cont Pos.add];
      f_equal; simpl; lra. }
  destruct (analyze_trend_line line3 3 1 2 Hn Hline)
    as (Hslope & _ & Hup & _ & Hpos & _).
  split; [exact Hslope|].
  split; [apply Hup; lra|].
  apply Hpos; lra.
Defined.
(** ** Rate of change *)

Section RateExact.
Local Open Scope R_scope.

Lemma reading_at_nat {D : Type} `{DoubleOps D} (data : list (sensor_data_t D))
    (i : nat) (d : sensor_data_t D) :
  data !! i = Some d -> reading_at data (Z.of_nat i) = d.
Proof.
  intros Hd. unfold reading_at.
  destruct (Z.ltb_spec (Z.of_nat i) 0) as [Hneg|_]; [lia|].
  by rewrite Nat2Z.id, Hd.
Qed.

(** [calculate_rate_of_change] in exact arithmetic, on an array of at
    least two readings and a window of at least two.  With [first] the
    reading that opens the window (the whole array when the window is
    longer) and [final] the last reading, both finite, the result is the
    change in value per second of elapsed time, the timestamps being taken
    to the nanosecond; it is 0 when no time has elapsed or the clock went
    backwards. *)
Theorem rate_of_change_per_second (data : list (sensor_data_t xreal))
    (window_size : Z) (first final : sensor_data_t xreal) (v1 v2 : R) :
  (2 <= length data)%nat -> (2 <= window_size)%Z ->
  data !! (length data - Z.to_nat window_size)%nat = Some first ->
  last data = Some final ->
  sd_value first = XFin v1 -> sd_value final = XFin v2 ->
  let elapsed :=
    IZR (pt_timestamp (sd_timestamp final) - pt_timestamp (sd_timestamp first))
    + IZR (pt_nanoseconds (sd_timestamp final)
           - pt_nanoseconds (sd_timestamp first)) / 1000000000 in
  calculate_rate_of_change data (Z.of_nat (length data)) window_size
  = XFin (if bool_decide (0 < elapsed) then (v2 - v1) / elapsed else 0).
Proof.
  intros Hlen Hwin Hfirst Hfinal Hv1 Hv2 elapsed.
  unfold calculate_rate_of_change.
  destruct (Z.ltb_spec (Z.of_nat (length data)) 2) as [Hlt|_]; [lia|].
  destruct (Z.ltb_spec window_size 2) as [Hlt|_]; [lia|].
  cbn [orb].
  set (start_idx := if (window_size <=? Z.of_nat (length data))%Z
                    then (Z.of_nat (length data) - window_size)%Z else 0%Z).
  assert (Hstart : start_idx
                   = Z.of_nat (length data - Z.to_nat window_size)).
  { subst start_idx.
    destruct (Z.leb_spec window_size (Z.of_nat (length data))); lia. }
  destruct (Z.leb_spec (Z.of_nat (length data) - 1) start_idx) as [Hle|_];
    [lia|].
  rewrite Hstart, (reading_at_nat data _ first Hfirst).
  replace (Z.of_nat (length data) - 1)%Z
    with (Z.of_nat (length data - 1)) by lia.
  rewrite (reading_at_nat data _ final)
    by (rewrite <- Hfinal, last_lookup; f_equal; lia).
  rewrite Hv1, Hv2. unfold time_diff_ms.
  set (ds := (pt_timestamp (sd_timestamp final)
              - pt_timestamp (sd_timestamp first))%Z) in * .
  set (dns := (pt_nanoseconds (sd_timestamp final)
               - pt_nanoseconds (sd_timestamp first))%Z) in * .
  assert (H1000 : Q2R 1000 = 1000) by (unfold Q2R; simpl; lra).
  assert (H1e6 : Q2R 1000000 = 1000000) by (unfold Q2R; simpl; lra).
  change (d_of_int ds) with (XFin (IZR ds)).
  change (d_of_int dns) with (XFin (IZR dns)).
  change (d_lit 1000) with (XFin (Q2R 1000)).
  change (d_lit 1000000) with (XFin (Q2R 1000000)).
  rewrite H1000, H1e6.
  rewrite (xdiv_fin (IZR dns)) by lra.
  change (XFin (IZR ds) *. XFin 1000 +. XFin (IZR dns / 1000000))
    with (XFin (IZR ds * 1000 + IZR dns / 1000000)).
  rewrite xdiv_fin by lra.
  assert (Hsame : (IZR ds * 1000 + IZR dns / 1000000) / 1000 = elapsed).
  { subst elapsed. field. }
  rewrite Hsame.
  change (XFin elapsed >. d_of_int 0) with (bool_decide (0 < elapsed)).
  destruct (bool_decide_reflect (0 < elapsed)) as [Hpos|Hnot].
  - change (XFin v2 -. XFin v1) with (XFin (v2 - v1)).
    by rewrite xdiv_fin by lra.
  - by rewrite xlit_zero.
Qed.

End RateExact.

(** ** The frequency the bridge classifier reports *)

Section BridgeFrequency.
Context {D : Type} `{DoubleOps D}.

(** The dominant frequency the bridge classifier reports, for an array of
    at least 10 readings, is the number of strict interior local maxima of
    the values divided by [0.1 * count] seconds (0 when there is no such
    maximum), and the message is the one of the status. *)
Theorem bridge_frequency_and_message (data : list (sensor_data_t D)) :
  (10 <= length data)%nat ->
  (Z.of_nat (length data) <= INT_MAX)%Z ->
  let analysis := analyze_bridge_vibration data (Z.of_nat (length data)) in
  ba_dominant_frequency analysis = frequency_at_100ms (map sd_value data)
  /\ ba_safety_message analysis
     = match ba_safety_status analysis with
       | 0%Z => "Normal vibration levels - Bridge is safe"
       | 1%Z => "Elevated vibration levels - Monitor closely"
       | _ => "CRITICAL: Excessive vibration - Immediate inspection required"
       end.
Proof.
  intros Hmany Hmax analysis. subst analysis.
  unfold analyze_bridge_vibration.
  destruct (Z.ltb_spec (Z.of_nat (length data)) 10) as [Hlt|_]; [lia|].
  pose proof (sample_values_from data []) as Hvalues.
  cbn [app length] in Hvalues. change (Z.of_nat 0) with 0%Z in Hvalues.
  rewrite Hvalues.
  pose proof (frequency_loop_result (map sd_value data)) as Hloop.
  rewrite length_map in Hloop. rewrite Hloop by lia.
  destruct (bridge_sums data (Z.of_nat (length data))) as [sum_squares peak].
  unfold frequency_at_100ms, peak_frequency. rewrite length_map.
  destruct ((d_sqrt (sum_squares /. d_of_int (Z.of_nat (length data)))
             <. d_lit (1 # 10)) && (peak <. d_lit (3 # 10))); [done|].
  destruct ((d_sqrt (sum_squares /. d_of_int (Z.of_nat (length data)))
             <. d_lit (3 # 10)) && (peak <. d_lit (8 # 10))); done.
Qed.

End BridgeFrequency.

Lemma detect_anomalies_batch_counts_witness :
  (Z.of_nat (length one_spike) <= INT_MAX)%Z
  /\ fst (detect_anomalies_batch float_fmt_f one_spike 11 config4) = 1%Z
  /\ map ar_is_anomaly
       (snd (detect_anomalies_batch float_fmt_f one_spike 11 config4))
     = [0; 0; 0; 0; 0; 0; 0; 0; 0; 0; 1]%Z.
Proof.
  assert (Hmax : (Z.of_nat (length one_spike) <= INT_MAX)%Z)
    by (vm_compute; discriminate).
  split; [exact Hmax|].
  destruct (detect_anomalies_batch_counts float_fmt_f one_spike config4 Hmax)
    as [Hbatch _].
  change (Z.of_nat (length one_spike)) with 11%Z in Hbatch.
  rewrite Hbatch. split; vm_compute; reflexivity.
Defined.

Lemma detect_anomalies_batch_short_witness :
  violent9 <> []
  /\ (Z.of_nat (length violent9) < ac_min_samples_for_analysis config20)%Z
  /\ detect_anomalies_batch float_fmt_f violent9 9 config20
     = (0%Z,
        map (fun d => mk_anomaly_result 0 (d_lit 0) "Normal" (sd_timestamp d))
          violent9).
Proof.
  assert (Hne : violent9 <> []) by discriminate.
  assert (Hmax : (Z.of_nat (length violent9) <= INT_MAX)%Z)
    by (vm_compute; discriminate).
  assert (Hshort :
    (Z.of_nat (length violent9) < ac_min_samples_for_analysis config20)%Z)
    by (vm_compute; reflexivity).
  split; [exact Hne|]. split; [exact Hshort|].
  exact (detect_anomalies_batch_short float_fmt_f violent9 config20
           Hne Hmax Hshort).
Defined.

Lemma rate_of_change_per_second_witness :
  calculate_rate_of_change ramp2 2 2 = XFin 2.
Proof.
  assert (Hlen : (2 <= length ramp2)%nat) by (simpl; lia).
  assert (Hwin : (2 <= 2)%Z) by lia.
  change 2%Z with (Z.of_nat (length ramp2)) at 1.
  rewrite (rate_of_change_per_second ramp2 2
             (mk_sensor_data 0 (XFin 1) (mk_time 1700000000 0) "C" "Probe")
             (mk_sensor_data 0 (XFin 4) (mk_time 1700000001 500000000)
                "C" "Probe")
             1 4 Hlen Hwin eq_refl eq_refl eq_refl eq_refl).
  cbn [sd_timestamp pt_timestamp pt_nanoseconds].
  change (1700000001 - 1700000000)%Z with 1%Z.
  change (500000000 - 0)%Z with 500000000%Z.
  rewrite bool_decide_eq_true_2 by lra.
  f_equal. lra.
Defined.

Lemma bridge_frequency_and_message_witness :
  ba_dominant_frequency (analyze_bridge_vibration quiet10 10)
  = frequency_at_100ms (map sd_value quiet10)
  /\ ba_safety_message (analyze_bridge_vibration quiet10 10)
     = "Normal vibration levels - Bridge is safe".
Proof.
  assert (Hmany : (10 <= length quiet10)%nat) by (vm_compute; lia).
  assert (Hmax : (Z.of_nat (length quiet10) <= INT_MAX)%Z)
    by (vm_compute; discriminate).
  destruct (bridge_frequency_and_message quiet10 Hmany Hmax) as [Hf Hm].
  split; [exact Hf|].
  change (Z.of_nat (length quiet10)) with 10%Z in Hm.
  rewrite Hm. vm_compute. reflexivity.
Defined.

(** ** Finalizing in the middle of a stream *)

Section StatisticsCallsFacts.
Context {D : Type} `{DoubleOps D}.

Lemma same_raw_update (s t : statistics_t D) (v : D) :
  same_raw s t -> same_raw (update_statistics s v) (update_statistics t v).
Proof.
  intros (Hc & Hs & Hq & Hmin & Hmax). unfold same_raw, update_statistics.
  cbn [st_sample_count st_sum st_sum_squares st_min st_max].
  by rewrite Hc, Hs, Hq, Hmin, Hmax.
Qed.

Lemma same_raw_finalize (s t : statistics_t D) :
  same_raw s t -> same_raw (finalize_statistics s) t.
Proof.
  intros (Hc & Hs & Hq & Hmin & Hmax).
  destruct (finalize_keeps_raw s) as (Hc' & Hs' & Hq' & Hmin' & Hmax').
  unfold same_raw. by rewrite Hc', Hs', Hq', Hmin', Hmax'.
Qed.

Lemma finalize_from_raw (s t : statistics_t D) :
  same_raw s t -> st_sample_count t <> 0%Z ->
  finalize_statistics s = finalize_statistics t.
Proof.
  intros (Hc & Hs & Hq & Hmin & Hmax) Hn. unfold finalize_statistics.
  rewrite Hc, Hs, Hq, Hmin, Hmax.
  by destruct (Z.eqb_spec (st_sample_count t) 0).
Qed.

Lemma updates_snoc (calls : list (statistics_call D))
    (call : statistics_call D) :
  updates (calls ++ [call])
  = updates calls ++ match call with
                     | Update value => [value]
                     | Finalize => []
                     end.
Proof.
  unfold updates. rewrite omap_app. by destruct call.
Qed.

(** After any calls the structure agrees with the plain accumulation on
    the raw fields, and is still the initial one when no value was taken. *)
Lemma run_statistics_raw (calls : list (statistics_call D)) :
  same_raw (run_statistics calls init_statistics) (accumulate (updates calls))
  /\ (updates calls = [] -> run_statistics calls init_statistics = init_statistics).
Proof.
  induction calls as [|call calls [IHraw IHinit]] using rev_ind.
  - split; [by repeat split|done].
  - unfold run_statistics in * . rewrite fold_left_app. cbn [fold_left].
    rewrite updates_snoc. destruct call as [value|].
    + split.
      * unfold accumulate in * . rewrite fold_left_app. cbn [fold_left].
        by apply same_raw_update.
      * intros Hnil. by destruct (updates calls).
    + rewrite app_nil_r. split.
      * by apply same_raw_finalize.
      * intros Hnil. by rewrite (IHinit Hnil).
Qed.

(** Finalizing in the middle of a stream is harmless.  The monitoring loop
    calls [finalize_statistics] after every sample past the twentieth and
    goes on calling [update_statistics] on the same structure.  Whatever
    the interleaving, finalizing at the end gives exactly the statistics of
    finalizing once after all the updates (for no more values than an
    [int] can count). *)
Theorem finalize_midstream (calls : list (statistics_call D)) :
  (Z.of_nat (length (updates calls)) <= INT_MAX)%Z ->
  finalize_statistics (run_statistics calls init_statistics)
  = finalize_statistics (accumulate (updates calls)).
Proof.
  intros Hmax. destruct (run_statistics_raw calls) as [Hraw Hinit].
  destruct (updates calls) as [|v vs] eqn:Hvalues.
  - by rewrite Hinit.
  - apply finalize_from_raw; [done|].
    unfold accumulate. rewrite accumulate_from_count;
      cbn [init_statistics st_sample_count length] in * ; lia.
Qed.

End StatisticsCallsFacts.

Lemma finalize_midstream_witness :
  finalize_statistics
    (run_statistics [Update 0.5%float; Finalize; Update 1.5%float; Finalize;
                     Update 0.5%float] init_statistics)
  = finalize_statistics (accumulate [0.5; 1.5; 0.5]%float).
Proof.
  apply (finalize_midstream
           [Update 0.5%float; Finalize; Update 1.5%float; Finalize;
            Update 0.5%float]).
  vm_compute. discriminate.
Defined.

(** * The command line *)

Section CommandLineFacts.
Variable libc : libc_t float.

Lemma parse_args_loop_valid (n : nat) (args : list string)
    (opts : cli_options float) :
  (length args <= n)%nat ->
  options_valid opts ->
  let result := parse_args_loop libc args opts in
  (fst result = 0%Z \/ fst result = 1%Z \/ fst result = (-1)%Z)
  /\ (fst result = 0%Z -> options_valid (snd result)).
Proof.
  revert args opts.
  induction n as [|n IH]; intros args opts Hlen Hvalid.
  { destruct args; [|simpl in Hlen; lia]. cbn. split; [by left|done]. }
  assert (Hstop : forall arg,
    let result := help_or_unknown arg opts in
    (fst result = 0%Z \/ fst result = 1%Z \/ fst result = (-1)%Z)
    /\ (fst result = 0%Z -> options_valid (snd result))).
  { intros arg. unfold help_or_unknown.
    destruct (_ || _); cbn; (split; [auto|discriminate]). }
  destruct args as [|arg [|value rest]].
  - cbn. split; [by left|done].
  - apply Hstop.
  - cbn [parse_args_loop].
    assert (Hrest : (length rest <= n)%nat) by (simpl in Hlen; lia).
    destruct Hvalid as (Hduration & Hinterval & Hthreshold & Hmode).
    destruct (String.eqb arg "--hardware").
    { apply IH; [done|]. repeat split; try done.
      right. split; [done|by exists value]. }
    destruct (String.eqb arg "--duration").
    { cbn [cli_duration].
      destruct (Z.leb_spec (c_atoi libc value) 0) as [Hbad|Hgood].
      - cbn. split; [auto|discriminate].
      - apply IH; [done|]. repeat split; done. }
    destruct (String.eqb arg "--interval").
    { cbn [cli_interval].
      destruct (Z.leb_spec (c_atoi libc value) 0) as [Hbad|Hgood].
      - cbn. split; [auto|discriminate].
      - apply IH; [done|]. repeat split; done. }
    destruct (String.eqb arg "--output").
    { apply IH; [done|]. repeat split; done. }
    destruct (String.eqb arg "--threshold").
    { cbn [cli_threshold].
      destruct (c_atof libc value <=. d_of_int 0) eqn:Hcmp.
      - cbn. split; [auto|discriminate].
      - apply IH; [done|]. repeat split; done. }
    apply Hstop.
Qed.

(** [parse_command_line_args], for every argument vector and whatever
    [atoi] and [atof] read.  The status is 0, 1 (help) or -1.  When it is
    0 the options are usable: duration and interval are positive, the
    threshold is not [<= 0] (it may be a NaN), and hardware mode is set
    exactly when a device path was stored, so the test "hardware mode
    requires device path" in [main] can never fail. *)
Theorem parse_command_line_args_validated (argv : list string) :
  let status := fst (parse_command_line_args libc argv) in
  let opts := snd (parse_command_line_args libc argv) in
  (status = 0%Z \/ status = 1%Z \/ status = (-1)%Z)
  /\ (status = 0%Z -> options_valid opts).
Proof.
  unfold parse_command_line_args.
  apply (parse_args_loop_valid (length (tail argv))); [done|].
  repeat split; try done. by left.
Qed.

Lemma help_or_unknown_stops (arg : string) (opts opts1 : cli_options float) :
  help_or_unknown arg opts <> (0%Z, opts1).
Proof. unfold help_or_unknown. by destruct (_ || _). Qed.

Lemma parse_args_loop_snoc (n : nat) (args : list string) (last_arg : string)
    (opts opts1 : cli_options float) :
  (length args <= n)%nat ->
  parse_args_loop libc args opts = (0%Z, opts1) ->
  parse_args_loop libc (args ++ [last_arg]) opts
  = help_or_unknown last_arg opts1.
Proof.
  revert args opts.
  induction n as [|n IH]; intros args opts Hlen Hok.
  { destruct args; [|simpl in Hlen; lia]. cbn in * . by injection Hok as ->. }
  destruct args as [|arg [|value rest]].
  - cbn in * . by injection Hok as ->.
  - cbn in Hok. by apply help_or_unknown_stops in Hok.
  - assert (Hrest : (length rest <= n)%nat) by (simpl in Hlen; lia).
    cbn [app]. cbn [parse_args_loop] in * .
    destruct (rest ++ [last_arg]) as [|x rest'] eqn:Hsnoc.
    { by destruct rest. }
    rewrite <- Hsnoc. clear Hsnoc x rest'.
    destruct (String.eqb arg "--hardware"); [by apply IH|].
    destruct (String.eqb arg "--duration").
    { destruct (_ <=? 0)%Z; [done|by apply IH]. }
    destruct (String.eqb arg "--interval").
    { destruct (_ <=? 0)%Z; [done|by apply IH]. }
    destruct (String.eqb arg "--output"); [by apply IH|].
    destruct (String.eqb arg "--threshold").
    { destruct (_ <=. _); [done|by apply IH]. }
    by apply help_or_unknown_stops in Hok.
Qed.

(** An option that comes last has no value to take.  After arguments that
    parse with status 0, one more argument gives status 1 when it is
    "--help" or "-h" and -1 otherwise, also when it is "--duration" or
    another option that needs a value; the options read before it stay
    stored. *)
Theorem parse_trailing_option (program : string) (args : list string)
    (last_arg : string) (opts : cli_options float) :
  parse_command_line_args libc (program :: args) = (0%Z, opts) ->
  parse_command_line_args libc (program :: args ++ [last_arg])
  = (if String.eqb last_arg "--help" || String.eqb last_arg "-h"
     then 1%Z else (-1)%Z, opts).
Proof.
  unfold parse_command_line_args. cbn [tail]. intros Hok.
  rewrite (parse_args_loop_snoc (length args) args last_arg _ opts) by done.
  unfold help_or_unknown. by destruct (_ || _).
Qed.

End CommandLineFacts.

Lemma parse_command_line_args_validated_witness :
  fst (parse_command_line_args decimal_libc argv_hardware) = 0%Z
  /\ options_valid (snd (parse_command_line_args decimal_libc argv_hardware))
  /\ snd (parse_command_line_args decimal_libc argv_hardware)
     = mk_cli_options (Some "/dev/ttyUSB0") 300 100 None 2.5%float 1.
Proof.
  assert (Hstatus :
    fst (parse_command_line_args decimal_libc argv_hardware) = 0%Z)
    by (vm_compute; reflexivity).
  split; [exact Hstatus|]. split.
  - exact (proj2 (parse_command_line_args_validated decimal_libc argv_hardware)
             Hstatus).
  - vm_compute. reflexivity.
Defined.

Lemma parse_trailing_option_witness :
  parse_command_line_args decimal_libc (argv_hardware ++ ["--interval"])
  = ((-1)%Z, mk_cli_options (Some "/dev/ttyUSB0") 300 100 None 2.5%float 1).
Proof.
  apply (parse_trailing_option decimal_libc "datalogger"
           (tail argv_hardware) "--interval").
  vm_compute. reflexivity.
Defined.

(** * [clamp] and the order of binary64 *)

Section FloatOrder.

Lemma SFcompare_swap (x y : spec_float) :
  SFcompare y x = option_map CompOpp (SFcompare x y).
Proof.
  destruct x as [sx|sx| |sx mx ex], y as [sy|sy| |sy my ey];
    try reflexivity; try (by destruct sx); try (by destruct sy);
    try (by destruct sx, sy).
  cbn [SFcompare option_map].
  rewrite (Z.compare_antisym ex ey).
  pose proof (Pos.compare_cont_antisym mx my Eq) as Hanti.
  cbn [CompOpp] in Hanti. rewrite <- Hanti.
  destruct sx, sy; try reflexivity;
    destruct (ex ?= ey)%Z; cbn [CompOpp]; try reflexivity;
    destruct (Pos.compare_cont Eq mx my); reflexivity.
Qed.

Lemma SFcompare_refl (x : spec_float) :
  SFcompare x x = None \/ SFcompare x x = Some Eq.
Proof.
  destruct x as [s|s| |s m e]; cbn [SFcompare]; auto.
  - right. by destruct s.
  - right. rewrite Z.compare_refl.
    change (Pos.compare_cont Eq m m) with (m ?= m)%positive.
    rewrite Pos.compare_refl. by destruct s.
Qed.

Lemma SFcompare_nan (x y : spec_float) :
  SFcompare x x = None -> SFcompare x y = None /\ SFcompare y x = None.
Proof.
  destruct x as [s|s| |s m e]; cbn [SFcompare]; try discriminate.
  intros _. by destruct y.
Qed.

Lemma SFcompare_numbers (x y : spec_float) :
  SFcompare x y = None -> SFcompare x x = None \/ SFcompare y y = None.
Proof.
  destruct x as [sx|sx| |sx mx ex], y as [sy|sy| |sy my ey];
    cbn [SFcompare]; try discriminate; auto;
    try (by destruct sx); try (by destruct sy).
Qed.

(** A binary64 value is a number when it equals itself. *)
Lemma float_not_below (x y : float) :
  (x <. y) = false -> (x ==. x) = true -> (y ==. y) = true ->
  (y <=. x) = true.
Proof.
  cbn [d_ltb d_leb d_eqb binary64].
  rewrite FloatAxioms.ltb_spec, FloatAxioms.leb_spec, !FloatAxioms.eqb_spec.
  unfold SFltb, SFleb, SFeqb. rewrite (SFcompare_swap (Prim2SF x) (Prim2SF y)).
  destruct (SFcompare (Prim2SF x) (Prim2SF y)) as [[| |]|] eqn:Hxy;
    cbn [option_map CompOpp]; try done.
  intros _ Hx Hy.
  destruct (SFcompare_numbers _ _ Hxy) as [Hn|Hn]; rewrite Hn in * ; done.
Qed.

Lemma float_le_numbers (x y : float) :
  (x <=. y) = true -> (x ==. x) = true /\ (y ==. y) = true.
Proof.
  cbn [d_leb d_eqb binary64]. rewrite FloatAxioms.leb_spec, !FloatAxioms.eqb_spec.
  unfold SFleb, SFeqb. intros Hle.
  destruct (SFcompare_refl (Prim2SF x)) as [Hx|Hx].
  { destruct (SFcompare_nan _ (Prim2SF y) Hx) as [Hxy _].
    by rewrite Hxy in Hle. }
  destruct (SFcompare_refl (Prim2SF y)) as [Hy|Hy].
  { destruct (SFcompare_nan _ (Prim2SF x) Hy) as [_ Hxy].
    by rewrite Hxy in Hle. }
  by rewrite Hx, Hy.
Qed.

Lemma float_le_refl (x : float) : (x ==. x) = true -> (x <=. x) = true.
Proof.
  cbn [d_leb d_eqb binary64]. rewrite FloatAxioms.leb_spec, FloatAxioms.eqb_spec.
  unfold SFleb, SFeqb. by destruct (SFcompare (Prim2SF x) (Prim2SF x)) as [[| |]|].
Qed.

Lemma float_le_not_above (x y : float) :
  (x <=. y) = true -> (y <. x) = false.
Proof.
  cbn [d_ltb d_leb binary64]. rewrite FloatAxioms.ltb_spec, FloatAxioms.leb_spec.
  unfold SFltb, SFleb. rewrite (SFcompare_swap (Prim2SF x) (Prim2SF y)).
  by destruct (SFcompare (Prim2SF x) (Prim2SF y)) as [[| |]|].
Qed.

Lemma float_nan_unordered (x y : float) :
  (x ==. x) = false -> (x <. y) = false /\ (y <. x) = false.
Proof.
  cbn [d_ltb d_eqb binary64]. rewrite !FloatAxioms.ltb_spec, FloatAxioms.eqb_spec.
  unfold SFltb, SFeqb. intros Hx.
  destruct (SFcompare_refl (Prim2SF x)) as [Hn|Hn]; [|by rewrite Hn in Hx].
  destruct (SFcompare_nan _ (Prim2SF y) Hn) as [-> ->]. done.
Qed.

(** A number clamped between ordered bounds is between them. *)
Lemma clamp_between (value lo hi : float) :
  (lo <=. hi) = true -> (value ==. value) = true ->
  (lo <=. clamp value lo hi) = true /\ (clamp value lo hi <=. hi) = true.
Proof.
  intros Hbounds Hvalue.
  destruct (float_le_numbers lo hi Hbounds) as [Hlo Hhi].
  unfold clamp.
  destruct (value <. lo) eqn:Hbelow.
  { split; [by apply float_le_refl|done]. }
  destruct (value >. hi) eqn:Habove.
  { split; [done|by apply float_le_refl]. }
  split; by apply float_not_below.
Qed.

(** [clamp] on binary64.  With ordered bounds, a value that is a number
    (not a NaN; infinities included) is brought between the bounds, and a
    value already between them is returned as it is.  A NaN is returned
    as it is, whatever the bounds. *)
Theorem clamp_binary64 (value lo hi : float) :
  let clamped := clamp value lo hi in
  ((lo <=. hi) = true -> (value ==. value) = true ->
   (lo <=. clamped) = true /\ (clamped <=. hi) = true)
  /\ ((lo <=. value) = true -> (value <=. hi) = true -> clamped = value)
  /\ ((value ==. value) = false -> clamped = value).
Proof.
  intros clamped. subst clamped.
  split; [apply clamp_between|]. split.
  - intros Hlo Hhi. unfold clamp.
    by rewrite (float_le_not_above lo value Hlo),
               (float_le_not_above value hi Hhi).
  - intros Hnan. unfold clamp.
    destruct (float_nan_unordered value lo Hnan) as [-> _].
    by destruct (float_nan_unordered value hi Hnan) as [_ ->].
Qed.

End FloatOrder.

Lemma clamp_binary64_witness :
  clamp 1.5%float 0%float 1%float = 1%float
  /\ (0%float <=. clamp infinity 0%float 1%float) = true
  /\ clamp 0.25%float 0%float 1%float = 0.25%float
  /\ clamp nan 0%float 1%float = nan.
Proof.
  destruct (clamp_binary64 0.25%float 0%float 1%float) as (_ & Hfix & _).
  destruct (clamp_binary64 infinity 0%float 1%float) as (Hin & _ & _).
  destruct (clamp_binary64 nan 0%float 1%float) as (_ & _ & Hnan).
  split; [vm_compute; reflexivity|].
  split; [apply Hin; vm_compute; reflexivity|].
  split; [apply Hfix; vm_compute; reflexivity|].
  apply Hnan. vm_compute. reflexivity.
Defined.

(** * The sensor simulator *)

Section SimulatorFacts.
Variable libm : libm_t float.

Lemma float_abs_nonneg (x : float) :
  (d_fabs x ==. d_fabs x) = true -> (d_lit 0 <=. d_fabs x) = true.
Proof.
  rewrite binary64_zero. cbn [d_fabs d_leb d_eqb binary64].
  rewrite FloatAxioms.leb_spec, FloatAxioms.eqb_spec, FloatAxioms.abs_spec.
  replace (Prim2SF 0) with (S754_zero false) by reflexivity.
  destruct (Prim2SF x) as [s|s| |s m e]; cbn; done.
Qed.

Lemma started_initialized (w : world) (sim : simulator_t float) :
  sim_initialized (started w sim) <> 0%Z.
Proof.
  unfold started, init_sensor_simulator.
  by destruct (Z.eqb_spec (sim_initialized sim) 0) as [Hz|Hnz].
Qed.

Lemma started_again (w : world) (sim : simulator_t float) :
  sim_initialized sim <> 0%Z -> started w sim = sim.
Proof.
  intros Hinit. unfold started.
  by destruct (Z.eqb_spec (sim_initialized sim) 0).
Qed.

(** The value a reading of a given type is constrained to. *)
Lemma constrained_value (type : Z) (value : float) :
  let value1 :=
    if (type =? 0)%Z then clamp value (d_lit (-50)) (d_lit 80)
    else if (type =? 3)%Z then clamp value (d_lit 0) (d_lit 100)
    else if (type =? 4)%Z then clamp value (d_lit 800) (d_lit 1200)
    else if (type =? 1)%Z then d_fabs value
    else value in
  (value1 ==. value1) = true ->
  (type = 0%Z -> within (d_lit (-50)) (d_lit 80) value1)
  /\ (type = 3%Z -> within (d_lit 0) (d_lit 100) value1)
  /\ (type = 4%Z -> within (d_lit 800) (d_lit 1200) value1)
  /\ (type = 1%Z -> (d_lit 0 <=. value1) = true).
Proof.
  intros value1 Hnumber. subst value1. unfold within.
  assert (Hclamp : forall lo hi,
    (lo <=. hi) = true -> (clamp value lo hi ==. clamp value lo hi) = true ->
    (lo <=. clamp value lo hi) = true /\ (clamp value lo hi <=. hi) = true).
  { intros lo hi Hbounds Hn.
    destruct (value ==. value) eqn:Hvalue; [by apply clamp_between|].
    unfold clamp in Hn |- * .
    destruct (float_nan_unordered value lo Hvalue) as [Hlo _].
    destruct (float_nan_unordered value hi Hvalue) as [_ Hhi].
    rewrite Hlo, Hhi in Hn. congruence. }
  split; [intros ->; cbn [Z.eqb] in * ; by apply Hclamp|].
  split; [intros ->; cbn [Z.eqb] in * ; by apply Hclamp|].
  split; [intros ->; cbn [Z.eqb] in * ; by apply Hclamp|].
  intros ->. cbn [Z.eqb] in * . by apply float_abs_nonneg.
Qed.

(** One reading of a valid type. *)
Lemma generate_sensor_data_valid (type : Z) (w : world)
    (sim : simulator_t float) :
  (0 <= type < 8)%Z ->
  exists (value : float) (drawn : nat),
    generate_sensor_data libm type w sim
    = (mk_sensor_data type
         (if (type =? 0)%Z then clamp value (d_lit (-50)) (d_lit 80)
          else if (type =? 3)%Z then clamp value (d_lit 0) (d_lit 100)
          else if (type =? 4)%Z then clamp value (d_lit 800) (d_lit 1200)
          else if (type =? 1)%Z then d_fabs value
          else value)
         (w_clock w)
         (fst (default ("", "") (sensor_metadata !! Z.to_nat type)))
         (snd (default ("", "") (sensor_metadata !! Z.to_nat type))),
       mk_simulator (sim_configs (started w sim))
         (sim_initialized (started w sim))
         (unsigned_wrap (sim_step (started w sim) + 1))
         (sim_seed (started w sim)) drawn)
    /\ (sim_drawn (started w sim) + 2 <= drawn
        <= sim_drawn (started w sim) + 3)%nat.
Proof.
  intros Htype. unfold generate_sensor_data. fold (started w sim).
  destruct (Z.ltb_spec type 0) as [Hneg|_]; [lia|].
  destruct (Z.leb_spec 8 type) as [Hbig|_]; [lia|].
  cbn [orb]. unfold generate_noise, generate_anomaly, rand.
  cbn [sim_configs sim_initialized sim_step sim_seed sim_drawn].
  destruct (Z.rem _ 100 <? _)%Z;
    cbn [sim_configs sim_initialized sim_step sim_seed sim_drawn];
    eexists _, _; (split; [reflexivity|lia]).
Qed.

(** [generate_sensor_data] on binary64, whatever [sin] and [rand] return.
    A type outside 0..7 gives the reading "Invalid sensor type" of value
    0.0 and neither draws a random number nor advances the step counter.
    A valid type advances the counter by one (modulo 2^32), draws two or
    three random numbers, and its value, when it is a number, lies in
    [-50, 80] for temperature, [0, 100] for humidity, [800, 1200] for
    pressure, and is not negative for vibration. *)
Theorem generate_sensor_data_ranges (type : Z) (w : world)
    (sim : simulator_t float) :
  let data := fst (generate_sensor_data libm type w sim) in
  let sim' := snd (generate_sensor_data libm type w sim) in
  ((type < 0)%Z \/ (8 <= type)%Z ->
   data = mk_sensor_data type (d_lit 0) (w_clock w) "N/A" "Invalid sensor type"
   /\ sim' = started w sim)
  /\ ((0 <= type < 8)%Z ->
      sd_type data = type
      /\ sim_step sim' = unsigned_wrap (sim_step (started w sim) + 1)
      /\ (sim_drawn (started w sim) + 2 <= sim_drawn sim'
          <= sim_drawn (started w sim) + 3)%nat
      /\ ((sd_value data ==. sd_value data) = true ->
          (type = 0%Z -> within (d_lit (-50)) (d_lit 80) (sd_value data))
          /\ (type = 3%Z -> within (d_lit 0) (d_lit 100) (sd_value data))
          /\ (type = 4%Z -> within (d_lit 800) (d_lit 1200) (sd_value data))
          /\ (type = 1%Z -> (d_lit 0 <=. sd_value data) = true))).
Proof.
  intros data sim'. split.
  - intros Hbad. subst data sim'. unfold generate_sensor_data.
    fold (started w sim).
    assert (Hout : ((type <? 0)%Z || (8 <=? type)%Z) = true).
    { apply orb_true_iff. destruct Hbad; [left; by apply Z.ltb_lt|
                                         right; by apply Z.leb_le]. }
    by rewrite Hout.
  - intros Htype.
    destruct (generate_sensor_data_valid type w sim Htype)
      as (value & drawn & Hrun & Hdrawn).
    subst data sim'. rewrite Hrun.
    cbn [fst snd sd_type sd_value sim_step sim_drawn].
    split; [done|]. split; [done|]. split; [done|].
    apply constrained_value.
Qed.

(** [generate_bridge_vibration_data] on binary64, whatever [sin] and
    [rand] return: a vibration reading (type 1, unit m/s², description
    "Bridge Vibration") stamped with the current time, whose value, when
    it is a number, lies in [0, 1]; the step counter advances by one. *)
Theorem bridge_vibration_in_range (w : world) (sim : simulator_t float) :
  let data := fst (generate_bridge_vibration_data libm w sim) in
  let sim' := snd (generate_bridge_vibration_data libm w sim) in
  sd_type data = 1%Z
  /\ sd_unit data = "m/s²"
  /\ sd_description data = "Bridge Vibration"
  /\ sd_timestamp data = w_clock w
  /\ ((sd_value data ==. sd_value data) = true ->
      within (d_lit 0) (d_lit 1) (sd_value data))
  /\ sim_step sim' = unsigned_wrap (sim_step (started w sim) + 1)
  /\ sim_initialized sim' <> 0%Z.
Proof.
  intros data sim'. subst data sim'. unfold generate_bridge_vibration_data.
  destruct (generate_sensor_data_valid 1 w sim) as (value & drawn & -> & _);
    [lia|].
  cbn [fst snd sd_type sd_unit sd_description sd_timestamp sd_value
       sim_step sim_initialized].
  split; [done|]. split; [done|]. split; [done|]. split; [done|].
  split; [|split; [done|apply started_initialized]].
  intros Hnumber. unfold within.
  match goal with |- context [clamp ?v _ _] => set (raw := v) in * end.
  destruct (raw ==. raw) eqn:Hraw; [by apply clamp_between|].
  unfold clamp in Hnumber.
  destruct (float_nan_unordered raw (d_lit 0) Hraw) as [Hlo _].
  destruct (float_nan_unordered raw (d_lit 1) Hraw) as [_ Hhi].
  rewrite Hlo, Hhi in Hnumber. congruence.
Qed.

Lemma unsigned_wrap_add (z k : Z) :
  unsigned_wrap (unsigned_wrap z + k) = unsigned_wrap (z + k).
Proof. unfold unsigned_wrap. by rewrite Zplus_mod_idemp_l. Qed.

(** [generate_environmental_data_set] on binary64, whatever [sin] and
    [rand] return: it stores the count 3 and a temperature, a humidity and
    a pressure reading, in this order, whose values, when they are
    numbers, lie in [-50, 80], [0, 100] and [800, 1200]; the step counter
    advances by three. *)
Theorem environmental_set_in_range (w : world) (sim : simulator_t float) :
  let result := generate_environmental_data_set libm w sim in
  exists temperature humidity pressure : sensor_data_t float,
    fst (fst result) = [temperature; humidity; pressure]
    /\ snd (fst result) = 3%Z
    /\ sd_type temperature = 0%Z /\ sd_type humidity = 3%Z
    /\ sd_type pressure = 4%Z
    /\ ((sd_value temperature ==. sd_value temperature) = true ->
        within (d_lit (-50)) (d_lit 80) (sd_value temperature))
    /\ ((sd_value humidity ==. sd_value humidity) = true ->
        within (d_lit 0) (d_lit 100) (sd_value humidity))
    /\ ((sd_value pressure ==. sd_value pressure) = true ->
        within (d_lit 800) (d_lit 1200) (sd_value pressure))
    /\ sim_step (snd result) = unsigned_wrap (sim_step (started w sim) + 3).
Proof.
  intros result. subst result. unfold generate_environmental_data_set.
  destruct (generate_sensor_data_valid 0 w sim) as (v0 & n0 & -> & _); [lia|].
  match goal with |- context [generate_sensor_data libm 3 w ?s] =>
    destruct (generate_sensor_data_valid 3 w s) as (v1 & n1 & -> & _); [lia|];
    assert (Hstarted1 : started w s = s)
      by (apply started_again; cbn [sim_initialized];
          apply started_initialized)
  end.
  rewrite Hstarted1.
  match goal with |- context [generate_sensor_data libm 4 w ?s] =>
    destruct (generate_sensor_data_valid 4 w s) as (v2 & n2 & -> & _); [lia|];
    assert (Hstarted2 : started w s = s)
      by (apply started_again; cbn [sim_initialized];
          apply started_initialized)
  end.
  rewrite Hstarted2.
  cbn [Z.eqb sd_value sd_type sd_timestamp sd_unit sd_description
       sim_step sim_configs sim_initialized sim_seed].
  eexists _, _, _. split; [reflexivity|].
  cbn [fst snd sd_type sd_value sim_step].
  split; [done|]. split; [done|]. split; [done|]. split; [done|].
  assert (Hclamp : forall value lo hi : float,
    (lo <=. hi) = true -> (clamp value lo hi ==. clamp value lo hi) = true ->
    within lo hi (clamp value lo hi)).
  { intros value lo hi Hbounds Hn. unfold within.
    destruct (value ==. value) eqn:Hvalue; [by apply clamp_between|].
    unfold clamp in Hn |- * .
    destruct (float_nan_unordered value lo Hvalue) as [Hlo _].
    destruct (float_nan_unordered value hi Hvalue) as [_ Hhi].
    rewrite Hlo, Hhi in Hn. congruence. }
  split; [by apply Hclamp|]. split; [by apply Hclamp|].
  split; [by apply Hclamp|].
  rewrite unsigned_wrap_add, <- Z.add_assoc, unsigned_wrap_add,
    <- Z.add_assoc.
  reflexivity.
Qed.

End SimulatorFacts.

Lemma bridge_vibration_in_range_witness :
  within (d_lit 0) (d_lit 1)
    (sd_value (fst (generate_bridge_vibration_data flat_libm world_start
                      fresh_simulator)))
  /\ sim_step (snd (generate_bridge_vibration_data flat_libm world_start
                      fresh_simulator)) = 1%Z.
Proof.
  destruct (bridge_vibration_in_range flat_libm world_start fresh_simulator)
    as (_ & _ & _ & _ & Hrange & Hstep & _).
  split; [apply Hrange; vm_compute; reflexivity|].
  rewrite Hstep. vm_compute. reflexivity.
Defined.

Lemma generate_sensor_data_ranges_witness :
  within (d_lit (-50)) (d_lit 80)
    (sd_value (fst (generate_sensor_data flat_libm 0 world_start
                      fresh_simulator)))
  /\ snd (generate_sensor_data flat_libm 9 world_start fresh_simulator)
     = started world_start fresh_simulator.
Proof.
  destruct (generate_sensor_data_ranges flat_libm 0 world_start
              fresh_simulator) as [_ Hvalid].
  destruct (generate_sensor_data_ranges flat_libm 9 world_start
              fresh_simulator) as [Hinvalid _].
  split.
  - destruct Hvalid as (_ & _ & _ & Hrange); [lia|].
    destruct Hrange as [Htemperature _]; [vm_compute; reflexivity|].
    by apply Htemperature.
  - apply Hinvalid. right. lia.
Defined.

Lemma environmental_set_in_range_witness :
  map sd_type
    (fst (fst (generate_environmental_data_set flat_libm world_start
                 fresh_simulator))) = [0; 3; 4]%Z
  /\ sim_step (snd (generate_environmental_data_set flat_libm world_start
                      fresh_simulator)) = 3%Z.
Proof.
  destruct (environmental_set_in_range flat_libm world_start fresh_simulator)
    as (t & h & p & Hset & _ & Ht & Hh & Hp & _ & _ & _ & Hstep).
  split.
  - rewrite Hset. cbn [map]. by rewrite Ht, Hh, Hp.
  - rewrite Hstep. vm_compute. reflexivity.
Defined.

(** * The hardware line formats *)

Section ParserFacts.
Context {D : Type} `{DoubleOps D}.
Variable libc : libc_t D.

Lemma split_on_clean (c : Ascii.ascii) (s : string) :
  occurs c s = false -> split_on c s = [s].
Proof.
  induction s as [|a s IH]; [done|].
  cbn [occurs split_on]. intros [Ha Hs]%orb_false_iff.
  by rewrite Ha, IH.
Qed.

Lemma split_on_app (c : Ascii.ascii) (s t : string) :
  occurs c s = false ->
  split_on c (s +:+ String c t) = s :: split_on c t.
Proof.
  induction s as [|a s IH].
  - intros _. change ("" +:+ String c t) with (String c t).
    cbn [split_on]. by rewrite Ascii.eqb_refl.
  - rewrite string_app_cons. cbn [occurs split_on].
    intros [Ha Hs]%orb_false_iff. by rewrite Ha, IH.
Qed.

Lemma strtok_all_app (s t : string) :
  s <> EmptyString -> occurs ":" s = false ->
  strtok_all ":" (s +:+ String ":" t) = s :: strtok_all ":" t.
Proof.
  intros Hne Hs. unfold strtok_all.
  rewrite split_on_app by done. by rewrite filter_cons, decide_True.
Qed.

Lemma strtok_all_clean (s : string) :
  s <> EmptyString -> occurs ":" s = false -> strtok_all ":" s = [s].
Proof.
  intros Hne Hs. unfold strtok_all.
  rewrite split_on_clean by done. by rewrite filter_cons, decide_True.
Qed.

Lemma substring_all (n : nat) (s : string) :
  (String.length s <= n)%nat -> String.substring 0 n s = s.
Proof.
  revert n. induction s as [|a s IH]; intros n Hlen.
  - by destruct n.
  - destruct n as [|n]; [simpl in Hlen; lia|].
    cbn [String.substring]. rewrite IH; [done|simpl in Hlen; lia].
Qed.

Lemma cut_at_first_absent (c : Ascii.ascii) (s : string) :
  occurs c s = false -> cut_at_first c s = s.
Proof.
  induction s as [|a s IH]; [done|].
  cbn [occurs cut_at_first]. intros [Ha Hs]%orb_false_iff.
  by rewrite Ha, IH.
Qed.

(** A line within 255 characters that ends in a line feed, and has neither
    line feed nor carriage return before it, is received whole. *)
Lemma received_line_whole (body : string) :
  occurs (Ascii.ascii_of_nat 10) body = false ->
  occurs (Ascii.ascii_of_nat 13) body = false ->
  (String.length body < 255)%nat ->
  received_line (body +:+ newline) = body.
Proof.
  intros Hlf Hcr Hlen. unfold received_line, newline.
  rewrite substring_all by (rewrite string_app_length; simpl; lia).
  rewrite cut_at_first_app by done. by apply cut_at_first_absent.
Qed.

Lemma arduino_type_is_field (token : string) (type : Z) :
  arduino_type token = Some type -> is_field token /\ (0 <= type < 8)%Z.
Proof.
  unfold arduino_type.
  repeat (match goal with
          | |- context [String.eqb token ?name] =>
              destruct (String.eqb_spec token name) as [->|_]
          end;
          [intros [= <-]; split; [by repeat split|lia]|]).
  done.
Qed.

(** The Arduino format read back.  A line
    [SENSOR:TYPE:VALUE:UNIT:DESCRIPTION] ended by a line feed, within 255
    characters, whose type is one of the eight names and whose value,
    unit and description are non-empty and free of colons and line
    terminators, parses with status 0 into the type code of the name, the
    value [atof] reads, the first 15 characters of the unit and the first
    63 of the description; the timestamp is left as it was. *)
Theorem parse_arduino_well_formed (type_name value unit description : string)
    (type : Z) (sensor_data : sensor_data_t D) :
  arduino_type type_name = Some type ->
  is_field value -> is_field unit -> is_field description ->
  (String.length ("SENSOR:" +:+ type_name +:+ ":" +:+ value +:+ ":" +:+ unit
                  +:+ ":" +:+ description) < 255)%nat ->
  parse_arduino_sensor_data libc
    ("SENSOR:" +:+ type_name +:+ ":" +:+ value +:+ ":" +:+ unit +:+ ":"
     +:+ description +:+ newline) sensor_data
  = (0%Z,
     mk_sensor_data type (c_atof libc value) (sd_timestamp sensor_data)
       (String.substring 0 15 unit) (String.substring 0 63 description)).
Proof.
  intros Htype Hvalue Hunit Hdescription Hlen.
  destruct (arduino_type_is_field _ _ Htype) as [Hname _].
  destruct Hname as (Hn0 & Hn1 & Hn2 & Hn3).
  destruct Hvalue as (Hv0 & Hv1 & Hv2 & Hv3).
  destruct Hunit as (Hu0 & Hu1 & Hu2 & Hu3).
  destruct Hdescription as (Hd0 & Hd1 & Hd2 & Hd3).
  unfold parse_arduino_sensor_data.
  set (body := "SENSOR:" +:+ type_name +:+ ":" +:+ value +:+ ":" +:+ unit
               +:+ ":" +:+ description) in * .
  replace ("SENSOR:" +:+ type_name +:+ ":" +:+ value +:+ ":" +:+ unit +:+ ":"
           +:+ description +:+ newline)
    with (body +:+ newline)
    by (subst body; by rewrite !string_app_assoc).
  rewrite received_line_whole; [|subst body..|done].
  2,3: rewrite !occurs_app; cbn [occurs];
       rewrite ?Hn2, ?Hv2, ?Hu2, ?Hd2, ?Hn3, ?Hv3, ?Hu3, ?Hd3; reflexivity.
  assert (Htokens : strtok_all ":" body
                    = ["SENSOR"; type_name; value; unit; description]).
  { subst body.
    change ("SENSOR:" +:+ type_name +:+ ":" +:+ value +:+ ":" +:+ unit
            +:+ ":" +:+ description)
      with ("SENSOR" +:+ String ":" (type_name +:+ ":" +:+ value +:+ ":"
                                     +:+ unit +:+ ":" +:+ description)).
    rewrite strtok_all_app by done.
    change (type_name +:+ ":" +:+ value +:+ ":" +:+ unit +:+ ":"
            +:+ description)
      with (type_name +:+ String ":" (value +:+ ":" +:+ unit +:+ ":"
                                      +:+ description)).
    rewrite strtok_all_app by done.
    change (value +:+ ":" +:+ unit +:+ ":" +:+ description)
      with (value +:+ String ":" (unit +:+ ":" +:+ description)).
    rewrite strtok_all_app by done.
    change (unit +:+ ":" +:+ description)
      with (unit +:+ String ":" description).
    rewrite strtok_all_app by done.
    by rewrite strtok_all_clean. }
  rewrite Htokens. cbn [String.eqb Ascii.eqb Bool.eqb negb]. by rewrite Htype.
Qed.


(** A line whose first token is not "SENSOR" leaves the structure alone. *)
Lemma parse_arduino_other (raw_data : string) (sensor_data : sensor_data_t D)
    (token : string) (tokens : list string) :
  strtok_all ":" (received_line raw_data) = token :: tokens ->
  token <> "SENSOR" ->
  parse_arduino_sensor_data libc raw_data sensor_data = ((-1)%Z, sensor_data).
Proof.
  intros Htokens Hother. unfold parse_arduino_sensor_data. rewrite Htokens.
  by destruct (String.eqb_spec token "SENSOR").
Qed.

Lemma parse_arduino_first_token (raw_data : string)
    (sensor_data : sensor_data_t D) :
  fst (parse_arduino_sensor_data libc raw_data sensor_data) = 0%Z ->
  exists tokens,
    strtok_all ":" (received_line raw_data) = "SENSOR" :: tokens.
Proof.
  unfold parse_arduino_sensor_data.
  destruct (strtok_all ":" (received_line raw_data)) as [|token tokens];
    [done|].
  destruct (String.eqb_spec token "SENSOR") as [->|_]; [|done].
  intros _. by exists tokens.
Qed.

Lemma parse_modbus_first_token (raw_data : string)
    (sensor_data : sensor_data_t D) :
  fst (parse_modbus_sensor_data libc raw_data sensor_data) = 0%Z ->
  exists tokens, strtok_all ":" (received_line raw_data) = "MB" :: tokens.
Proof.
  unfold parse_modbus_sensor_data.
  destruct (strtok_all ":" (received_line raw_data))
    as [|token [|t1 [|t2 [|t3 tokens]]]]; try done.
  destruct (String.eqb_spec token "MB") as [->|_]; [|done].
  intros _. by eexists.
Qed.

Lemma parse_modbus_status (raw_data : string)
    (sensor_data sensor_data' : sensor_data_t D) :
  fst (parse_modbus_sensor_data libc raw_data sensor_data)
  = fst (parse_modbus_sensor_data libc raw_data sensor_data').
Proof.
  unfold parse_modbus_sensor_data.
  destruct (strtok_all ":" (received_line raw_data))
    as [|token [|t1 [|t2 [|t3 tokens]]]]; try done.
  by destruct (negb (String.eqb token "MB")).
Qed.

(** [parse_hardware_data] dispatches on the first token.  The two formats
    exclude each other, a line begins with "SENSOR" or with "MB"; when one
    of the two parsers accepts the line [parse_hardware_data] returns 0
    with exactly that parser's reading, and when neither does it returns
    -1. *)
Theorem parse_hardware_data_dispatch (raw_data : string)
    (sensor_data : sensor_data_t D) :
  let arduino := parse_arduino_sensor_data libc raw_data sensor_data in
  let modbus := parse_modbus_sensor_data libc raw_data sensor_data in
  ~ (fst arduino = 0%Z /\ fst modbus = 0%Z)
  /\ (fst arduino = 0%Z ->
      parse_hardware_data libc raw_data sensor_data = arduino)
  /\ (fst modbus = 0%Z ->
      parse_hardware_data libc raw_data sensor_data = modbus)
  /\ (fst arduino <> 0%Z -> fst modbus <> 0%Z ->
      fst (parse_hardware_data libc raw_data sensor_data) = (-1)%Z).
Proof.
  intros arduino modbus. split; [|split; [|split]].
  - intros [Ha Hm].
    destruct (parse_arduino_first_token _ _ Ha) as [ta Hta].
    destruct (parse_modbus_first_token _ _ Hm) as [tm Htm].
    rewrite Hta in Htm. done.
  - intros Ha. unfold parse_hardware_data. fold arduino.
    destruct arduino as [status data]. cbn [fst] in Ha. by rewrite Ha.
  - intros Hm. unfold parse_hardware_data.
    destruct (parse_modbus_first_token _ _ Hm) as [tm Htm].
    rewrite (parse_arduino_other raw_data sensor_data "MB" tm) by done.
    cbn [Z.eqb]. fold modbus.
    destruct modbus as [status data]. cbn [fst] in Hm. by rewrite Hm.
  - intros Ha Hm. unfold parse_hardware_data. fold arduino.
    destruct arduino as [status data] eqn:Harduino. cbn [fst] in Ha.
    destruct (Z.eqb_spec status 0) as [E|_]; [done|].
    pose proof (parse_modbus_status raw_data data sensor_data) as Hsame.
    fold modbus in Hsame.
    destruct (parse_modbus_sensor_data libc raw_data data) as [status2 data2].
    cbn [fst] in Hsame. rewrite Hsame.
    by destruct (Z.eqb_spec (fst modbus) 0).
Qed.

(** A failed parse is not without effect.  An Arduino line that stops
    after its value, [SENSOR:TYPE:VALUE], is refused with -1 by
    [parse_hardware_data], yet the type and the value of the caller's
    structure have been overwritten with those of the line. *)
Theorem parse_hardware_data_partial (type_name value : string) (type : Z)
    (sensor_data : sensor_data_t D) :
  arduino_type type_name = Some type ->
  is_field value ->
  (String.length ("SENSOR:" +:+ type_name +:+ ":" +:+ value) < 255)%nat ->
  parse_hardware_data libc
    ("SENSOR:" +:+ type_name +:+ ":" +:+ value +:+ newline) sensor_data
  = ((-1)%Z,
     mk_sensor_data type (c_atof libc value) (sd_timestamp sensor_data)
       (sd_unit sensor_data) (sd_description sensor_data)).
Proof.
  intros Htype Hvalue Hlen.
  destruct (arduino_type_is_field _ _ Htype) as [Hname _].
  destruct Hname as (Hn0 & Hn1 & Hn2 & Hn3).
  destruct Hvalue as (Hv0 & Hv1 & Hv2 & Hv3).
  set (body := "SENSOR:" +:+ type_name +:+ ":" +:+ value) in * .
  replace ("SENSOR:" +:+ type_name +:+ ":" +:+ value +:+ newline)
    with (body +:+ newline)
    by (subst body; by rewrite !string_app_assoc).
  assert (Hline : received_line (body +:+ newline) = body).
  { apply received_line_whole; [subst body..|done];
      rewrite !occurs_app; cbn [occurs];
      rewrite ?Hn2, ?Hv2, ?Hn3, ?Hv3; reflexivity. }
  assert (Htokens : strtok_all ":" body = ["SENSOR"; type_name; value]).
  { subst body.
    change ("SENSOR:" +:+ type_name +:+ ":" +:+ value)
      with ("SENSOR" +:+ String ":" (type_name +:+ ":" +:+ value)).
    rewrite strtok_all_app by done.
    change (type_name +:+ ":" +:+ value)
      with (type_name +:+ String ":" value).
    rewrite strtok_all_app by done.
    by rewrite strtok_all_clean. }
  unfold parse_hardware_data, parse_arduino_sensor_data,
    parse_modbus_sensor_data.
  rewrite Hline, Htokens.
  cbn [String.eqb Ascii.eqb Bool.eqb negb]. rewrite Htype. reflexivity.
Qed.

(** The Modbus format read back.  A line [MB:ADDR:REG:VALUE] ended by a
    line feed, within 255 characters, with non-empty fields free of colons
    and line terminators, parses with status 0: register 1 is a
    temperature and register 2 a humidity in hundredths, register 3 a
    pressure in tenths, and any other register gives the raw value as a
    temperature with the unit "raw" and the address and register in the
    description. *)
Theorem parse_modbus_well_formed (address reg value : string)
    (sensor_data : sensor_data_t D) :
  is_field address -> is_field reg -> is_field value ->
  (String.length ("MB:" +:+ address +:+ ":" +:+ reg +:+ ":" +:+ value)
   < 255)%nat ->
  let raw_value := d_of_int (c_atoi libc value) in
  parse_modbus_sensor_data libc
    ("MB:" +:+ address +:+ ":" +:+ reg +:+ ":" +:+ value +:+ newline)
    sensor_data
  = (0%Z,
     match c_atoi libc reg with
     | 1%Z => mk_sensor_data 0 (raw_value /. d_lit 100)
                (sd_timestamp sensor_data) "Â°C" "Modbus Temperature"
     | 2%Z => mk_sensor_data 3 (raw_value /. d_lit 100)
                (sd_timestamp sensor_data) "%" "Modbus Humidity"
     | 3%Z => mk_sensor_data 4 (raw_value /. d_lit 10)
                (sd_timestamp sensor_data) "hPa" "Modbus Pressure"
     | _ => mk_sensor_data 0 raw_value (sd_timestamp sensor_data) "raw"
              (snprintf_trunc 64
                 ("Modbus Addr:" +:+ fmt_d (c_atoi libc address)
                  +:+ " Reg:" +:+ fmt_d (c_atoi libc reg)))
     end).
Proof.
  intros (Ha0 & Ha1 & Ha2 & Ha3) (Hr0 & Hr1 & Hr2 & Hr3)
    (Hv0 & Hv1 & Hv2 & Hv3) Hlen raw_value.
  set (body := "MB:" +:+ address +:+ ":" +:+ reg +:+ ":" +:+ value) in * .
  replace ("MB:" +:+ address +:+ ":" +:+ reg +:+ ":" +:+ value +:+ newline)
    with (body +:+ newline)
    by (subst body; by rewrite !string_app_assoc).
  assert (Hline : received_line (body +:+ newline) = body).
  { apply received_line_whole; [subst body..|done];
      rewrite !occurs_app; cbn [occurs];
      rewrite ?Ha2, ?Hr2, ?Hv2, ?Ha3, ?Hr3, ?Hv3; reflexivity. }
  assert (Htokens : strtok_all ":" body = ["MB"; address; reg; value]).
  { subst body.
    change ("MB:" +:+ address +:+ ":" +:+ reg +:+ ":" +:+ value)
      with ("MB" +:+ String ":" (address +:+ ":" +:+ reg +:+ ":" +:+ value)).
    rewrite strtok_all_app by done.
    change (address +:+ ":" +:+ reg +:+ ":" +:+ value)
      with (address +:+ String ":" (reg +:+ ":" +:+ value)).
    rewrite strtok_all_app by done.
    change (reg +:+ ":" +:+ value) with (reg +:+ String ":" value).
    rewrite strtok_all_app by done.
    by rewrite strtok_all_clean. }
  unfold parse_modbus_sensor_data. rewrite Hline, Htokens.
  cbn [String.eqb Ascii.eqb Bool.eqb negb]. f_equal.
  destruct (c_atoi libc reg) as [|[p|p|]|p]; try reflexivity;
    destruct p as [p|p|]; try reflexivity; destruct p; reflexivity.
Qed.

End ParserFacts.

Lemma parse_arduino_well_formed_witness :
  parse_arduino_sensor_data decimal_libc
    ("SENSOR:TEMP:23.45:C:Temperature" +:+ newline) stale_reading
  = (0%Z,
     mk_sensor_data 0 23.45%float (mk_time 1700000000 0) "C" "Temperature").
Proof.
  assert (Hvalue : is_field "23.45") by (by repeat split).
  assert (Hunit : is_field "C") by (by repeat split).
  assert (Hdescription : is_field "Temperature") by (by repeat split).
  pose proof (parse_arduino_well_formed decimal_libc "TEMP" "23.45" "C"
                "Temperature" 0 stale_reading eq_refl
                Hvalue Hunit Hdescription) as Hparse.
  change ("SENSOR:TEMP:23.45:C:Temperature" +:+ newline)
    with ("SENSOR:" +:+ "TEMP" +:+ ":" +:+ "23.45" +:+ ":" +:+ "C" +:+ ":"
          +:+ "Temperature" +:+ newline).
  rewrite Hparse by (vm_compute; lia).
  vm_compute. reflexivity.
Defined.

Lemma parse_hardware_data_dispatch_witness :
  parse_hardware_data decimal_libc ("MB:01:0001:2345" +:+ newline)
    stale_reading
  = (0%Z,
     mk_sensor_data 0 23.45%float (mk_time 1700000000 0) "Â°C"
       "Modbus Temperature").
Proof.
  destruct (parse_hardware_data_dispatch decimal_libc
              ("MB:01:0001:2345" +:+ newline) stale_reading)
    as (_ & _ & Hmodbus & _).
  rewrite Hmodbus by (vm_compute; reflexivity).
  vm_compute. reflexivity.
Defined.

Lemma parse_hardware_data_partial_witness :
  parse_hardware_data decimal_libc ("SENSOR:VIB:0.75" +:+ newline)
    stale_reading
  = ((-1)%Z,
     mk_sensor_data 1 0.75%float (mk_time 1700000000 0) "%"
       "Relative Humidity").
Proof.
  assert (Hvalue : is_field "0.75") by (by repeat split).
  change ("SENSOR:VIB:0.75" +:+ newline)
    with ("SENSOR:" +:+ "VIB" +:+ ":" +:+ "0.75" +:+ newline).
  rewrite (parse_hardware_data_partial decimal_libc "VIB" "0.75" 1
             stale_reading eq_refl Hvalue) by (vm_compute; lia).
  vm_compute. reflexivity.
Defined.

Lemma parse_modbus_well_formed_witness :
  parse_modbus_sensor_data decimal_libc ("MB:07:0009:1234" +:+ newline)
    stale_reading
  = (0%Z,
     mk_sensor_data 0 1234%float (mk_time 1700000000 0) "raw"
       "Modbus Addr:7 Reg:9").
Proof.
  assert (Ha : is_field "07") by (by repeat split).
  assert (Hr : is_field "0009") by (by repeat split).
  assert (Hv : is_field "1234") by (by repeat split).
  change ("MB:07:0009:1234" +:+ newline)
    with ("MB:" +:+ "07" +:+ ":" +:+ "0009" +:+ ":" +:+ "1234" +:+ newline).
  rewrite (parse_modbus_well_formed decimal_libc "07" "0009" "1234"
             stale_reading Ha Hr Hv) by (vm_compute; lia).
  vm_compute. reflexivity.
Defined.

(** * [trim_whitespace] *)

Section TrimFacts.

Lemma count_leading_spec (l : list Ascii.ascii) :
  (count_leading l <= length l)%nat
  /\ (forall i, (i < count_leading l)%nat -> space_at l i = true)
  /\ (count_leading l < length l -> space_at l (count_leading l) = false).
Proof.
  induction l as [|c l (IHle & IHspaces & IHstop)].
  - cbn. split; [lia|]. split; intros; lia.
  - cbn [count_leading length]. destruct (isspace c) eqn:Hc.
    + split; [lia|]. split.
      * intros [|i] Hi; [unfold space_at; cbn; done|].
        unfold space_at in * . cbn. apply IHspaces. lia.
      * intros Hlt. unfold space_at in * . cbn. apply IHstop. lia.
    + split; [lia|]. split; [intros; lia|].
      intros _. unfold space_at. cbn. done.
Qed.

Lemma trailing_scan_spec (l : list Ascii.ascii) (str e : nat) :
  (str <= e)%nat ->
  (str <= trailing_scan l str e <= e)%nat
  /\ (forall i, (trailing_scan l str e < i <= e)%nat -> space_at l i = true)
  /\ ((str < trailing_scan l str e)%nat ->
      space_at l (trailing_scan l str e) = false).
Proof.
  induction e as [|e IH]; intros Hle.
  - cbn. split; [lia|]. split; intros; lia.
  - cbn [trailing_scan].
    destruct (Nat.ltb_spec str (S e)) as [Hlt|Hge]; cbn [andb].
    + destruct (space_at l (S e)) eqn:Hspace.
      * destruct IH as (Hrange & Hspaces & Hstop); [lia|].
        split; [lia|]. split; [|done].
        intros i Hi. destruct (decide (i = S e)) as [->|Hne]; [done|].
        apply Hspaces. lia.
      * split; [lia|]. split; [intros; lia|done].
    + split; [lia|]. split; intros; lia.
Qed.

Lemma count_leading_take (l : list Ascii.ascii) (n : nat) :
  (count_leading l < n)%nat -> count_leading (take n l) = count_leading l.
Proof.
  revert n. induction l as [|c l IH]; intros n Hn.
  - by rewrite take_nil.
  - destruct n as [|n]; [lia|]. cbn [take count_leading] in * .
    destruct (isspace c); [|done]. rewrite IH; [done|lia].
Qed.

(** [trim_whitespace] trims at the end only.  What it removes from the
    caller's string is a run of white space at its end, and when the
    string has a character that is not white space the result ends in
    such a character.  White space at the start is kept, the pointer
    advanced over it being the function's own copy; and a string of white
    space only is left as it is. *)
Theorem trim_whitespace_trailing_only (l : list Ascii.ascii) :
  (exists removed,
     l = trim_whitespace l ++ removed
     /\ Forall (fun c => isspace c = true) removed)
  /\ count_leading (trim_whitespace l) = count_leading l
  /\ ((count_leading l < length l)%nat ->
      exists body c,
        trim_whitespace l = body ++ [c] /\ isspace c = false)
  /\ (count_leading l = length l -> trim_whitespace l = l).
Proof.
  destruct (count_leading_spec l) as (Hle & Hspaces & Hstop).
  unfold trim_whitespace.
  destruct (Nat.eqb_spec (count_leading l) (length l)) as [Hall|Hsome].
  { split; [exists []; by rewrite app_nil_r|].
    split; [done|]. split; [lia|done]. }
  assert (Hlt : (count_leading l < length l)%nat) by lia.
  destruct (trailing_scan_spec l (count_leading l) (length l - 1))
    as (Hrange & Htail & Hlast); [lia|].
  set (e := trailing_scan l (count_leading l) (length l - 1)) in * .
  assert (Hend : exists c, l !! e = Some c /\ isspace c = false).
  { assert (Hnot : space_at l e = false).
    { destruct (decide (count_leading l < e)%nat) as [Hin|Hout];
        [by apply Hlast|].
      replace e with (count_leading l) by lia. by apply Hstop. }
    unfold space_at in Hnot.
    destruct (l !! e) as [c|] eqn:Hc; [by exists c|].
    apply lookup_ge_None in Hc. lia. }
  destruct Hend as (c & Hc & Hnotspace).
  split; [|split; [|split]].
  - exists (drop (e + 1) l). split; [by rewrite take_drop|].
    apply Forall_lookup. intros i x Hx.
    rewrite lookup_drop in Hx.
    assert (Hi : (e + 1 + i < length l)%nat)
      by (apply lookup_lt_is_Some; by exists x).
    specialize (Htail (e + 1 + i)%nat). unfold space_at in Htail.
    rewrite Hx in Htail. apply Htail. lia.
  - apply count_leading_take. lia.
  - intros _. exists (take e l), c. split; [|done].
    replace (e + 1)%nat with (S e) by lia. by apply take_S_r.
  - intros Heq. lia.
Qed.

End TrimFacts.

Lemma trim_whitespace_trailing_only_witness :
  trim_whitespace (String.list_ascii_of_string "  bridge 7  ")
  = String.list_ascii_of_string "  bridge 7"
  /\ count_leading (trim_whitespace (String.list_ascii_of_string "  bridge 7  ")) = 2%nat.
Proof.
  destruct (trim_whitespace_trailing_only
              (String.list_ascii_of_string "  bridge 7  ")) as (_ & Hlead & _).
  split; [vm_compute; reflexivity|].
  rewrite Hlead. vm_compute. reflexivity.
Defined.
